(** * Media generation scripts: request building, submission, polling, extraction

    A shallow embedding of [scripts/generate_image.py] and
    [scripts/generate_video.py].  Both scripts are sequential programs that
    print, read and write files, call a remote service and leave through
    [sys.exit(1)], an uncaught exception, or a returned path.  A run is
    modelled as the list of observable events it produces together with the
    way it ends. *)

From Stdlib Require Import String Ascii List ZArith Bool Lia.
Import ListNotations.
Local Open Scope string_scope.
Local Open Scope list_scope.

(** ** Python values used by both scripts *)

Module Py.

(** Raw file contents ([bytes]). *)
Definition bytes := list Byte.byte.

(** Truth value of a [str | None]: [None] and [""] are falsy. *)
Definition truthy (v : option string) : bool :=
  match v with
  | None => false
  | Some s => negb (s =? "")
  end.

(** [a or b] on [str | None] values. *)
Definition or_ (a b : option string) : option string :=
  if truthy a then a else b.

(** Exceptions that reach the scripts.  [Exception_] stands for whatever a
    library call raises and the script catches with [except Exception as e]
    (only its message is used). *)
Inductive exn : Type :=
  | FileNotFoundError (msg : string)
  | OSError (msg : string)
  | IndexError
  | TypeError (msg : string)
  | AttributeError (msg : string)
  | Exception_ (msg : string).

Definition str_of_exn (e : exn) : string :=
  match e with
  | FileNotFoundError m => m
  | OSError m => m
  | IndexError => "list index out of range"
  | TypeError m => m
  | AttributeError m => m
  | Exception_ m => m
  end.

Definition not_subscriptable : exn :=
  TypeError "'NoneType' object is not subscriptable".
Definition not_iterable : exn :=
  TypeError "'NoneType' object is not iterable".
Definition no_generated_videos : exn :=
  AttributeError "'NoneType' object has no attribute 'generated_videos'".

(** What a path names on disk. *)
Inductive fsnode : Type :=
  | File (content : bytes)
  | Dir.

End Py.

(** ** The service objects the scripts touch *)

(** [types.Part.from_bytes(data, mime_type)] / an [inline_data] blob. *)
Record Blob : Type := mkBlob {
  blob_data : Py.bytes;
  blob_mime_type : string
}.

(** One entry of the [contents] list handed to [generate_content]. *)
Inductive content_item : Type :=
  | PartFromBytes (b : Blob)
  | PromptText (prompt : string).

(** A part of a response: both attributes always exist on the SDK object,
    either may be [None]. *)
Record Part : Type := mkPart {
  inline_data : option Blob;
  text : option string
}.

Record Content : Type := mkContent {
  parts : option (list Part)
}.

Record Candidate : Type := mkCandidate {
  content : Content
}.

Record Response : Type := mkResponse {
  candidates : option (list Candidate)
}.

(** [genai.Client(api_key=...)]. *)
Record Client : Type := mkClient {
  client_api_key : string
}.

(** [types.Image(image_bytes=..., mime_type=...)]. *)
Record Image : Type := mkImage {
  image_bytes : Py.bytes;
  image_mime_type : string
}.

(** [types.GenerateVideosConfig(negative_prompt=...)]. *)
Record GenerateVideosConfig : Type := mkVideosConfig {
  negative_prompt : string
}.

(** A generated video: a remote reference identified by its name. *)
Record GeneratedVideo : Type := mkGeneratedVideo {
  video : string
}.

(** The long-running operation object.  [done] is false while the job is
    pending ([None] counts as false); [error] is the service's error detail,
    falsy when [None] or empty; [result] is [None] or the list
    [result.generated_videos]. *)
Record Operation : Type := mkOperation {
  done : bool;
  error : option string;
  result : option (list GeneratedVideo)
}.

(** ** Observable events *)

(** Messages printed by the scripts, one constructor per [print] site. *)
Inductive message : Type :=
  | NoApiKeyProvided
  | SetGeminiApiKeyHint
  | InvalidResolution (resolution : string)
  | ErrorCallingGeminiApi (e : string)
  | ImageSaved (full_path : string)
  | NoImageGenerated
  | ModelResponse (text : string)
  | InputImageNotFound (path : string)
  | LoadingInputImage (path : string)
  | StartingVideoGeneration (model : string)
  | Prompt (prompt : string)
  | NegativePrompt (negative : string)
  | ErrorStartingVideoGeneration (e : string)
  | GeneratingVideo
  | Waiting (elapsed_seconds : Z)
  | ErrorCheckingOperationStatus (e : string)
  | ErrorGeneratingVideo (detail : string)
  | VideoSaved (full_path : string)
  | ErrorSavingVideo (e : string).

Inductive event : Type :=
  | Stdout (m : message)
  | Stderr (m : message)
  | ReadFile (path : string)
  | Mkdir (dir : string)
  | WriteBytes (path : string) (data : Py.bytes)
  | Sleep (seconds : Z)
  (* calls that go over the network *)
  | GenerateContent (c : Client) (model : string)
      (contents : list content_item) (image_size : string)
  | GenerateVideos (c : Client) (model prompt : string)
      (image : option Image) (config : option GenerateVideosConfig)
  | OperationsGet (c : Client)
  | FilesDownload (c : Client) (file : string)
  | VideoSave (path : string).

Definition is_network_call (e : event) : bool :=
  match e with
  | GenerateContent _ _ _ _ | GenerateVideos _ _ _ _ _
  | OperationsGet _ | FilesDownload _ _ => true
  | _ => false
  end.

Definition no_network_call (tr : list event) : Prop :=
  Forall (fun e => is_network_call e = false) tr.

(** The client key every network call of a trace was made with. *)
Definition client_of (e : event) : option Client :=
  match e with
  | GenerateContent c _ _ _ | GenerateVideos c _ _ _ _
  | OperationsGet c | FilesDownload c _ => Some c
  | _ => None
  end.

(** ** How a run ends *)

(** The [sys.exit(1)] sites, named after the error they report. *)
Inductive failure : Type :=
  | MissingCredential
  | InvalidOption
  | InputNotFound
  | ServiceError (msg : string)
  | GenerationFailed (detail : string)
  | NoMediaProduced
  | PersistenceError (msg : string).

(** A run ends early by [sys.exit], by an exception nobody catches, or never:
    [Hang] is a run still waiting for an answer the service does not give. *)
Inductive halt : Type :=
  | SysExit (code : Z) (f : failure)
  | Uncaught (e : Py.exn)
  | Hang.

(** A computation: the events so far and either an early end or a value. *)
Definition run (A : Type) : Type := list event * (halt + A).

Definition ret {A} (a : A) : run A := ([], inr a).

Definition bind {A B} (m : run A) (k : A -> run B) : run B :=
  match m with
  | (tr, inl h) => (tr, inl h)
  | (tr, inr a) => let '(tr', r) := k a in (tr ++ tr', r)
  end.

Definition emit (e : event) : run unit := ([e], inr tt).
Definition sys_exit {A} (f : failure) : run A := ([], inl (SysExit 1 f)).
Definition raise {A} (e : Py.exn) : run A := ([], inl (Uncaught e)).

(** A library call that either raises or returns. *)
Definition call {A} (e : event) (r : Py.exn + A) : run A :=
  match r with
  | inl x => ([e], inl (Uncaught x))
  | inr a => ([e], inr a)
  end.

(** [try: m except Exception as e: handler e]. *)
Definition try_except {A} (m : run A) (handler : Py.exn -> run A) : run A :=
  match m with
  | (tr, inl (Uncaught e)) => let '(tr', r) := handler e in (tr ++ tr', r)
  | other => other
  end.

Notation "x <- m ;; k" := (bind m (fun x => k))
  (at level 61, m at next level, right associativity).
Notation "m ;;; k" := (bind m (fun _ => k))
  (at level 61, right associativity).

(** ** Everything outside the scripts *)

(** The process environment, the disk, the standard library functions and the
    remote service, as one run of a script sees them. *)
Record World : Type := mkWorld {
  (* os.environ.get("GEMINI_API_KEY") *)
  environ_GEMINI_API_KEY : option string;
  (* the files and directories that exist *)
  fs : string -> option Py.fsnode;
  (* mimetypes.guess_type(path)[0] *)
  guess_type : string -> option string;
  (* base64.standard_b64encode(...).decode("utf-8") and standard_b64decode *)
  standard_b64encode : Py.bytes -> string;
  standard_b64decode : string -> Py.bytes;
  (* Path(p).parent and str(Path(p).resolve()) *)
  path_parent : string -> string;
  path_resolve : string -> string;
  (* mkdir(parents=True, exist_ok=True) and write_bytes may fail *)
  mkdir_parents : string -> option Py.exn;
  write_bytes : string -> Py.bytes -> option Py.exn;
  (* client.models.generate_content *)
  generate_content :
    Client -> string -> list content_item -> string -> Py.exn + Response;
  (* client.models.generate_videos *)
  generate_videos :
    Client -> string -> string -> option Image ->
    option GenerateVideosConfig -> Py.exn + Operation;
  (* the successive answers of client.operations.get *)
  operations_get : list (Py.exn + Operation);
  (* client.files.download and video.save *)
  files_download : string -> option Py.exn;
  video_save : string -> string -> option Py.exn
}.

(** A library call made for its effect only. *)
Definition effect (e : event) (r : option Py.exn) : run unit :=
  match r with
  | Some x => ([e], inl (Uncaught x))
  | None => ([e], inr tt)
  end.

(** ** Credential resolution (both scripts, same text) *)

(** [resolved_api_key = api_key or os.environ.get("GEMINI_API_KEY")]
    followed by the [if not resolved_api_key:] exit. *)
Definition resolved_api_key (w : World) (api_key : option string)
  : option string :=
  Py.or_ api_key (environ_GEMINI_API_KEY w).

Definition resolve_api_key (w : World) (api_key : option string)
  : run string :=
  match resolved_api_key w api_key with
  | Some k =>
      if k =? "" then
        emit (Stderr NoApiKeyProvided) ;;;
        emit (Stderr SetGeminiApiKeyHint) ;;;
        sys_exit MissingCredential
      else ret k
  | None =>
      emit (Stderr NoApiKeyProvided) ;;;
      emit (Stderr SetGeminiApiKeyHint) ;;;
      sys_exit MissingCredential
  end.

(** ** [scripts/generate_image.py] *)

Module ImageScript.

(** [get_mime_type]: the guessed type, PNG when the guess is [None]. *)
Definition get_mime_type (w : World) (file_path : string) : string :=
  match guess_type w file_path with
  | None => "image/png"
  | Some mime_type => mime_type
  end.

(** [load_image_as_base64]: raises [FileNotFoundError] when the path does not
    exist, otherwise reads the file and returns [(base64_data, mime_type)]. *)
Definition load_image_as_base64 (w : World) (file_path : string)
  : run (string * string) :=
  match fs w file_path with
  | None =>
      raise (Py.FileNotFoundError ("Input image not found: " ++ file_path))
  | Some node =>
      image_data <- call (ReadFile file_path)
        (match node with
         | Py.File d => inr d
         | Py.Dir => inl (Py.OSError "Is a directory")
         end) ;;
      let base64_data := standard_b64encode w image_data in
      let mime_type := get_mime_type w file_path in
      ret (base64_data, mime_type)
  end.

Definition valid_resolutions : list string := ["1K"; "2K"; "4K"].

(** [resolution not in valid_resolutions] exits. *)
Definition validate_resolution (resolution : string) : run unit :=
  if existsb (String.eqb resolution) valid_resolutions then ret tt
  else
    emit (Stderr (InvalidResolution resolution)) ;;;
    sys_exit InvalidOption.

(** Lines 91-104: the [contents] list, the input image first when
    [input_image_path] is truthy, the prompt always last. *)
Definition build_contents (w : World) (prompt : string)
    (input_image_path : option string) : run (list content_item) :=
  let contents := [] in
  contents <-
    (match input_image_path with
     | Some p =>
         if p =? "" then ret contents
         else
           loaded <- load_image_as_base64 w p ;;
           let '(base64_data, mime_type) := loaded in
           ret (contents ++
                [PartFromBytes
                   (mkBlob (standard_b64decode w base64_data) mime_type)])
     | None => ret contents
     end) ;;
  ret (contents ++ [PromptText prompt]).

(** [response.candidates[0].content.parts] as an expression: indexing an
    empty list raises [IndexError], indexing [None] raises [TypeError]. *)
Definition first_candidate_parts (response : Response)
  : Py.exn + option (list Part) :=
  match candidates response with
  | None => inl Py.not_subscriptable
  | Some [] => inl Py.IndexError
  | Some (c :: _) => inr (parts (content c))
  end.

(** Lines 130-137: the [for] loop that returns at the first part whose
    [inline_data] is not [None].  [None] means the loop ran to its end. *)
Fixpoint scan_parts (w : World) (output_file : string) (ps : list Part)
  : run (option string) :=
  match ps with
  | [] => ret None
  | part :: rest =>
      match inline_data part with
      | Some blob =>
          let image_data := blob_data blob in
          effect (Mkdir (path_parent w output_file))
                 (mkdir_parents w (path_parent w output_file)) ;;;
          effect (WriteBytes output_file image_data)
                 (write_bytes w output_file image_data) ;;;
          let full_path := path_resolve w output_file in
          emit (Stdout (ImageSaved full_path)) ;;;
          ret (Some full_path)
      | None => scan_parts w output_file rest
      end
  end.

(** Lines 142-144: print every truthy [part.text]. *)
Fixpoint print_model_responses (ps : list Part) : run unit :=
  match ps with
  | [] => ret tt
  | part :: rest =>
      (if Py.truthy (text part) then
         match text part with
         | Some t => emit (Stderr (ModelResponse t))
         | None => ret tt
         end
       else ret tt) ;;;
      print_model_responses rest
  end.

(** Line 141: [response.candidates and response.candidates[0].content.parts],
    giving the parts to walk when the guard holds. *)
Definition guarded_parts (response : Response) : option (list Part) :=
  match candidates response with
  | Some (c :: _) =>
      match parts (content c) with
      | Some (p :: ps) => Some (p :: ps)
      | _ => None
      end
  | _ => None
  end.

(** Lines 127-145. *)
Definition extract_and_save (w : World) (output_path : string)
    (response : Response) : run string :=
  let output_file := output_path in
  ps <- (match first_candidate_parts response with
         | inl e => raise e
         | inr None => raise Py.not_iterable
         | inr (Some ps) => ret ps
         end) ;;
  saved <- scan_parts w output_file ps ;;
  match saved with
  | Some full_path => ret full_path
  | None =>
      emit (Stderr NoImageGenerated) ;;;
      (match guarded_parts response with
       | Some ps' => print_model_responses ps'
       | None => ret tt
       end) ;;;
      sys_exit NoMediaProduced
  end.

Definition model : string := "gemini-3-pro-image-preview".

(** Lines 90-145: build the request, call the service, save the answer. *)
Definition request_and_save (w : World) (client : Client)
    (prompt output_path resolution : string)
    (input_image_path : option string) : run string :=
  contents <- build_contents w prompt input_image_path ;;
  response <-
    try_except
      (call (GenerateContent client model contents resolution)
            (generate_content w client model contents resolution))
      (fun e =>
         emit (Stderr (ErrorCallingGeminiApi (Py.str_of_exn e))) ;;;
         sys_exit (ServiceError (Py.str_of_exn e))) ;;
  extract_and_save w output_path response.

(** [generate_image]. *)
Definition generate_image (w : World) (prompt output_path resolution : string)
    (input_image_path api_key : option string) : run string :=
  key <- resolve_api_key w api_key ;;
  validate_resolution resolution ;;;
  let client := mkClient key in
  request_and_save w client prompt output_path resolution input_image_path.

End ImageScript.

(** ** [scripts/generate_video.py] *)

Module VideoScript.

(** Lines 60-64: [config_kwargs] gets the negative prompt when it is truthy;
    an empty [config_kwargs] gives [config = None]. *)
Definition build_config (negative : option string)
  : option GenerateVideosConfig :=
  match negative with
  | Some n => if n =? "" then None else Some (mkVideosConfig n)
  | None => None
  end.

(** Lines 78-79: [mime_type = mime_type or "image/jpeg"]. *)
Definition input_image_mime_type (w : World) (input_image_path : string)
  : string :=
  match Py.or_ (guess_type w input_image_path) (Some "image/jpeg") with
  | Some mime_type => mime_type
  | None => "image/jpeg"
  end.

(** Lines 67-82. *)
Definition load_input_image (w : World) (input_image_path : option string)
  : run (option Image) :=
  match input_image_path with
  | Some p =>
      if p =? "" then ret None
      else
        match fs w p with
        | None =>
            emit (Stderr (InputImageNotFound p)) ;;;
            sys_exit InputNotFound
        | Some node =>
            emit (Stdout (LoadingInputImage p)) ;;;
            let mime_type := input_image_mime_type w p in
            image_data <- call (ReadFile p)
              (match node with
               | Py.File d => inr d
               | Py.Dir => inl (Py.OSError "Is a directory")
               end) ;;
            ret (Some (mkImage image_data mime_type))
        end
  | None => ret None
  end.

(** Lines 85-106: the announcement and the submission.  Both branches of
    [if image:] make the same call, with or without the image. *)
Definition start_generation (w : World) (client : Client)
    (model prompt : string) (negative : option string)
    (image : option Image) (config : option GenerateVideosConfig)
  : run Operation :=
  emit (Stdout (StartingVideoGeneration model)) ;;;
  emit (Stdout (Prompt prompt)) ;;;
  (match negative with
   | Some n => if n =? "" then ret tt else emit (Stdout (NegativePrompt n))
   | None => ret tt
   end) ;;;
  try_except
    (call (GenerateVideos client model prompt image config)
          (generate_videos w client model prompt image config))
    (fun e =>
       emit (Stderr (ErrorStartingVideoGeneration (Py.str_of_exn e))) ;;;
       sys_exit (ServiceError (Py.str_of_exn e))).

(** Lines 110-119: [while not operation.done].  [answers] are the answers
    [client.operations.get] will give, in order; the loop has no bound of its
    own and hangs when the job is still pending and no answer is left. *)
Fixpoint wait_for_completion (client : Client)
    (answers : list (Py.exn + Operation)) (poll_count : Z)
    (operation : Operation) {struct answers} : run Operation :=
  if done operation then ret operation
  else
    let poll_count := (poll_count + 1)%Z in
    emit (Stdout (Waiting (poll_count * 20)%Z)) ;;;
    emit (Sleep 20) ;;;
    match answers with
    | [] => ([OperationsGet client], inl Hang)
    | answer :: answers' =>
        operation <-
          try_except
            (call (OperationsGet client) answer)
            (fun e =>
               emit (Stderr (ErrorCheckingOperationStatus (Py.str_of_exn e))) ;;;
               sys_exit (ServiceError (Py.str_of_exn e))) ;;
        wait_for_completion client answers' poll_count operation
    end.

(** Lines 122-124: [if operation.error:]. *)
Definition check_for_errors (operation : Operation) : run unit :=
  match error operation with
  | Some detail =>
      if detail =? "" then ret tt
      else
        emit (Stderr (ErrorGeneratingVideo detail)) ;;;
        sys_exit (GenerationFailed detail)
  | None => ret tt
  end.

(** Lines 127-139: the directory is made outside the [try], the download and
    the save inside it. *)
Definition download_and_save (w : World) (client : Client)
    (output_path : string) (operation : Operation) : run string :=
  let output_file := output_path in
  effect (Mkdir (path_parent w output_file))
         (mkdir_parents w (path_parent w output_file)) ;;;
  try_except
    (generated_video <-
       (match result operation with
        | None => raise Py.no_generated_videos
        | Some [] => raise Py.IndexError
        | Some (v :: _) => ret v
        end) ;;
     effect (FilesDownload client (video generated_video))
            (files_download w (video generated_video)) ;;;
     effect (VideoSave output_file)
            (video_save w (video generated_video) output_file) ;;;
     let full_path := path_resolve w output_file in
     emit (Stdout (VideoSaved full_path)) ;;;
     ret full_path)
    (fun e =>
       emit (Stderr (ErrorSavingVideo (Py.str_of_exn e))) ;;;
       sys_exit (PersistenceError (Py.str_of_exn e))).

(** Lines 108-139: everything after the submission returned a handle. *)
Definition poll_and_save (w : World) (client : Client) (output_path : string)
    (operation : Operation) : run string :=
  emit (Stdout GeneratingVideo) ;;;
  operation <- wait_for_completion client (operations_get w) 0 operation ;;
  check_for_errors operation ;;;
  download_and_save w client output_path operation.

(** Lines 59-139: everything after the credential check. *)
Definition generate_with_client (w : World) (client : Client)
    (prompt output_path model : string)
    (negative input_image_path : option string) : run string :=
  let config := build_config negative in
  image <- load_input_image w input_image_path ;;
  operation <- start_generation w client model prompt negative image config ;;
  poll_and_save w client output_path operation.

(** [generate_video]. *)
Definition generate_video (w : World) (prompt output_path model : string)
    (negative input_image_path api_key : option string) : run string :=
  key <- resolve_api_key w api_key ;;
  let client := mkClient key in
  generate_with_client w client prompt output_path model negative
    input_image_path.

End VideoScript.

(** ** Reading traces *)

(** The [contents] argument of every [generate_content] call of a trace. *)
Fixpoint submitted_contents (tr : list event) : list (list content_item) :=
  match tr with
  | [] => []
  | GenerateContent _ _ contents _ :: tr' => contents :: submitted_contents tr'
  | _ :: tr' => submitted_contents tr'
  end.

Definition is_poll (e : event) : bool :=
  match e with OperationsGet _ => true | _ => false end.

Definition is_delay (e : event) : bool :=
  match e with Sleep _ => true | _ => false end.

(** Events of the video extraction step (directory, download, save). *)
Definition is_extraction (e : event) : bool :=
  match e with
  | Mkdir _ | FilesDownload _ _ | VideoSave _ | WriteBytes _ _ => true
  | _ => false
  end.

Definition count (f : event -> bool) (tr : list event) : nat :=
  length (filter f tr).

(** Every network call of the trace goes through client [c]. *)
Definition calls_use_client (c : Client) (tr : list event) : Prop :=
  Forall (fun e => match client_of e with
                   | Some c' => c' = c
                   | None => True
                   end) tr.

(** What the credential check prints before it exits. *)
Definition missing_credential_trace : list event :=
  [Stderr NoApiKeyProvided; Stderr SetGeminiApiKeyHint].

(** The events of polls number [n+1], ..., [n+k] that got an answer:
    progress line, twenty seconds of sleep, status query. *)
Fixpoint polling_trace (c : Client) (n : Z) (k : nat) : list event :=
  match k with
  | O => []
  | S k' =>
      [Stdout (Waiting ((n + 1) * 20)%Z); Sleep 20; OperationsGet c]
      ++ polling_trace c (n + 1)%Z k'
  end.

(** The same world with another value of the environment variable. *)
Definition set_environ (w : World) (v : option string) : World :=
  mkWorld v (fs w) (guess_type w) (standard_b64encode w)
    (standard_b64decode w) (path_parent w) (path_resolve w)
    (mkdir_parents w) (write_bytes w) (generate_content w)
    (generate_videos w) (operations_get w) (files_download w) (video_save w).

(** The same service with another list of answers to the status query. *)
Definition set_operations_get (w : World)
    (answers : list (Py.exn + Operation)) : World :=
  mkWorld (environ_GEMINI_API_KEY w) (fs w) (guess_type w)
    (standard_b64encode w) (standard_b64decode w) (path_parent w)
    (path_resolve w) (mkdir_parents w) (write_bytes w) (generate_content w)
    (generate_videos w) answers (files_download w) (video_save w).

(** ** A concrete world for the examples *)

Module Scenario.

Definition png_bytes : Py.bytes :=
  [Byte.x89; Byte.x50; Byte.x4e; Byte.x47].
Definition jpg_bytes : Py.bytes :=
  [Byte.xff; Byte.xd8; Byte.xff; Byte.xe0].

(** The text before the last ["/"] of a relative path, ["."] when there is
    none. *)
Fixpoint has_slash (s : string) : bool :=
  match s with
  | EmptyString => false
  | String c rest => Ascii.eqb c "/"%char || has_slash rest
  end.

Fixpoint before_last_slash (s : string) : string :=
  match s with
  | EmptyString => EmptyString
  | String c rest =>
      if has_slash rest then String c (before_last_slash rest)
      else EmptyString
  end.

Definition parent (p : string) : string :=
  if has_slash p then before_last_slash p else ".".

Definition text_part (t : string) : Part := mkPart None (Some t).
Definition image_part (d : Py.bytes) : Part :=
  mkPart (Some (mkBlob d "image/png")) None.

Definition pending : Operation := mkOperation false None None.
Definition done_success : Operation :=
  mkOperation true None (Some [mkGeneratedVideo "files/clip-1"]).
Definition done_error : Operation :=
  mkOperation true (Some "quota exceeded") None.

(** A disk with one JPEG, one file of unknown type and one directory; a
    service that answers an image request with a text part followed by the
    picture, and a video request with a pending handle. *)
Definition world : World :=
  {| environ_GEMINI_API_KEY := None;
     fs := fun p =>
       if p =? "photo.jpg" then Some (Py.File jpg_bytes)
       else if p =? "sketch.xyz" then Some (Py.File png_bytes)
       else if p =? "album" then Some Py.Dir
       else None;
     guess_type := fun p =>
       if p =? "photo.jpg" then Some "image/jpeg" else None;
     standard_b64encode := string_of_list_byte;
     standard_b64decode := list_byte_of_string;
     path_parent := parent;
     path_resolve := fun p => ("/home/user/" ++ p)%string;
     mkdir_parents := fun _ => None;
     write_bytes := fun _ _ => None;
     generate_content := fun _ _ _ _ =>
       inr (mkResponse (Some [mkCandidate (mkContent (Some
              [text_part "Here is your picture."; image_part png_bytes]))]));
     generate_videos := fun _ _ _ _ _ => inr pending;
     operations_get := [inr pending; inr pending; inr done_success];
     files_download := fun _ => None;
     video_save := fun _ _ => None |}.

(** The same, with the service answering an image request by [r]. *)
Definition world_answering (r : Response) : World :=
  {| environ_GEMINI_API_KEY := environ_GEMINI_API_KEY world;
     fs := fs world;
     guess_type := guess_type world;
     standard_b64encode := standard_b64encode world;
     standard_b64decode := standard_b64decode world;
     path_parent := path_parent world;
     path_resolve := path_resolve world;
     mkdir_parents := mkdir_parents world;
     write_bytes := write_bytes world;
     generate_content := fun _ _ _ _ => inr r;
     generate_videos := generate_videos world;
     operations_get := operations_get world;
     files_download := files_download world;
     video_save := video_save world |}.

End Scenario.

(** ** Further readings of a trace *)

(** The elapsed seconds announced by the progress lines, in order. *)
Fixpoint elapsed_reports (tr : list event) : list Z :=
  match tr with
  | [] => []
  | Stdout (Waiting seconds) :: tr' => seconds :: elapsed_reports tr'
  | _ :: tr' => elapsed_reports tr'
  end.

(** The network calls of a trace, in order. *)
Definition network_calls (tr : list event) : list event :=
  filter is_network_call tr.

(** Whether a line announcing the saved file was printed. *)
Definition is_saved_line (e : event) : bool :=
  match e with
  | Stdout (ImageSaved _) | Stdout (VideoSaved _) => true
  | _ => false
  end.

(** The same world with another disk. *)
Definition set_fs (w : World)
    (v : string -> option Py.fsnode) : World :=
  mkWorld (environ_GEMINI_API_KEY w) v (guess_type w)
    (standard_b64encode w) (standard_b64decode w) (path_parent w)
    (path_resolve w) (mkdir_parents w) (write_bytes w) (generate_content
    w) (generate_videos w) (operations_get w) (files_download w)
    (video_save w).

(** The same world with another outcome of making directories. *)
Definition set_mkdir_parents (w : World)
    (v : string -> option Py.exn) : World :=
  mkWorld (environ_GEMINI_API_KEY w) (fs w) (guess_type w)
    (standard_b64encode w) (standard_b64decode w) (path_parent w)
    (path_resolve w) v (write_bytes w) (generate_content w)
    (generate_videos w) (operations_get w) (files_download w) (video_save
    w).

(** The same world with another outcome of writing files. *)
Definition set_write_bytes (w : World)
    (v : string -> Py.bytes -> option Py.exn) : World :=
  mkWorld (environ_GEMINI_API_KEY w) (fs w) (guess_type w)
    (standard_b64encode w) (standard_b64decode w) (path_parent w)
    (path_resolve w) (mkdir_parents w) v (generate_content w)
    (generate_videos w) (operations_get w) (files_download w) (video_save
    w).

(** The same world with another answer to image requests. *)
Definition set_generate_content (w : World)
    (v : Client -> string -> list content_item -> string -> Py.exn + Response) : World :=
  mkWorld (environ_GEMINI_API_KEY w) (fs w) (guess_type w)
    (standard_b64encode w) (standard_b64decode w) (path_parent w)
    (path_resolve w) (mkdir_parents w) (write_bytes w) v (generate_videos
    w) (operations_get w) (files_download w) (video_save w).

(** The same world with another answer to video submissions. *)
Definition set_generate_videos (w : World)
    (v : Client -> string -> string -> option Image ->
     option GenerateVideosConfig -> Py.exn + Operation) : World :=
  mkWorld (environ_GEMINI_API_KEY w) (fs w) (guess_type w)
    (standard_b64encode w) (standard_b64decode w) (path_parent w)
    (path_resolve w) (mkdir_parents w) (write_bytes w) (generate_content
    w) v (operations_get w) (files_download w) (video_save w).

(** The same world with another outcome of downloads. *)
Definition set_files_download (w : World)
    (v : string -> option Py.exn) : World :=
  mkWorld (environ_GEMINI_API_KEY w) (fs w) (guess_type w)
    (standard_b64encode w) (standard_b64decode w) (path_parent w)
    (path_resolve w) (mkdir_parents w) (write_bytes w) (generate_content
    w) (generate_videos w) (operations_get w) v (video_save w).

(** The same world with another outcome of saving videos. *)
Definition set_video_save (w : World)
    (v : string -> string -> option Py.exn) : World :=
  mkWorld (environ_GEMINI_API_KEY w) (fs w) (guess_type w)
    (standard_b64encode w) (standard_b64decode w) (path_parent w)
    (path_resolve w) (mkdir_parents w) (write_bytes w) (generate_content
    w) (generate_videos w) (operations_get w) (files_download w) v.

(** The three events of one turn of the polling loop. *)
Definition is_polling_event (e : event) : bool :=
  match e with
  | Stdout (Waiting _) | Sleep _ | OperationsGet _ => true
  | _ => false
  end.

(** The lines the video script prints before it submits (lines 85-88). *)
Definition announcement (model prompt : string) (negative : option string)
  : list event :=
  [Stdout (StartingVideoGeneration model); Stdout (Prompt prompt)] ++
  match negative with
  | Some n => if n =? "" then [] else [Stdout (NegativePrompt n)]
  | None => []
  end.

(** What it means for a run of either script to go on with the key [k]:
    the credential check returns [k] without printing, each script is the
    rest of its text run with a client built from [k], every network call
    goes through that client, and the request reaches the service under it
    as soon as the steps before the call succeed. *)
Definition runs_with_key (w : World) (api_key : option string) (k : string)
    (prompt out res model : string) (neg img : option string) : Prop :=
  let image_run := ImageScript.generate_image w prompt out res img api_key in
  let video_run :=
    VideoScript.generate_video w prompt out model neg img api_key in
  resolve_api_key w api_key = ([], inr k) /\
  image_run =
    (ImageScript.validate_resolution res ;;;
     ImageScript.request_and_save w (mkClient k) prompt out res img) /\
  video_run =
    VideoScript.generate_with_client w (mkClient k) prompt out model neg img /\
  calls_use_client (mkClient k) (fst image_run) /\
  calls_use_client (mkClient k) (fst video_run) /\
  (forall t cs,
     In res ImageScript.valid_resolutions ->
     ImageScript.build_contents w prompt img = (t, inr cs) ->
     In (GenerateContent (mkClient k) ImageScript.model cs res)
        (fst image_run)) /\
  (forall t image,
     VideoScript.load_input_image w img = (t, inr image) ->
     In (GenerateVideos (mkClient k) model prompt image
           (VideoScript.build_config neg))
        (fst video_run)).

(** ** The command-line entry points *)

Module Cli.

(** The namespace [parse_args] returns for the image script: [--prompt] and
    [--filename] are required, [--resolution] has a default, the other two
    are [None] when not given. *)
Record ImageArgs : Type := mkImageArgs {
  args_prompt : string;
  args_filename : string;
  args_resolution : string;
  args_input_image : option string;
  args_api_key : option string
}.


(** [choices] and [default] of [--resolution], [default] of [--model]. *)
Definition resolution_choices : list string := ["1K"; "2K"; "4K"].
Definition resolution_default : string := "1K".

(** [parser.parse_args()] is the library's: on the given command line it
    either ends the process with a status of its own (2 after a usage
    error, 0 after the help text) or returns the namespace. *)
Definition parser (Args : Type) : Type := list string -> Z + Args.

(** What the [choices] of [--resolution] make the parser guarantee. *)
Definition enforces_choices (parse_args : parser ImageArgs) : Prop :=
  forall argv args,
    parse_args argv = inr args -> In (args_resolution args) resolution_choices.




End Cli.

(** ** More concrete answers and worlds for the examples *)

Module Cases.

(** Two candidates; the first holds a text and two pictures. *)
Definition two_pictures : Response :=
  mkResponse (Some
    [mkCandidate (mkContent (Some
       [Scenario.text_part "Here you go.";
        Scenario.image_part Scenario.png_bytes;
        Scenario.image_part Scenario.jpg_bytes]));
     mkCandidate (mkContent (Some
       [Scenario.image_part Scenario.jpg_bytes]))]).

(** The first candidate only talks; the second holds a picture. *)
Definition refusal : Response :=
  mkResponse (Some
    [mkCandidate (mkContent (Some
       [Scenario.text_part "I cannot draw that.";
        Scenario.text_part "";
        mkPart None None;
        Scenario.text_part "Try another prompt."]));
     mkCandidate (mkContent (Some
       [Scenario.image_part Scenario.jpg_bytes]))]).

(** A candidate whose content has no parts list. *)
Definition no_parts : Response :=
  mkResponse (Some [mkCandidate (mkContent None)]).

Definition full_disk : World :=
  set_write_bytes Scenario.world
    (fun _ _ => Some (Py.OSError "No space left on device")).

Definition read_only_disk : World :=
  set_mkdir_parents Scenario.world
    (fun _ => Some (Py.OSError "Read-only file system")).

Definition image_service_down : World :=
  set_generate_content Scenario.world
    (fun _ _ _ _ => inl (Py.Exception_ "503 UNAVAILABLE")).

Definition video_service_down : World :=
  set_generate_videos Scenario.world
    (fun _ _ _ _ _ => inl (Py.Exception_ "503 UNAVAILABLE")).

(** The submission comes back already finished. *)
Definition instant_video : World :=
  set_generate_videos Scenario.world
    (fun _ _ _ _ _ => inr Scenario.done_success).

Definition download_fails : World :=
  set_files_download instant_video
    (fun _ => Some (Py.Exception_ "download interrupted")).

Definition save_fails : World :=
  set_video_save instant_video
    (fun _ _ => Some (Py.OSError "No space left on device")).

(** Finished jobs without a video, with several videos. *)
Definition done_empty : Operation := mkOperation true None (Some []).
Definition done_without_result : Operation := mkOperation true None None.
Definition done_two_videos : Operation :=
  mkOperation true None
    (Some [mkGeneratedVideo "files/clip-1"; mkGeneratedVideo "files/clip-2"]).

(** A parser for the examples: prompt, file name and, optionally, the
    resolution, by position; anything else is a usage error. *)
Definition small_parser : Cli.parser Cli.ImageArgs :=
  fun argv =>
    match argv with
    | [p; f] => inr (Cli.mkImageArgs p f Cli.resolution_default None None)
    | [p; f; r] =>
        if existsb (String.eqb r) Cli.resolution_choices
        then inr (Cli.mkImageArgs p f r None None)
        else inl 2%Z
    | _ => inl 2%Z
    end.


End Cases.

(** ** Laws of runs *)

Section RunLaws.

Context {A B : Type}.

Lemma bind_value (tr : list event) (a : A) (k : A -> run B) :
  bind (tr, inr a) k = (tr ++ fst (k a), snd (k a)).
Proof. unfold bind. destruct (k a); reflexivity. Qed.

Lemma bind_halt (tr : list event) (h : halt) (k : A -> run B) :
  bind (tr, inl h) k = (tr, inl h).
Proof. reflexivity. Qed.

Lemma bind_eq (m : run A) (k : A -> run B) :
  bind m k =
  match snd m with
  | inl h => (fst m, inl h)
  | inr a => (fst m ++ fst (k a), snd (k a))
  end.
Proof.
  destruct m as [tr [h | a]]; simpl; [reflexivity | apply bind_value].
Qed.

(** A run that returns went through both halves of a [bind]. *)
Lemma bind_returns (m : run A) (k : A -> run B) (tr : list event) (b : B) :
  bind m k = (tr, inr b) ->
  exists t1 a t2, m = (t1, inr a) /\ k a = (t2, inr b) /\ tr = t1 ++ t2.
Proof.
  destruct m as [t1 [h | a]]; simpl; intro E.
  - discriminate.
  - destruct (k a) as [t2 r] eqn:K. inversion E; subst.
    exists t1, a, t2. repeat split. assumption.
Qed.

End RunLaws.

(** A [bind] whose second half always ends early ends early. *)
Lemma bind_halts {A B} (m : run A) (k : A -> run B) :
  (forall a, exists h, snd (k a) = inl h) ->
  exists h, snd (bind m k) = inl h.
Proof.
  intro Hk. rewrite bind_eq. destruct (snd m) as [h | a]; simpl.
  - exists h. reflexivity.
  - apply Hk.
Qed.

Lemma try_except_returns {A} (m : run A) (h : Py.exn -> run A)
    (tr : list event) (a : A) :
  (forall e, exists t f, h e = (t, inl (SysExit 1 f))) ->
  try_except m h = (tr, inr a) -> m = (tr, inr a).
Proof.
  intros Hh. destruct m as [t [[c f | e | ] | x]]; simpl; intro E;
    try (inversion E; subst; reflexivity).
  destruct (Hh e) as (t' & f & He). rewrite He in E. discriminate.
Qed.

(** Properties that hold of every event of a run. *)
Section TraceProperties.

Variable P : event -> Prop.

Lemma all_ret {A} (a : A) : Forall P (fst (ret a)).
Proof. constructor. Qed.

Lemma all_sys_exit {A} (f : failure) : Forall P (fst (@sys_exit A f)).
Proof. constructor. Qed.

Lemma all_raise {A} (e : Py.exn) : Forall P (fst (@raise A e)).
Proof. constructor. Qed.

Lemma all_emit (e : event) : P e -> Forall P (fst (emit e)).
Proof. intro H. simpl. auto. Qed.

Lemma all_call {A} (e : event) (r : Py.exn + A) :
  P e -> Forall P (fst (call e r)).
Proof. intro H. destruct r; simpl; auto. Qed.

Lemma all_effect (e : event) (r : option Py.exn) :
  P e -> Forall P (fst (effect e r)).
Proof. intro H. destruct r; simpl; auto. Qed.

Lemma all_bind {A B} (m : run A) (k : A -> run B) :
  Forall P (fst m) -> (forall a, Forall P (fst (k a))) ->
  Forall P (fst (bind m k)).
Proof.
  intros Hm Hk. rewrite bind_eq. destruct (snd m) as [h | a]; simpl.
  - assumption.
  - apply Forall_app. split; [assumption | apply Hk].
Qed.

Lemma all_try_except {A} (m : run A) (h : Py.exn -> run A) :
  Forall P (fst m) -> (forall e, Forall P (fst (h e))) ->
  Forall P (fst (try_except m h)).
Proof.
  intros Hm Hh. destruct m as [t [[c f | e | ] | x]]; simpl in *; auto.
  specialize (Hh e). destruct (h e) as [t' r]. simpl in *.
  apply Forall_app. split; assumption.
Qed.

End TraceProperties.

Create HintDb runs.
#[local] Hint Resolve all_ret all_sys_exit all_raise all_emit all_call
  all_effect : runs.

(** Splits a goal about a composed run into goals about its steps. *)
Ltac step_runs :=
  repeat first
    [ apply all_bind; [ | intros ]
    | apply all_try_except; [ | intros ]
    | apply all_ret | apply all_sys_exit | apply all_raise
    | apply all_emit | apply all_call | apply all_effect ].

(** ** The credential check *)

Lemma resolve_api_key_falsy (w : World) (api_key : option string) :
  Py.truthy (resolved_api_key w api_key) = false ->
  resolve_api_key w api_key =
  (missing_credential_trace, inl (SysExit 1 MissingCredential)).
Proof.
  unfold resolve_api_key. destruct (resolved_api_key w api_key) as [k |];
    simpl; [ | reflexivity ].
  destruct (k =? "") eqn:E; [reflexivity | discriminate].
Qed.

Lemma resolve_api_key_truthy (w : World) (api_key : option string)
    (k : string) :
  resolved_api_key w api_key = Some k -> k <> "" ->
  resolve_api_key w api_key = ([], inr k).
Proof.
  unfold resolve_api_key. intros -> Hk.
  apply String.eqb_neq in Hk. rewrite Hk. reflexivity.
Qed.

Lemma resolved_explicit (w : World) (k : string) :
  k <> "" -> resolved_api_key w (Some k) = Some k.
Proof.
  intro Hk. unfold resolved_api_key, Py.or_. simpl.
  apply String.eqb_neq in Hk. rewrite Hk. reflexivity.
Qed.

Lemma resolved_fallback (w : World) (api_key : option string) :
  Py.truthy api_key = false ->
  resolved_api_key w api_key = environ_GEMINI_API_KEY w.
Proof. intro H. unfold resolved_api_key, Py.or_. rewrite H. reflexivity. Qed.

Lemma truthy_some (k : string) : k <> "" -> Py.truthy (Some k) = true.
Proof. intro H. simpl. apply String.eqb_neq in H. rewrite H. reflexivity. Qed.

(** The loop, one iteration unfolded. *)
Lemma wait_for_completion_eq client answers poll_count operation :
  VideoScript.wait_for_completion client answers poll_count operation =
  if done operation then ret operation
  else
    emit (Stdout (Waiting ((poll_count + 1) * 20)%Z)) ;;;
    emit (Sleep 20) ;;;
    match answers with
    | [] => ([OperationsGet client], inl Hang)
    | answer :: answers' =>
        operation' <-
          try_except
            (call (OperationsGet client) answer)
            (fun e =>
               emit (Stderr (ErrorCheckingOperationStatus (Py.str_of_exn e))) ;;;
               sys_exit (ServiceError (Py.str_of_exn e))) ;;
        VideoScript.wait_for_completion client answers' (poll_count + 1)
          operation'
    end.
Proof. destruct answers; reflexivity. Qed.

(** ** Which events each step can produce *)

Section StepEvents.

Variable P : event -> Prop.

(** Printing, reading the input image and sleeping. *)
Hypothesis quiet_ok :
  forall e, is_network_call e = false -> is_extraction e = false -> P e.

Lemma all_resolve_api_key w api_key :
  Forall P (fst (resolve_api_key w api_key)).
Proof.
  unfold resolve_api_key.
  destruct (resolved_api_key w api_key) as [k |]; [destruct (k =? "") | ];
    step_runs; auto.
Qed.

Lemma all_validate_resolution resolution :
  Forall P (fst (ImageScript.validate_resolution resolution)).
Proof.
  unfold ImageScript.validate_resolution.
  destruct (existsb _ _); step_runs; auto.
Qed.

Lemma all_load_image_as_base64 w file_path :
  Forall P (fst (ImageScript.load_image_as_base64 w file_path)).
Proof.
  unfold ImageScript.load_image_as_base64.
  destruct (fs w file_path); step_runs; auto.
Qed.

Lemma all_build_contents w prompt input_image_path :
  Forall P (fst (ImageScript.build_contents w prompt input_image_path)).
Proof.
  unfold ImageScript.build_contents.
  apply all_bind; [ | intros; step_runs ].
  destruct input_image_path as [p |]; [destruct (p =? "") | ];
    step_runs; auto using all_load_image_as_base64.
  destruct a. step_runs.
Qed.

Lemma all_print_model_responses ps :
  Forall P (fst (ImageScript.print_model_responses ps)).
Proof.
  induction ps as [| part rest IH]; simpl.
  - constructor.
  - apply all_bind; [ | intros; exact IH ].
    destruct (Py.truthy (text part)); [destruct (text part) | ];
      step_runs; auto.
Qed.

Lemma all_load_input_image w input_image_path :
  Forall P (fst (VideoScript.load_input_image w input_image_path)).
Proof.
  unfold VideoScript.load_input_image.
  destruct input_image_path as [p |]; [destruct (p =? "") | ]; step_runs.
  destruct (fs w p); step_runs; auto.
Qed.

Lemma all_check_for_errors operation :
  Forall P (fst (VideoScript.check_for_errors operation)).
Proof.
  unfold VideoScript.check_for_errors.
  destruct (error operation) as [d |]; [destruct (d =? "") | ];
    step_runs; auto.
Qed.

(** The calls made through a client [c]. *)
Variable c : Client.
Hypothesis submit_ok :
  forall model prompt image config,
    P (GenerateVideos c model prompt image config).
Hypothesis poll_ok : P (OperationsGet c).

Lemma all_start_generation w model prompt negative image config :
  Forall P
    (fst (VideoScript.start_generation w c model prompt negative image config)).
Proof.
  unfold VideoScript.start_generation. step_runs; auto.
  destruct negative as [n |]; [destruct (n =? "") | ]; step_runs; auto.
Qed.

Lemma all_wait_for_completion answers poll_count operation :
  Forall P
    (fst (VideoScript.wait_for_completion c answers poll_count operation)).
Proof.
  revert poll_count operation.
  induction answers as [| answer answers IH]; intros poll_count operation;
    rewrite wait_for_completion_eq; destruct (done operation);
    step_runs; simpl; auto.
Qed.

(** Making the directory, writing the picture, fetching and saving the
    video. *)
Hypothesis disk_ok :
  forall e, is_network_call e = false -> is_extraction e = true -> P e.
Hypothesis download_ok : forall file, P (FilesDownload c file).

Lemma all_scan_parts w output_file ps :
  Forall P (fst (ImageScript.scan_parts w output_file ps)).
Proof.
  induction ps as [| part rest IH]; simpl.
  - constructor.
  - destruct (inline_data part); [ | exact IH ]. step_runs; auto.
Qed.

Lemma all_extract_and_save w output_path response :
  Forall P (fst (ImageScript.extract_and_save w output_path response)).
Proof.
  unfold ImageScript.extract_and_save.
  apply all_bind.
  { destruct (ImageScript.first_candidate_parts response) as [e | [ps |]];
      step_runs. }
  intros ps. apply all_bind; [apply all_scan_parts | ].
  intros [full_path |]; step_runs; auto.
  destruct (ImageScript.guarded_parts response);
    [apply all_print_model_responses | step_runs].
Qed.

Lemma all_download_and_save w output_path operation :
  Forall P (fst (VideoScript.download_and_save w c output_path operation)).
Proof.
  unfold VideoScript.download_and_save. step_runs; auto.
  destruct (result operation) as [[| v vs] |]; step_runs.
Qed.

Lemma all_poll_and_save w output_path operation :
  Forall P (fst (VideoScript.poll_and_save w c output_path operation)).
Proof.
  unfold VideoScript.poll_and_save.
  apply all_bind; [apply all_emit; auto | intros _].
  apply all_bind; [apply all_wait_for_completion | intros operation'].
  apply all_bind; [apply all_check_for_errors | intros _].
  apply all_download_and_save.
Qed.

End StepEvents.

(** ** The two scripts, once the key is known *)

Lemma bind_ret {A B} (a : A) (k : A -> run B) : bind (ret a) k = k a.
Proof. unfold ret, bind. destruct (k a); reflexivity. Qed.

Lemma generate_image_keyed w prompt out res img api_key k :
  resolved_api_key w api_key = Some k -> k <> "" ->
  ImageScript.generate_image w prompt out res img api_key =
  (ImageScript.validate_resolution res ;;;
   ImageScript.request_and_save w (mkClient k) prompt out res img).
Proof.
  intros Hr Hk. unfold ImageScript.generate_image.
  rewrite (resolve_api_key_truthy _ _ _ Hr Hk). apply (bind_ret k).
Qed.

Lemma generate_video_keyed w prompt out model neg img api_key k :
  resolved_api_key w api_key = Some k -> k <> "" ->
  VideoScript.generate_video w prompt out model neg img api_key =
  VideoScript.generate_with_client w (mkClient k) prompt out model neg img.
Proof.
  intros Hr Hk. unfold VideoScript.generate_video.
  rewrite (resolve_api_key_truthy _ _ _ Hr Hk). apply (bind_ret k).
Qed.

Lemma generate_image_unkeyed w prompt out res img api_key :
  Py.truthy (resolved_api_key w api_key) = false ->
  ImageScript.generate_image w prompt out res img api_key =
  (missing_credential_trace, inl (SysExit 1 MissingCredential)).
Proof.
  intro H. unfold ImageScript.generate_image.
  rewrite (resolve_api_key_falsy _ _ H). reflexivity.
Qed.

Lemma generate_video_unkeyed w prompt out model neg img api_key :
  Py.truthy (resolved_api_key w api_key) = false ->
  VideoScript.generate_video w prompt out model neg img api_key =
  (missing_credential_trace, inl (SysExit 1 MissingCredential)).
Proof.
  intro H. unfold VideoScript.generate_video.
  rewrite (resolve_api_key_falsy _ _ H). reflexivity.
Qed.

Lemma valid_resolution_passes res :
  In res ImageScript.valid_resolutions ->
  ImageScript.validate_resolution res = ret tt.
Proof.
  intro H. unfold ImageScript.validate_resolution.
  replace (existsb (String.eqb res) ImageScript.valid_resolutions) with true;
    [reflexivity | ].
  symmetry. apply existsb_exists. exists res. split; [assumption | ].
  apply String.eqb_refl.
Qed.

Lemma invalid_resolution_exits res :
  ~ In res ImageScript.valid_resolutions ->
  ImageScript.validate_resolution res =
  ([Stderr (InvalidResolution res)], inl (SysExit 1 InvalidOption)).
Proof.
  intro H. unfold ImageScript.validate_resolution.
  destruct (existsb (String.eqb res) ImageScript.valid_resolutions) eqn:E;
    [ | reflexivity ].
  apply existsb_exists in E. destruct E as (r & Hin & Heq).
  apply String.eqb_eq in Heq. subst r. contradiction.
Qed.

(** Through client [c], every call of either script uses [c]. *)
Lemma request_and_save_uses_client w c prompt out res img :
  calls_use_client c
    (fst (ImageScript.request_and_save w c prompt out res img)).
Proof.
  unfold calls_use_client, ImageScript.request_and_save.
  assert (L : forall e, is_network_call e = false ->
                match client_of e with Some c' => c' = c | None => True end)
    by (intros [] H; simpl in *; try discriminate; exact I).
  apply all_bind;
    [apply all_build_contents; intros e H _; exact (L e H) | intros contents].
  apply all_bind;
    [ | intros; apply all_extract_and_save; intros e H _; exact (L e H) ].
  step_runs; simpl; auto.
Qed.

Lemma generate_with_client_uses_client w c prompt out model neg img :
  calls_use_client c
    (fst (VideoScript.generate_with_client w c prompt out model neg img)).
Proof.
  unfold calls_use_client, VideoScript.generate_with_client.
  assert (L : forall e, is_network_call e = false ->
                match client_of e with Some c' => c' = c | None => True end)
    by (intros [] H; simpl in *; try discriminate; exact I).
  apply all_bind;
    [apply all_load_input_image; intros e H _; exact (L e H) | intros image].
  apply all_bind; [ | intros op ].
  - apply all_start_generation;
      [intros e H _; exact (L e H) | intros; reflexivity].
  - apply all_poll_and_save;
      try (intros e H _; exact (L e H)); intros; reflexivity.
Qed.

Lemma missing_credential_trace_is_local :
  no_network_call missing_credential_trace.
Proof. repeat constructor. Qed.

(** ** Credential claims *)

(** C5, counterexample.  An explicit key that is present but empty is not the
    one used: with [GEMINI_API_KEY=env-key] and [--api-key ""] the request
    goes out under ["env-key"], and with no environment value the same
    explicit argument ends in the missing-credential exit. *)
Lemma C5_present_empty_key_not_used :
  let w := set_environ Scenario.world (Some "env-key") in
  resolved_api_key w (Some "") = Some "env-key" /\
  hd_error (fst (ImageScript.generate_image w "A red circle" "out/a.png" "1K"
                   None (Some ""))) =
    Some (GenerateContent (mkClient "env-key") ImageScript.model
            [PromptText "A red circle"] "1K") /\
  hd_error (filter is_network_call
              (fst (VideoScript.generate_video w "A cat" "out/a.mp4" "veo"
                      None None (Some "")))) =
    Some (GenerateVideos (mkClient "env-key") "veo" "A cat" None None) /\
  snd (ImageScript.generate_image Scenario.world "A red circle" "out/a.png"
         "1K" None (Some "")) = inl (SysExit 1 MissingCredential).
Proof. vm_compute. repeat split. Qed.

(** ** Resolution validation *)

(** C6, counterexample.  The accepted values are ["1K"], ["2K"] and ["4K"]:
    ["1K"] lies outside {low, medium, high} and the run reaches the service
    and returns, while ["low"] is refused.  And the credential check comes
    first: a run with resolution ["8K"] and no credential ends with
    [MissingCredential], not [InvalidOption]. *)
Lemma C6_resolution_counterexample :
  (~ In "1K" ["low"; "medium"; "high"] /\
   ImageScript.generate_image Scenario.world "A red circle" "out/a.png" "1K"
     None (Some "k") =
   ([GenerateContent (mkClient "k") ImageScript.model
       [PromptText "A red circle"] "1K";
     Mkdir "out"; WriteBytes "out/a.png" Scenario.png_bytes;
     Stdout (ImageSaved "/home/user/out/a.png")],
    inr "/home/user/out/a.png")) /\
  snd (ImageScript.generate_image Scenario.world "A red circle" "out/a.png"
         "low" None (Some "k")) = inl (SysExit 1 InvalidOption) /\
  (~ In "8K" ["low"; "medium"; "high"] /\
   snd (ImageScript.generate_image Scenario.world "A red circle" "out/a.png"
          "8K" None None) = inl (SysExit 1 MissingCredential)).
Proof.
  repeat split; try reflexivity;
    simpl; intros H; repeat (destruct H as [H | H]; try discriminate H);
    exact H.
Qed.

(** C6, amended.  For every image run whose resolution is outside
    {"1K", "2K", "4K"}: no network call is attempted; when a non-empty
    credential was resolved the run prints the invalid-resolution line and
    exits with [InvalidOption]; when none was, the credential check, which
    comes first, exits with [MissingCredential]. *)
Theorem C6_invalid_resolution
    (w : World) (prompt out res : string) (img api_key : option string) :
  ~ In res ImageScript.valid_resolutions ->
  let image_run := ImageScript.generate_image w prompt out res img api_key in
  no_network_call (fst image_run) /\
  (forall k, resolved_api_key w api_key = Some k -> k <> "" ->
   image_run =
   ([Stderr (InvalidResolution res)], inl (SysExit 1 InvalidOption))) /\
  (Py.truthy (resolved_api_key w api_key) = false ->
   image_run =
   (missing_credential_trace, inl (SysExit 1 MissingCredential))).
Proof.
  intros Hres image_run.
  assert (Keyed : forall k, resolved_api_key w api_key = Some k -> k <> "" ->
            image_run =
            ([Stderr (InvalidResolution res)], inl (SysExit 1 InvalidOption))).
  { intros k Hr Hk. subst image_run.
    rewrite (generate_image_keyed _ _ _ _ _ _ _ Hr Hk).
    rewrite (invalid_resolution_exits _ Hres). reflexivity. }
  assert (Unkeyed : Py.truthy (resolved_api_key w api_key) = false ->
            image_run =
            (missing_credential_trace, inl (SysExit 1 MissingCredential))).
  { intro H. apply generate_image_unkeyed. exact H. }
  split; [ | split; assumption ].
  destruct (Py.truthy (resolved_api_key w api_key)) eqn:T.
  - destruct (resolved_api_key w api_key) as [k |] eqn:Hr; [ | discriminate].
    assert (Hk : k <> "").
    { intro E. subst k. discriminate T. }
    rewrite (Keyed k eq_refl Hk). repeat constructor.
  - rewrite (Unkeyed eq_refl). apply missing_credential_trace_is_local.
Qed.

Lemma C6_invalid_resolution_witness :
  ~ In "8K" ImageScript.valid_resolutions /\
  ImageScript.generate_image Scenario.world "A red circle" "out/a.png" "8K"
    (Some "photo.jpg") (Some "k") =
  ([Stderr (InvalidResolution "8K")], inl (SysExit 1 InvalidOption)) /\
  no_network_call
    (fst (ImageScript.generate_image Scenario.world "A red circle" "out/a.png"
            "8K" (Some "photo.jpg") (Some "k"))).
Proof.
  assert (Hres : ~ In "8K" ImageScript.valid_resolutions).
  { simpl. intros H.
    repeat (destruct H as [H | H]; try discriminate H). exact H. }
  destruct (C6_invalid_resolution Scenario.world "A red circle" "out/a.png"
              "8K" (Some "photo.jpg") (Some "k") Hres) as (Local & Keyed & _).
  split; [exact Hres | split; [ | exact Local ]].
  apply (Keyed "k"); [reflexivity | discriminate].
Defined.

(** ** The request contents of the image script *)

Lemma submitted_contents_app (t1 t2 : list event) :
  submitted_contents (t1 ++ t2) =
  submitted_contents t1 ++ submitted_contents t2.
Proof.
  induction t1 as [| e t1 IH]; simpl; [reflexivity | ].
  destruct e; simpl; rewrite ?IH; reflexivity.
Qed.

Lemma submitted_contents_none (tr : list event) :
  Forall (fun e => submitted_contents [e] = []) tr ->
  submitted_contents tr = [].
Proof.
  induction 1 as [| e tr He _ IH]; [reflexivity | ].
  change (e :: tr) with ([e] ++ tr).
  rewrite submitted_contents_app, He, IH. reflexivity.
Qed.

Lemma local_events_submit_nothing (e : event) :
  is_network_call e = false -> submitted_contents [e] = [].
Proof. destruct e; simpl; intro H; try discriminate; reflexivity. Qed.

#[local] Hint Resolve local_events_submit_nothing : runs.

Lemma submitted_contents_bind {A B} (m : run A) (k : A -> run B) :
  submitted_contents (fst (bind m k)) =
  submitted_contents (fst m) ++
  match snd m with
  | inl _ => []
  | inr a => submitted_contents (fst (k a))
  end.
Proof.
  rewrite bind_eq. destruct (snd m); simpl.
  - rewrite app_nil_r. reflexivity.
  - apply submitted_contents_app.
Qed.

Lemma build_contents_without_image w prompt img :
  Py.truthy img = false ->
  ImageScript.build_contents w prompt img = ([], inr [PromptText prompt]).
Proof.
  unfold ImageScript.build_contents. destruct img as [p |]; simpl.
  - destruct (p =? ""); [reflexivity | discriminate].
  - reflexivity.
Qed.

Lemma build_contents_with_image w prompt p d :
  p <> "" -> fs w p = Some (Py.File d) ->
  ImageScript.build_contents w prompt (Some p) =
  ([ReadFile p],
   inr [PartFromBytes
          (mkBlob (standard_b64decode w (standard_b64encode w d))
                  (ImageScript.get_mime_type w p));
        PromptText prompt]).
Proof.
  intros Hp Hfs. unfold ImageScript.build_contents.
  apply String.eqb_neq in Hp. rewrite Hp.
  unfold ImageScript.load_image_as_base64. rewrite Hfs. reflexivity.
Qed.

(** The contents that come out of lines 91-104, whenever they come out. *)
Lemma build_contents_shape w prompt img tr cs :
  ImageScript.build_contents w prompt img = (tr, inr cs) ->
  (Py.truthy img = false /\ cs = [PromptText prompt]) \/
  (exists p d, img = Some p /\ p <> "" /\ fs w p = Some (Py.File d) /\
     cs = [PartFromBytes
             (mkBlob (standard_b64decode w (standard_b64encode w d))
                     (ImageScript.get_mime_type w p));
           PromptText prompt]).
Proof.
  intro E. destruct (Py.truthy img) eqn:T.
  - right. destruct img as [p |]; [ | discriminate T].
    assert (Hp : p <> "") by (intro; subst p; discriminate T).
    destruct (fs w p) as [[d |] |] eqn:Hfs.
    + rewrite (build_contents_with_image _ _ _ _ Hp Hfs) in E.
      inversion E; subst. exists p, d. repeat split; assumption.
    + unfold ImageScript.build_contents in E.
      apply String.eqb_neq in Hp. rewrite Hp in E.
      unfold ImageScript.load_image_as_base64 in E. rewrite Hfs in E.
      discriminate E.
    + unfold ImageScript.build_contents in E.
      apply String.eqb_neq in Hp. rewrite Hp in E.
      unfold ImageScript.load_image_as_base64 in E. rewrite Hfs in E.
      discriminate E.
  - left. rewrite (build_contents_without_image _ _ _ T) in E.
    inversion E. split; reflexivity.
Qed.

(** Exactly one request is made, with the contents just built, and none
    when building them failed. *)
Lemma request_and_save_contents w c prompt out res img :
  submitted_contents
    (fst (ImageScript.request_and_save w c prompt out res img)) =
  match snd (ImageScript.build_contents w prompt img) with
  | inl _ => []
  | inr cs => [cs]
  end.
Proof.
  unfold ImageScript.request_and_save.
  rewrite submitted_contents_bind.
  rewrite (submitted_contents_none
             (fst (ImageScript.build_contents w prompt img)))
    by (apply all_build_contents; auto with runs).
  destruct (snd (ImageScript.build_contents w prompt img)) as [h | cs];
    [reflexivity | ].
  rewrite submitted_contents_bind. simpl app.
  assert (Ex : forall r, submitted_contents
                 (fst (ImageScript.extract_and_save w out r)) = []).
  { intro r. apply submitted_contents_none, all_extract_and_save;
      auto with runs. }
  destruct (generate_content w c ImageScript.model cs res) as [e | r];
    simpl; rewrite ?Ex; reflexivity.
Qed.

Lemma generate_image_contents w prompt out res img api_key cs :
  In cs (submitted_contents
           (fst (ImageScript.generate_image w prompt out res img api_key))) ->
  exists tr, ImageScript.build_contents w prompt img = (tr, inr cs).
Proof.
  unfold ImageScript.generate_image.
  rewrite submitted_contents_bind.
  rewrite (submitted_contents_none (fst (resolve_api_key w api_key)))
    by (apply all_resolve_api_key; auto with runs).
  destruct (snd (resolve_api_key w api_key)) as [h | k]; [intros [] | ].
  rewrite submitted_contents_bind.
  rewrite (submitted_contents_none
             (fst (ImageScript.validate_resolution res)))
    by (apply all_validate_resolution; auto with runs).
  destruct (snd (ImageScript.validate_resolution res)) as [h | u];
    [intros [] | ].
  rewrite request_and_save_contents.
  destruct (ImageScript.build_contents w prompt img) as [tr [h | cs']];
    simpl; [intros [] | ].
  intros [<- | []]. exists tr. reflexivity.
Qed.

(** C1, counterexample.  [--input-image ""] supplies a reference path, yet
    the request that reaches the service holds the prompt alone. *)
Lemma C1_empty_path_single_element :
  submitted_contents
    (fst (ImageScript.generate_image Scenario.world "A red circle"
            "out/a.png" "1K" (Some "") (Some "k"))) =
  [[PromptText "A red circle"]] /\
  length [PromptText "A red circle"] <> 2.
Proof. split; [reflexivity | discriminate]. Qed.

(** C1, amended.  Every request the image script hands to the service holds
    exactly the prompt when the reference path is absent or empty, and
    exactly two elements, the reference image (the file's bytes through the
    base64 round trip, tagged with its MIME type) first and the prompt
    second, when a non-empty reference path is given; and once a credential
    is resolved and the resolution is valid, that request is made (for a
    reference path, provided it names a readable file). *)
Theorem C1_request_contents
    (w : World) (prompt out res : string) (img api_key : option string) :
  let image_run := ImageScript.generate_image w prompt out res img api_key in
  (forall cs, In cs (submitted_contents (fst image_run)) ->
     (Py.truthy img = false -> cs = [PromptText prompt]) /\
     (forall p, img = Some p -> p <> "" ->
        exists d, fs w p = Some (Py.File d) /\
          cs = [PartFromBytes
                  (mkBlob (standard_b64decode w (standard_b64encode w d))
                          (ImageScript.get_mime_type w p));
                PromptText prompt])) /\
  (forall k, resolved_api_key w api_key = Some k -> k <> "" ->
     In res ImageScript.valid_resolutions ->
     (Py.truthy img = false ->
        submitted_contents (fst image_run) = [[PromptText prompt]]) /\
     (forall p d, img = Some p -> p <> "" -> fs w p = Some (Py.File d) ->
        submitted_contents (fst image_run) =
        [[PartFromBytes
            (mkBlob (standard_b64decode w (standard_b64encode w d))
                    (ImageScript.get_mime_type w p));
          PromptText prompt]])).
Proof.
  intro image_run. split.
  - intros cs Hin. apply generate_image_contents in Hin.
    destruct Hin as (tr & Hb).
    destruct (build_contents_shape _ _ _ _ _ Hb)
      as [(T & ->) | (p & d & -> & Hp & Hfs & ->)]; split.
    + reflexivity.
    + intros p -> Hp. exfalso. simpl in T.
      apply String.eqb_neq in Hp. rewrite Hp in T. discriminate T.
    + intro T. exfalso. rewrite (truthy_some _ Hp) in T. discriminate T.
    + intros p' E _. inversion E; subst p'. exists d. split; [assumption | ].
      reflexivity.
  - intros k Hr Hk Hres. subst image_run.
    rewrite (generate_image_keyed _ _ _ _ _ _ _ Hr Hk).
    rewrite (valid_resolution_passes _ Hres), bind_ret.
    rewrite request_and_save_contents. split.
    + intro T. rewrite (build_contents_without_image _ _ _ T). reflexivity.
    + intros p d -> Hp Hfs.
      rewrite (build_contents_with_image _ _ _ _ Hp Hfs). reflexivity.
Qed.

Lemma C1_request_contents_witness :
  In [PartFromBytes (mkBlob Scenario.jpg_bytes "image/jpeg");
      PromptText "Add storm clouds"]
     (submitted_contents
        (fst (ImageScript.generate_image Scenario.world "Add storm clouds"
                "out/a.png" "2K" (Some "photo.jpg") (Some "k")))) /\
  submitted_contents
    (fst (ImageScript.generate_image Scenario.world "A red circle"
            "out/a.png" "1K" None (Some "k"))) =
  [[PromptText "A red circle"]] /\
  (exists d, fs Scenario.world "photo.jpg" = Some (Py.File d) /\
     [PartFromBytes (mkBlob Scenario.jpg_bytes "image/jpeg");
      PromptText "Add storm clouds"] =
     [PartFromBytes
        (mkBlob (standard_b64decode Scenario.world
                   (standard_b64encode Scenario.world d))
                (ImageScript.get_mime_type Scenario.world "photo.jpg"));
      PromptText "Add storm clouds"]).
Proof.
  assert (Hk : "k" <> "") by discriminate.
  assert (Hp : "photo.jpg" <> "") by discriminate.
  assert (H1 : In "1K" ImageScript.valid_resolutions) by (simpl; auto).
  assert (Hin : In [PartFromBytes (mkBlob Scenario.jpg_bytes "image/jpeg");
                    PromptText "Add storm clouds"]
                  (submitted_contents
                     (fst (ImageScript.generate_image Scenario.world
                             "Add storm clouds" "out/a.png" "2K"
                             (Some "photo.jpg") (Some "k")))))
    by (left; reflexivity).
  destruct (C1_request_contents Scenario.world "Add storm clouds" "out/a.png"
              "2K" (Some "photo.jpg") (Some "k")) as (Shape & _).
  destruct (C1_request_contents Scenario.world "A red circle" "out/a.png"
              "1K" None (Some "k")) as (_ & Made).
  split; [exact Hin | split].
  - apply (Made "k" eq_refl Hk H1). reflexivity.
  - apply (Shape _ Hin). reflexivity. exact Hp.
Defined.

(** ** Extraction in the image script *)

Lemma scan_parts_skips w out texts rest :
  Forall (fun part => inline_data part = None) texts ->
  ImageScript.scan_parts w out (texts ++ rest) =
  ImageScript.scan_parts w out rest.
Proof.
  induction 1 as [| part texts Hpart _ IH]; simpl; [reflexivity | ].
  rewrite Hpart. exact IH.
Qed.

(** The loop returns only from its [return full_path], after making the
    directory and writing the data of the first part that has some. *)
Lemma scan_parts_returns w out ps tr full_path :
  ImageScript.scan_parts w out ps = (tr, inr (Some full_path)) ->
  full_path = path_resolve w out /\
  exists texts part rest blob,
    ps = texts ++ part :: rest /\
    Forall (fun q => inline_data q = None) texts /\
    inline_data part = Some blob /\
    tr = [Mkdir (path_parent w out); WriteBytes out (blob_data blob);
          Stdout (ImageSaved (path_resolve w out))].
Proof.
  induction ps as [| part rest IH]; simpl; intro E.
  - discriminate E.
  - destruct (inline_data part) as [blob |] eqn:Hpart.
    + destruct (mkdir_parents w (path_parent w out)); [discriminate E | ].
      destruct (write_bytes w out (blob_data blob)); [discriminate E | ].
      simpl in E. inversion E; subst. split; [reflexivity | ].
      exists [], part, rest, blob. repeat split; auto.
    + destruct (IH E) as (-> & texts & part' & rest' & blob & -> & Ht & Hp & ->).
      split; [reflexivity | ].
      exists (part :: texts), part', rest', blob. repeat split; auto.
Qed.

Lemma scan_parts_falls_through w out ps :
  Forall (fun part => inline_data part = None) ps ->
  ImageScript.scan_parts w out ps = ([], inr None).
Proof.
  intro H. rewrite <- (app_nil_r ps).
  rewrite (scan_parts_skips _ _ _ _ H). reflexivity.
Qed.

Lemma print_model_responses_trace ps :
  ImageScript.print_model_responses ps =
  (flat_map (fun part =>
               match text part with
               | Some t => if t =? "" then [] else [Stderr (ModelResponse t)]
               | None => []
               end) ps,
   inr tt).
Proof.
  induction ps as [| part rest IH]; simpl; [reflexivity | ].
  rewrite IH. destruct (text part) as [t |]; simpl;
    [destruct (t =? "") | ]; reflexivity.
Qed.

(** A response whose first candidate has a list of parts with binary data
    somewhere: the first such part is written, byte for byte. *)
Lemma extract_first_binary_part w out response texts part rest blob others :
  candidates response =
    Some (mkCandidate (mkContent (Some (texts ++ part :: rest))) :: others) ->
  Forall (fun q => inline_data q = None) texts ->
  inline_data part = Some blob ->
  mkdir_parents w (path_parent w out) = None ->
  write_bytes w out (blob_data blob) = None ->
  ImageScript.extract_and_save w out response =
  ([Mkdir (path_parent w out); WriteBytes out (blob_data blob);
    Stdout (ImageSaved (path_resolve w out))],
   inr (path_resolve w out)).
Proof.
  intros Hc Ht Hp Hm Hw.
  unfold ImageScript.extract_and_save, ImageScript.first_candidate_parts.
  rewrite Hc. cbn [parts content]. rewrite bind_ret.
  rewrite (scan_parts_skips _ _ _ _ Ht). simpl.
  rewrite Hp, Hm, Hw. reflexivity.
Qed.

(** A response whose first candidate has a list of parts, none with binary
    data: the error line, every non-empty text in delivery order, then the
    exit; nothing is written. *)
Lemma extract_no_binary_part w out response ps others :
  candidates response = Some (mkCandidate (mkContent (Some ps)) :: others) ->
  Forall (fun q => inline_data q = None) ps ->
  ImageScript.extract_and_save w out response =
  (Stderr NoImageGenerated ::
   flat_map (fun part =>
               match text part with
               | Some t => if t =? "" then [] else [Stderr (ModelResponse t)]
               | None => []
               end) ps,
   inl (SysExit 1 NoMediaProduced)).
Proof.
  intros Hc Hn.
  unfold ImageScript.extract_and_save, ImageScript.first_candidate_parts,
    ImageScript.guarded_parts.
  rewrite Hc. cbn [parts content]. rewrite bind_ret.
  rewrite (scan_parts_falls_through _ _ _ Hn), bind_value. cbv beta iota.
  destruct ps as [| p ps'].
  - reflexivity.
  - rewrite print_model_responses_trace. simpl. rewrite app_nil_r.
    reflexivity.
Qed.

(** C2, the failing input.  A response without candidates (an empty list, or
    [None]) carries no binary media, yet the run does not reach the
    no-image exit: [response.candidates[0]] on line 130 raises before the
    guard of line 141, which tests [response.candidates] first, is ever
    evaluated.  Nothing is printed and the exception is not caught. *)
Theorem C2_response_without_candidates (w : World) (out : string) :
  ImageScript.extract_and_save w out (mkResponse (Some [])) =
    ([], inl (Uncaught Py.IndexError)) /\
  ImageScript.extract_and_save w out (mkResponse None) =
    ([], inl (Uncaught Py.not_subscriptable)) /\
  ImageScript.guarded_parts (mkResponse (Some [])) = None /\
  ImageScript.generate_image
    (Scenario.world_answering (mkResponse (Some [])))
    "A red circle" "out/a.png" "1K" None (Some "k") =
  ([GenerateContent (mkClient "k") ImageScript.model
      [PromptText "A red circle"] "1K"],
   inl (Uncaught Py.IndexError)).
Proof. repeat split. Qed.

(** ** Output path handling *)

Lemma extract_and_save_returns w out response tr full_path :
  ImageScript.extract_and_save w out response = (tr, inr full_path) ->
  full_path = path_resolve w out /\
  exists data,
    tr = [Mkdir (path_parent w out); WriteBytes out data;
          Stdout (ImageSaved (path_resolve w out))].
Proof.
  unfold ImageScript.extract_and_save. intro E.
  apply bind_returns in E. destruct E as (t1 & ps & t2 & E1 & E2 & ->).
  assert (t1 = []) as ->.
  { destruct (ImageScript.first_candidate_parts response) as [e | [l |]];
      inversion E1; reflexivity. }
  apply bind_returns in E2. destruct E2 as (t3 & saved & t4 & E3 & E4 & ->).
  destruct saved as [p |].
  - inversion E4; subst.
    destruct (scan_parts_returns _ _ _ _ _ E3)
      as (-> & texts & part & rest & blob & _ & _ & _ & ->).
    split; [reflexivity | ]. exists (blob_data blob). reflexivity.
  - exfalso.
    assert (H : exists h, snd (t4, @inr halt string full_path) = inl h).
    { rewrite <- E4. do 2 (apply bind_halts; intros).
      eexists. reflexivity. }
    destruct H as (h & H). discriminate H.
Qed.

Lemma resolve_api_key_returns w api_key tr k :
  resolve_api_key w api_key = (tr, inr k) -> tr = [].
Proof.
  unfold resolve_api_key.
  destruct (resolved_api_key w api_key) as [s |]; [destruct (s =? "") | ];
    intro E; inversion E; reflexivity.
Qed.

Lemma validate_resolution_returns res tr u :
  ImageScript.validate_resolution res = (tr, inr u) -> tr = [].
Proof.
  unfold ImageScript.validate_resolution.
  destruct (existsb _ _); intro E; inversion E; reflexivity.
Qed.

Lemma download_and_save_returns w c out operation tr full_path :
  VideoScript.download_and_save w c out operation = (tr, inr full_path) ->
  full_path = path_resolve w out /\
  exists file,
    tr = [Mkdir (path_parent w out); FilesDownload c file; VideoSave out;
          Stdout (VideoSaved (path_resolve w out))].
Proof.
  unfold VideoScript.download_and_save. intro E.
  apply bind_returns in E. destruct E as (t1 & u & t2 & E1 & E2 & ->).
  assert (t1 = [Mkdir (path_parent w out)]) as ->.
  { destruct (mkdir_parents w (path_parent w out)); inversion E1.
    reflexivity. }
  apply try_except_returns in E2;
    [ | intro e; eexists; eexists; reflexivity ].
  destruct (result operation) as [[| v vs] |]; try discriminate E2.
  rewrite bind_ret in E2.
  destruct (files_download w (video v)); [discriminate E2 | ].
  destruct (video_save w (video v) out); [discriminate E2 | ].
  inversion E2; subst. split; [reflexivity | ].
  exists (video v). reflexivity.
Qed.

Lemma quiet_is_not_extraction (e : event) :
  is_network_call e = false -> is_extraction e = false ->
  is_extraction e = false.
Proof. intros _ H. exact H. Qed.

Lemma request_and_save_returns w c prompt out res img tr full_path :
  ImageScript.request_and_save w c prompt out res img = (tr, inr full_path) ->
  full_path = path_resolve w out /\
  exists before data,
    tr = before ++ [Mkdir (path_parent w out); WriteBytes out data;
                    Stdout (ImageSaved (path_resolve w out))] /\
    Forall (fun e => is_extraction e = false) before.
Proof.
  unfold ImageScript.request_and_save. intro E.
  apply bind_returns in E. destruct E as (t1 & cs & t2 & E1 & E2 & ->).
  apply bind_returns in E2. destruct E2 as (t3 & r & t4 & E3 & E4 & ->).
  apply extract_and_save_returns in E4. destruct E4 as (-> & data & ->).
  split; [reflexivity | ].
  exists (t1 ++ t3), data. split; [rewrite app_assoc; reflexivity | ].
  apply Forall_app. split.
  - change t1 with (fst (t1, @inr halt _ cs)). rewrite <- E1.
    apply all_build_contents, quiet_is_not_extraction.
  - apply try_except_returns in E3;
      [ | intro e; eexists; eexists; reflexivity ].
    destruct (generate_content w c ImageScript.model cs res);
      inversion E3; subst. repeat constructor.
Qed.

Lemma poll_and_save_returns w c out operation tr full_path :
  VideoScript.poll_and_save w c out operation = (tr, inr full_path) ->
  full_path = path_resolve w out /\
  exists before file,
    tr = before ++ [Mkdir (path_parent w out); FilesDownload c file;
                    VideoSave out;
                    Stdout (VideoSaved (path_resolve w out))] /\
    Forall (fun e => is_extraction e = false) before.
Proof.
  unfold VideoScript.poll_and_save. intro E.
  apply bind_returns in E. destruct E as (t1 & u & t2 & E1 & E2 & ->).
  apply bind_returns in E2. destruct E2 as (t3 & op & t4 & E3 & E4 & ->).
  apply bind_returns in E4. destruct E4 as (t5 & u' & t6 & E5 & E6 & ->).
  apply download_and_save_returns in E6. destruct E6 as (-> & file & ->).
  split; [reflexivity | ].
  exists (t1 ++ t3 ++ t5), file.
  split; [rewrite <- !app_assoc; reflexivity | ].
  repeat (apply Forall_app; split).
  - inversion E1. repeat constructor.
  - change t3 with (fst (t3, @inr halt _ op)). rewrite <- E3.
    apply all_wait_for_completion;
      [apply quiet_is_not_extraction | reflexivity].
  - change t5 with (fst (t5, @inr halt _ u')). rewrite <- E5.
    apply all_check_for_errors, quiet_is_not_extraction.
Qed.

(** C8.  Whenever either script returns, the returned value is the resolved
    output path, and the run ends with: make the parent directory of the
    output path, write the artifact there (the picture's bytes; the
    downloaded video), print the resolved path.  Nothing before that touches
    the output location, so the directory is made before the bytes are
    written, in the image and in the video script alike. *)
Theorem C8_output_path_handling
    (w : World) (prompt out res model : string)
    (neg img api_key : option string) :
  (forall tr full_path,
     ImageScript.generate_image w prompt out res img api_key =
       (tr, inr full_path) ->
     full_path = path_resolve w out /\
     exists before data,
       tr = before ++ [Mkdir (path_parent w out); WriteBytes out data;
                       Stdout (ImageSaved (path_resolve w out))] /\
       Forall (fun e => is_extraction e = false) before) /\
  (forall tr full_path,
     VideoScript.generate_video w prompt out model neg img api_key =
       (tr, inr full_path) ->
     full_path = path_resolve w out /\
     exists before c file,
       tr = before ++ [Mkdir (path_parent w out); FilesDownload c file;
                       VideoSave out;
                       Stdout (VideoSaved (path_resolve w out))] /\
       Forall (fun e => is_extraction e = false) before).
Proof.
  split; intros tr full_path E.
  - unfold ImageScript.generate_image in E.
    apply bind_returns in E. destruct E as (t1 & k & t2 & E1 & E2 & ->).
    apply resolve_api_key_returns in E1. subst t1.
    apply bind_returns in E2. destruct E2 as (t3 & u & t4 & E3 & E4 & ->).
    apply validate_resolution_returns in E3. subst t3.
    apply request_and_save_returns in E4. exact E4.
  - unfold VideoScript.generate_video in E.
    apply bind_returns in E. destruct E as (t1 & k & t2 & E1 & E2 & ->).
    apply resolve_api_key_returns in E1. subst t1.
    unfold VideoScript.generate_with_client in E2.
    apply bind_returns in E2. destruct E2 as (t3 & image & t4 & E3 & E4 & ->).
    apply bind_returns in E4. destruct E4 as (t5 & op & t6 & E5 & E6 & ->).
    apply poll_and_save_returns in E6.
    destruct E6 as (-> & before & file & -> & Hb).
    split; [reflexivity | ].
    exists (t3 ++ t5 ++ before), (mkClient k), file.
    split; [simpl; rewrite <- !app_assoc; reflexivity | ].
    repeat (apply Forall_app; split); [ | | exact Hb].
    + change t3 with (fst (t3, @inr halt _ image)). rewrite <- E3.
      apply all_load_input_image, quiet_is_not_extraction.
    + change t5 with (fst (t5, @inr halt _ op)). rewrite <- E5.
      apply all_start_generation;
        [apply quiet_is_not_extraction | reflexivity].
Qed.

Lemma C8_output_path_handling_witness :
  (ImageScript.generate_image Scenario.world "A red circle" "pictures/a.png"
     "1K" None (Some "k") =
   ([GenerateContent (mkClient "k") ImageScript.model
       [PromptText "A red circle"] "1K";
     Mkdir "pictures"; WriteBytes "pictures/a.png" Scenario.png_bytes;
     Stdout (ImageSaved "/home/user/pictures/a.png")],
    inr "/home/user/pictures/a.png") /\
   "/home/user/pictures/a.png" =
     path_resolve Scenario.world "pictures/a.png") /\
  (snd (VideoScript.generate_video Scenario.world "A cat" "clips/a.mp4" "veo"
          None None (Some "k")) = inr "/home/user/clips/a.mp4" /\
   "/home/user/clips/a.mp4" = path_resolve Scenario.world "clips/a.mp4").
Proof.
  destruct (C8_output_path_handling Scenario.world "A red circle"
              "pictures/a.png" "1K" "veo" None None (Some "k"))
    as (Picture & _).
  destruct (C8_output_path_handling Scenario.world "A cat" "clips/a.mp4"
              "1K" "veo" None None (Some "k")) as (_ & Clip).
  split; split.
  - reflexivity.
  - exact (proj1 (Picture
             (fst (ImageScript.generate_image Scenario.world "A red circle"
                     "pictures/a.png" "1K" None (Some "k")))
             "/home/user/pictures/a.png" eq_refl)).
  - reflexivity.
  - exact (proj1 (Clip
             (fst (VideoScript.generate_video Scenario.world "A cat"
                     "clips/a.mp4" "veo" None None (Some "k")))
             "/home/user/clips/a.mp4" eq_refl)).
Defined.

(** ** The polling loop *)

Lemma wait_done c answers n operation :
  done operation = true ->
  VideoScript.wait_for_completion c answers n operation = ret operation.
Proof. intro H. rewrite wait_for_completion_eq, H. reflexivity. Qed.

(** One answered poll: the progress line, the sleep, the query, and the loop
    goes on from the answer. *)
Lemma wait_step c answer answers n operation :
  done operation = false ->
  VideoScript.wait_for_completion c (inr answer :: answers) n operation =
  (polling_trace c n 1, inr tt) ;;;
  VideoScript.wait_for_completion c answers (n + 1) answer.
Proof.
  intro H. rewrite wait_for_completion_eq, H. simpl polling_trace.
  rewrite bind_value. cbv beta.
  destruct (VideoScript.wait_for_completion c answers (n + 1) answer)
    as [tr r] eqn:W.
  simpl. rewrite W. reflexivity.
Qed.

(** One poll that raises: the loop is left through [sys.exit(1)] at once,
    whatever answers would have followed. *)
Lemma wait_failure c e answers n operation :
  done operation = false ->
  VideoScript.wait_for_completion c (inl e :: answers) n operation =
  (polling_trace c n 1 ++
   [Stderr (ErrorCheckingOperationStatus (Py.str_of_exn e))],
   inl (SysExit 1 (ServiceError (Py.str_of_exn e)))).
Proof. intro H. rewrite wait_for_completion_eq, H. reflexivity. Qed.

Lemma polling_trace_succ c n k :
  polling_trace c n (S k) = polling_trace c n 1 ++ polling_trace c (n + 1) k.
Proof. reflexivity. Qed.

Lemma last_cons_default {A} (l : list A) (a d : A) :
  last (a :: l) d = last l a.
Proof.
  revert a d. induction l as [| b l IH]; intros a d; [reflexivity | ].
  change (last (a :: b :: l) d) with (last (b :: l) d).
  rewrite (IH b d), (IH b a). reflexivity.
Qed.

(** Any number of pending answers is waited through: after [pend] the loop
    stands at the answer that follows them, [length pend] polls later. *)
Lemma wait_through_pending c pend answers n operation :
  done operation = false ->
  Forall (fun o => done o = false) pend ->
  VideoScript.wait_for_completion c (map inr pend ++ answers) n operation =
  (polling_trace c n (length pend), inr tt) ;;;
  VideoScript.wait_for_completion c answers (n + Z.of_nat (length pend))
    (last pend operation).
Proof.
  intros Hop Hpend. revert n operation Hop.
  induction Hpend as [| p pend Hp _ IH]; intros n operation Hop.
  - simpl. rewrite Z.add_0_r.
    destruct (VideoScript.wait_for_completion c answers n operation).
    reflexivity.
  - change (map inr (p :: pend) ++ answers)
      with (inr p :: (map inr pend ++ answers)).
    rewrite (wait_step _ _ _ _ _ Hop), (IH (n + 1)%Z p Hp).
    rewrite (last_cons_default pend p operation).
    replace (n + Z.of_nat (length (p :: pend)))%Z
      with (n + 1 + Z.of_nat (length pend))%Z
      by (simpl length; lia).
    change (length (p :: pend)) with (S (length pend)).
    rewrite polling_trace_succ.
    destruct (VideoScript.wait_for_completion c answers
                (n + 1 + Z.of_nat (length pend)) (last pend p)) as [tr r].
    reflexivity.
Qed.

Lemma last_pending pend operation :
  done operation = false ->
  Forall (fun o => done o = false) pend ->
  done (last pend operation) = false.
Proof.
  intros Hop Hpend. revert operation Hop.
  induction Hpend as [| p pend Hp _ IH]; intros operation Hop;
    [exact Hop | ].
  rewrite last_cons_default. apply (IH p Hp).
Qed.

Lemma polling_trace_snoc c n k :
  polling_trace c n (S k) =
  polling_trace c n k ++ polling_trace c (n + Z.of_nat k) 1.
Proof.
  revert n. induction k as [| k IH]; intro n.
  - simpl. rewrite Z.add_0_r. reflexivity.
  - rewrite polling_trace_succ, (IH (n + 1)%Z), polling_trace_succ.
    replace (n + 1 + Z.of_nat k)%Z with (n + Z.of_nat (S k))%Z by lia.
    rewrite <- app_assoc. reflexivity.
Qed.

(** Pending answers followed by a finished one: one poll per answer, and the
    loop hands over the finished operation. *)
Lemma wait_until_done c pend d rest n operation :
  done operation = false ->
  Forall (fun o => done o = false) pend ->
  done d = true ->
  VideoScript.wait_for_completion c (map inr pend ++ inr d :: rest) n
    operation =
  (polling_trace c n (S (length pend)), inr d).
Proof.
  intros Hop Hpend Hd.
  rewrite (wait_through_pending _ _ _ _ _ Hop Hpend).
  rewrite (wait_step _ _ _ _ _ (last_pending _ _ Hop Hpend)).
  rewrite (wait_done _ _ _ _ Hd), (polling_trace_snoc c n (length pend)).
  unfold bind, ret. rewrite !app_nil_r. reflexivity.
Qed.

(** Pending answers followed by a failing query. *)
Lemma wait_until_failure c pend e rest n operation :
  done operation = false ->
  Forall (fun o => done o = false) pend ->
  VideoScript.wait_for_completion c (map inr pend ++ inl e :: rest) n
    operation =
  (polling_trace c n (S (length pend)) ++
   [Stderr (ErrorCheckingOperationStatus (Py.str_of_exn e))],
   inl (SysExit 1 (ServiceError (Py.str_of_exn e)))).
Proof.
  intros Hop Hpend.
  rewrite (wait_through_pending _ _ _ _ _ Hop Hpend).
  rewrite (wait_failure _ _ _ _ _ (last_pending _ _ Hop Hpend)).
  rewrite (polling_trace_snoc c n (length pend)).
  unfold bind. rewrite <- app_assoc. reflexivity.
Qed.

(** The loop has no bound of its own: as long as the answers are pending it
    asks again, and is still waiting when the answers run out. *)
Lemma wait_never_gives_up c pend n operation :
  done operation = false ->
  Forall (fun o => done o = false) pend ->
  VideoScript.wait_for_completion c (map inr pend) n operation =
  (polling_trace c n (S (length pend)), inl Hang).
Proof.
  intros Hop Hpend. rewrite <- (app_nil_r (map inr pend)).
  rewrite (wait_through_pending _ _ _ _ _ Hop Hpend).
  rewrite wait_for_completion_eq, (last_pending _ _ Hop Hpend).
  rewrite (polling_trace_snoc c n (length pend)).
  reflexivity.
Qed.

Lemma count_app (f : event -> bool) (t1 t2 : list event) :
  count f (t1 ++ t2) = count f t1 + count f t2.
Proof. unfold count. rewrite filter_app, length_app. reflexivity. Qed.

Lemma polling_trace_polls c n k : count is_poll (polling_trace c n k) = k.
Proof.
  revert n. induction k as [| k IH]; intro n; [reflexivity | ].
  rewrite polling_trace_succ, count_app, IH. reflexivity.
Qed.

Lemma polling_trace_delays c n k : count is_delay (polling_trace c n k) = k.
Proof.
  revert n. induction k as [| k IH]; intro n; [reflexivity | ].
  rewrite polling_trace_succ, count_app, IH. reflexivity.
Qed.

Lemma polling_trace_no_extraction c n k :
  count is_extraction (polling_trace c n k) = 0.
Proof.
  revert n. induction k as [| k IH]; intro n; [reflexivity | ].
  rewrite polling_trace_succ, count_app, IH. reflexivity.
Qed.

(** Every delay of the loop is twenty seconds long. *)
Lemma polling_trace_fixed_interval c n k :
  Forall (fun e => is_delay e = true -> e = Sleep 20) (polling_trace c n k).
Proof.
  revert n. induction k as [| k IH]; intro n; [constructor | ].
  rewrite polling_trace_succ. apply Forall_app. split; [ | apply IH ].
  repeat constructor; simpl; discriminate.
Qed.

Lemma check_for_errors_passes operation :
  Py.truthy (error operation) = false ->
  VideoScript.check_for_errors operation = ret tt.
Proof.
  unfold VideoScript.check_for_errors.
  destruct (error operation) as [d |]; simpl; [ | reflexivity].
  destruct (d =? ""); [reflexivity | discriminate].
Qed.

Lemma check_for_errors_fails operation detail :
  error operation = Some detail -> detail <> "" ->
  VideoScript.check_for_errors operation =
  ([Stderr (ErrorGeneratingVideo detail)],
   inl (SysExit 1 (GenerationFailed detail))).
Proof.
  intros He Hd. unfold VideoScript.check_for_errors. rewrite He.
  apply String.eqb_neq in Hd. rewrite Hd. reflexivity.
Qed.

(** Lines 108-139 by cases on how the loop and the error check end. *)
Lemma poll_and_save_eq w c out operation :
  VideoScript.poll_and_save w c out operation =
  match VideoScript.wait_for_completion c (operations_get w) 0 operation with
  | (tw, inl h) => (Stdout GeneratingVideo :: tw, inl h)
  | (tw, inr operation') =>
      match VideoScript.check_for_errors operation' with
      | (tc, inl h) => (Stdout GeneratingVideo :: tw ++ tc, inl h)
      | (tc, inr _) =>
          (Stdout GeneratingVideo :: tw ++ tc ++
             fst (VideoScript.download_and_save w c out operation'),
           snd (VideoScript.download_and_save w c out operation'))
      end
  end.
Proof.
  unfold VideoScript.poll_and_save, bind, emit.
  destruct (VideoScript.wait_for_completion c (operations_get w) 0 operation)
    as [tw [h | operation']]; [reflexivity | ].
  destruct (VideoScript.check_for_errors operation') as [tc [h | u]];
    [reflexivity | ].
  destruct (VideoScript.download_and_save w c out operation').
  reflexivity.
Qed.

(** ** The completion waiter *)

(** C3, counterexample.  With a pending handle and the poll answers pending,
    pending, done, the video script queries the status three times and
    sleeps three times, not twice: each query has its own sleep before it.
    (Were the first pending of the script the handle itself, there would be
    two sleeps, but then only two queries.) *)
Lemma C3_three_delays_not_two :
  let tr := fst (VideoScript.generate_video Scenario.world "A cat"
                   "out/a.mp4" "veo" None None (Some "k")) in
  let tr' := fst (VideoScript.generate_video
                    (set_operations_get Scenario.world
                       [inr Scenario.pending; inr Scenario.done_success])
                    "A cat" "out/a.mp4" "veo" None None (Some "k")) in
  generate_videos Scenario.world (mkClient "k") "veo" "A cat" None None =
    inr Scenario.pending /\
  operations_get Scenario.world =
    [inr Scenario.pending; inr Scenario.pending; inr Scenario.done_success] /\
  count is_poll tr = 3 /\
  count is_delay tr = 3 /\
  count is_delay tr <> 2 /\
  count is_poll tr' = 2 /\
  count is_delay tr' = 2.
Proof. vm_compute. repeat split. discriminate. Qed.

(** C3, amended.  From a pending handle, with the poll answers pending,
    pending, done-without-error, the waiter performs exactly three status
    queries and exactly three delays, each query preceded by its own sleep
    of twenty seconds, and hands the finished operation to the download and
    save step, which runs next.  More generally it waits through any number
    of pending answers, one twenty-second sleep and one query per answer. *)
Theorem C3_three_polls_three_delays
    (w : World) (c : Client) (out : string)
    (p0 p1 p2 d : Operation) (rest : list (Py.exn + Operation)) :
  done p0 = false -> done p1 = false -> done p2 = false ->
  done d = true -> Py.truthy (error d) = false ->
  operations_get w = inr p1 :: inr p2 :: inr d :: rest ->
  let waited :=
    [Stdout (Waiting 20); Sleep 20; OperationsGet c;
     Stdout (Waiting 40); Sleep 20; OperationsGet c;
     Stdout (Waiting 60); Sleep 20; OperationsGet c] in
  VideoScript.wait_for_completion c (operations_get w) 0 p0 =
    (waited, inr d) /\
  count is_poll waited = 3 /\
  count is_delay waited = 3 /\
  Forall (fun e => is_delay e = true -> e = Sleep 20) waited /\
  VideoScript.poll_and_save w c out p0 =
    (Stdout GeneratingVideo :: waited ++
       fst (VideoScript.download_and_save w c out d),
     snd (VideoScript.download_and_save w c out d)) /\
  (forall pend rest',
     Forall (fun o => done o = false) pend ->
     let tr := polling_trace c 0 (S (length pend)) in
     VideoScript.wait_for_completion c (map inr pend ++ inr d :: rest') 0 p0 =
       (tr, inr d) /\
     count is_poll tr = S (length pend) /\
     count is_delay tr = S (length pend) /\
     Forall (fun e => is_delay e = true -> e = Sleep 20) tr).
Proof.
  intros H0 H1 H2 Hd He Hw waited.
  assert (W : VideoScript.wait_for_completion c (operations_get w) 0 p0 =
              (waited, inr d)).
  { rewrite Hw.
    apply (wait_until_done c [p1; p2] d rest 0 p0 H0); auto. }
  split; [exact W | ].
  split; [reflexivity | ].
  split; [reflexivity | ].
  split; [apply (polling_trace_fixed_interval c 0 3) | ].
  split.
  - rewrite poll_and_save_eq, W, (check_for_errors_passes _ He).
    reflexivity.
  - intros pend rest' Hpend tr. subst tr.
    rewrite (wait_until_done c pend d rest' 0 p0 H0 Hpend Hd).
    rewrite polling_trace_polls, polling_trace_delays.
    repeat split. apply polling_trace_fixed_interval.
Qed.

Lemma C3_three_polls_three_delays_witness :
  done Scenario.pending = false /\
  done Scenario.done_success = true /\
  Py.truthy (error Scenario.done_success) = false /\
  VideoScript.poll_and_save Scenario.world (mkClient "k") "out/a.mp4"
    Scenario.pending =
  ([Stdout GeneratingVideo;
    Stdout (Waiting 20); Sleep 20; OperationsGet (mkClient "k");
    Stdout (Waiting 40); Sleep 20; OperationsGet (mkClient "k");
    Stdout (Waiting 60); Sleep 20; OperationsGet (mkClient "k");
    Mkdir "out"; FilesDownload (mkClient "k") "files/clip-1";
    VideoSave "out/a.mp4"; Stdout (VideoSaved "/home/user/out/a.mp4")],
   inr "/home/user/out/a.mp4").
Proof.
  repeat (split; [reflexivity | ]).
  apply (C3_three_polls_three_delays Scenario.world (mkClient "k")
           "out/a.mp4" Scenario.pending Scenario.pending Scenario.pending
           Scenario.done_success []); reflexivity.
Defined.

(** C4.  From a pending handle, with the poll answers pending, then done
    with an error, the run makes exactly two status queries, prints the
    service's error detail and exits with [GenerationFailed] carrying that
    detail; no directory is made and nothing is downloaded or saved. *)
Theorem C4_generation_failed
    (w : World) (c : Client) (out : string)
    (p0 p1 d : Operation) (detail : string)
    (rest : list (Py.exn + Operation)) :
  done p0 = false -> done p1 = false ->
  done d = true -> error d = Some detail -> detail <> "" ->
  operations_get w = inr p1 :: inr d :: rest ->
  let tr :=
    [Stdout GeneratingVideo;
     Stdout (Waiting 20); Sleep 20; OperationsGet c;
     Stdout (Waiting 40); Sleep 20; OperationsGet c;
     Stderr (ErrorGeneratingVideo detail)] in
  VideoScript.poll_and_save w c out p0 =
    (tr, inl (SysExit 1 (GenerationFailed detail))) /\
  count is_poll tr = 2 /\
  count is_extraction tr = 0.
Proof.
  intros H0 H1 Hd He Hdetail Hw tr.
  split; [ | split; reflexivity ].
  rewrite poll_and_save_eq, Hw.
  change (inr p1 :: inr d :: rest) with (map inr [p1] ++ inr d :: rest).
  rewrite (wait_until_done c [p1] d rest 0 p0 H0) by auto.
  rewrite (check_for_errors_fails _ _ He Hdetail). reflexivity.
Qed.

Lemma C4_generation_failed_witness :
  let w := set_operations_get Scenario.world
             [inr Scenario.pending; inr Scenario.done_error] in
  error Scenario.done_error = Some "quota exceeded" /\
  "quota exceeded" <> "" /\
  VideoScript.poll_and_save w (mkClient "k") "out/a.mp4" Scenario.pending =
  ([Stdout GeneratingVideo;
    Stdout (Waiting 20); Sleep 20; OperationsGet (mkClient "k");
    Stdout (Waiting 40); Sleep 20; OperationsGet (mkClient "k");
    Stderr (ErrorGeneratingVideo "quota exceeded")],
   inl (SysExit 1 (GenerationFailed "quota exceeded"))).
Proof.
  intro w.
  assert (N : "quota exceeded" <> "") by discriminate.
  split; [reflexivity | split; [exact N | ]].
  apply (C4_generation_failed w (mkClient "k") "out/a.mp4" Scenario.pending
           Scenario.pending Scenario.done_error "quota exceeded" []);
    solve [reflexivity | exact N].
Defined.

(** C7.  At whichever poll the status query raises, after any number of
    pending answers, the run prints the error and exits with [ServiceError]
    right there: the failed query is the last one, however many answers the
    service still had, and nothing is downloaded or saved. *)
Theorem C7_poll_failure_is_fatal
    (w : World) (c : Client) (out : string) (p0 : Operation)
    (pend : list Operation) (e : Py.exn)
    (rest : list (Py.exn + Operation)) :
  done p0 = false ->
  Forall (fun o => done o = false) pend ->
  operations_get w = map inr pend ++ inl e :: rest ->
  let tr :=
    Stdout GeneratingVideo :: polling_trace c 0 (S (length pend)) ++
    [Stderr (ErrorCheckingOperationStatus (Py.str_of_exn e))] in
  VideoScript.poll_and_save w c out p0 =
    (tr, inl (SysExit 1 (ServiceError (Py.str_of_exn e)))) /\
  count is_poll tr = S (length pend) /\
  count is_extraction tr = 0.
Proof.
  intros H0 Hpend Hw tr. subst tr. split; [ | split ].
  - rewrite poll_and_save_eq, Hw.
    rewrite (wait_until_failure c pend e rest 0 p0 H0 Hpend). reflexivity.
  - change (count is_poll
              ([Stdout GeneratingVideo] ++
               polling_trace c 0 (S (length pend)) ++
               [Stderr (ErrorCheckingOperationStatus (Py.str_of_exn e))])
            = S (length pend)).
    rewrite !count_app, polling_trace_polls.
    change (0 + (S (length pend) + 0) = S (length pend)). lia.
  - change (count is_extraction
              ([Stdout GeneratingVideo] ++
               polling_trace c 0 (S (length pend)) ++
               [Stderr (ErrorCheckingOperationStatus (Py.str_of_exn e))])
            = 0).
    rewrite !count_app, polling_trace_no_extraction. reflexivity.
Qed.

Lemma C7_poll_failure_is_fatal_witness :
  let w := set_operations_get Scenario.world
             [inr Scenario.pending; inl (Py.Exception_ "connection reset");
              inr Scenario.pending; inr Scenario.done_success] in
  VideoScript.poll_and_save w (mkClient "k") "out/a.mp4" Scenario.pending =
  ([Stdout GeneratingVideo;
    Stdout (Waiting 20); Sleep 20; OperationsGet (mkClient "k");
    Stdout (Waiting 40); Sleep 20; OperationsGet (mkClient "k");
    Stderr (ErrorCheckingOperationStatus "connection reset")],
   inl (SysExit 1 (ServiceError "connection reset"))).
Proof.
  intro w.
  apply (C7_poll_failure_is_fatal w (mkClient "k") "out/a.mp4"
           Scenario.pending [Scenario.pending]
           (Py.Exception_ "connection reset")
           [inr Scenario.pending; inr Scenario.done_success]).
  - reflexivity.
  - repeat constructor.
  - reflexivity.
Defined.

(** ** The default MIME type *)

(** C9, counterexample.  For the same file of unknown type the two scripts
    pick different defaults: the image script tags it [image/png], the video
    script [image/jpeg]. *)
Lemma C9_defaults_differ :
  guess_type Scenario.world "sketch.xyz" = None /\
  submitted_contents
    (fst (ImageScript.generate_image Scenario.world "Add clouds" "out/a.png"
            "1K" (Some "sketch.xyz") (Some "k"))) =
    [[PartFromBytes (mkBlob Scenario.png_bytes "image/png");
      PromptText "Add clouds"]] /\
  hd_error (filter is_network_call
              (fst (VideoScript.generate_video Scenario.world "A cat"
                      "out/a.mp4" "veo" None (Some "sketch.xyz")
                      (Some "k")))) =
    Some (GenerateVideos (mkClient "k") "veo" "A cat"
            (Some (mkImage Scenario.png_bytes "image/jpeg")) None) /\
  ImageScript.get_mime_type Scenario.world "sketch.xyz" <>
  VideoScript.input_image_mime_type Scenario.world "sketch.xyz".
Proof. repeat split. discriminate. Qed.

(** C9, amended.  For every non-empty reference path that names a readable
    file and whose type [mimetypes] cannot guess, each script tags the file's
    bytes with its own fixed default: [image/png] in the image script,
    [image/jpeg] in the video script. *)
Theorem C9_default_mime_type
    (w : World) (p prompt : string) (d : Py.bytes) :
  guess_type w p = None -> p <> "" -> fs w p = Some (Py.File d) ->
  ImageScript.get_mime_type w p = "image/png" /\
  VideoScript.input_image_mime_type w p = "image/jpeg" /\
  ImageScript.build_contents w prompt (Some p) =
    ([ReadFile p],
     inr [PartFromBytes
            (mkBlob (standard_b64decode w (standard_b64encode w d))
                    "image/png");
          PromptText prompt]) /\
  VideoScript.load_input_image w (Some p) =
    ([Stdout (LoadingInputImage p); ReadFile p],
     inr (Some (mkImage d "image/jpeg"))).
Proof.
  intros Hg Hp Hfs.
  assert (Png : ImageScript.get_mime_type w p = "image/png")
    by (unfold ImageScript.get_mime_type; rewrite Hg; reflexivity).
  assert (Jpeg : VideoScript.input_image_mime_type w p = "image/jpeg")
    by (unfold VideoScript.input_image_mime_type; rewrite Hg; reflexivity).
  repeat split; try assumption.
  - rewrite (build_contents_with_image _ _ _ _ Hp Hfs), Png. reflexivity.
  - unfold VideoScript.load_input_image.
    apply String.eqb_neq in Hp. rewrite Hp, Hfs, Jpeg. reflexivity.
Qed.

Lemma C9_default_mime_type_witness :
  guess_type Scenario.world "sketch.xyz" = None /\
  "sketch.xyz" <> "" /\
  fs Scenario.world "sketch.xyz" = Some (Py.File Scenario.png_bytes) /\
  ImageScript.get_mime_type Scenario.world "sketch.xyz" = "image/png" /\
  VideoScript.input_image_mime_type Scenario.world "sketch.xyz" =
    "image/jpeg".
Proof.
  assert (N : "sketch.xyz" <> "") by discriminate.
  destruct (C9_default_mime_type Scenario.world "sketch.xyz" "Add clouds"
              Scenario.png_bytes eq_refl N eq_refl) as (Png & Jpeg & _).
  repeat split; assumption.
Defined.

(** ** The image script, step by step *)

Lemma build_contents_missing_file w prompt p :
  p <> "" -> fs w p = None ->
  ImageScript.build_contents w prompt (Some p) =
  ([], inl (Uncaught
              (Py.FileNotFoundError ("Input image not found: " ++ p)))).
Proof.
  intros Hp Hfs. unfold ImageScript.build_contents.
  apply String.eqb_neq in Hp. rewrite Hp.
  unfold ImageScript.load_image_as_base64. rewrite Hfs. reflexivity.
Qed.

(** Lines 90-145 once the contents are built: one call, then either the
    error exit or the extraction of the answer. *)
Lemma request_and_save_eq w c prompt out res img t cs :
  ImageScript.build_contents w prompt img = (t, inr cs) ->
  ImageScript.request_and_save w c prompt out res img =
  match generate_content w c ImageScript.model cs res with
  | inl e =>
      (t ++ [GenerateContent c ImageScript.model cs res;
             Stderr (ErrorCallingGeminiApi (Py.str_of_exn e))],
       inl (SysExit 1 (ServiceError (Py.str_of_exn e))))
  | inr response =>
      (t ++ GenerateContent c ImageScript.model cs res ::
         fst (ImageScript.extract_and_save w out response),
       snd (ImageScript.extract_and_save w out response))
  end.
Proof.
  intro Hb. unfold ImageScript.request_and_save. rewrite Hb, bind_value.
  cbv beta.
  destruct (generate_content w c ImageScript.model cs res) as [e | response];
    simpl.
  - reflexivity.
  - destruct (ImageScript.extract_and_save w out response). reflexivity.
Qed.

Lemma generate_image_eq w prompt out res img api_key k t cs :
  resolved_api_key w api_key = Some k -> k <> "" ->
  In res ImageScript.valid_resolutions ->
  ImageScript.build_contents w prompt img = (t, inr cs) ->
  ImageScript.generate_image w prompt out res img api_key =
  match generate_content w (mkClient k) ImageScript.model cs res with
  | inl e =>
      (t ++ [GenerateContent (mkClient k) ImageScript.model cs res;
             Stderr (ErrorCallingGeminiApi (Py.str_of_exn e))],
       inl (SysExit 1 (ServiceError (Py.str_of_exn e))))
  | inr response =>
      (t ++ GenerateContent (mkClient k) ImageScript.model cs res ::
         fst (ImageScript.extract_and_save w out response),
       snd (ImageScript.extract_and_save w out response))
  end.
Proof.
  intros Hr Hk Hres Hb.
  rewrite (generate_image_keyed _ _ _ _ _ _ _ Hr Hk).
  rewrite (valid_resolution_passes _ Hres), bind_ret.
  apply request_and_save_eq. exact Hb.
Qed.

(** X1.  In the image script a non-empty input path that names nothing on
    disk is not reported through [sys.exit]: once the credential and the
    resolution have passed, [load_image_as_base64] raises
    [FileNotFoundError], nobody catches it, and the run ends there with
    nothing printed, nothing read and no network call. *)
Theorem image_missing_input_is_uncaught
    (w : World) (prompt out res p : string) (api_key : option string)
    (k : string) :
  resolved_api_key w api_key = Some k -> k <> "" ->
  In res ImageScript.valid_resolutions ->
  p <> "" -> fs w p = None ->
  ImageScript.generate_image w prompt out res (Some p) api_key =
  ([], inl (Uncaught
              (Py.FileNotFoundError ("Input image not found: " ++ p)))).
Proof.
  intros Hr Hk Hres Hp Hfs.
  rewrite (generate_image_keyed _ _ _ _ _ _ _ Hr Hk).
  rewrite (valid_resolution_passes _ Hres), bind_ret.
  unfold ImageScript.request_and_save.
  rewrite (build_contents_missing_file _ _ _ Hp Hfs). reflexivity.
Qed.

Lemma image_missing_input_is_uncaught_witness :
  ImageScript.generate_image Scenario.world "Add clouds" "out/a.png" "2K"
    (Some "gone.png") (Some "k") =
  ([], inl (Uncaught
              (Py.FileNotFoundError "Input image not found: gone.png"))).
Proof.
  apply (image_missing_input_is_uncaught Scenario.world "Add clouds"
           "out/a.png" "2K" "gone.png" (Some "k") "k");
    solve [reflexivity | discriminate | simpl; auto].
Defined.

(** X2.  When [generate_content] raises, the image script prints the
    exception's text and exits with status 1: the failed call is the only
    network call of the run, it is not tried again, and no directory is
    made and no file written. *)
Theorem image_service_error_is_final
    (w : World) (prompt out res : string) (img api_key : option string)
    (k : string) (t : list event) (cs : list content_item) (e : Py.exn) :
  resolved_api_key w api_key = Some k -> k <> "" ->
  In res ImageScript.valid_resolutions ->
  ImageScript.build_contents w prompt img = (t, inr cs) ->
  generate_content w (mkClient k) ImageScript.model cs res = inl e ->
  let image_run := ImageScript.generate_image w prompt out res img api_key in
  image_run =
    (t ++ [GenerateContent (mkClient k) ImageScript.model cs res;
           Stderr (ErrorCallingGeminiApi (Py.str_of_exn e))],
     inl (SysExit 1 (ServiceError (Py.str_of_exn e)))) /\
  network_calls (fst image_run) =
    [GenerateContent (mkClient k) ImageScript.model cs res] /\
  count is_extraction (fst image_run) = 0.
Proof.
  intros Hr Hk Hres Hb He image_run.
  assert (E : image_run =
    (t ++ [GenerateContent (mkClient k) ImageScript.model cs res;
           Stderr (ErrorCallingGeminiApi (Py.str_of_exn e))],
     inl (SysExit 1 (ServiceError (Py.str_of_exn e))))).
  { subst image_run.
    rewrite (generate_image_eq _ _ _ _ _ _ _ _ _ Hr Hk Hres Hb), He.
    reflexivity. }
  assert (Quiet : Forall (fun ev => is_network_call ev = false /\
                                    is_extraction ev = false) t).
  { change t with (fst (t, @inr halt _ cs)). rewrite <- Hb.
    apply all_build_contents. intros ev H1 H2. split; assumption. }
  split; [exact E | ]. rewrite E. simpl fst. split.
  - unfold network_calls. rewrite filter_app.
    replace (filter is_network_call t) with (@nil event); [reflexivity | ].
    symmetry. clear - Quiet. induction Quiet as [| ev t [H _] _ IH];
      [reflexivity | ]. simpl. rewrite H. exact IH.
  - unfold count. rewrite filter_app.
    replace (filter is_extraction t) with (@nil event); [reflexivity | ].
    symmetry. clear - Quiet. induction Quiet as [| ev t [_ H] _ IH];
      [reflexivity | ]. simpl. rewrite H. exact IH.
Qed.

Lemma image_service_error_is_final_witness :
  ImageScript.generate_image
    (set_generate_content Scenario.world
       (fun _ _ _ _ => inl (Py.Exception_ "429 RESOURCE_EXHAUSTED")))
    "Add clouds" "out/a.png" "1K" (Some "photo.jpg") (Some "k") =
  ([ReadFile "photo.jpg";
    GenerateContent (mkClient "k") ImageScript.model
      [PartFromBytes (mkBlob Scenario.jpg_bytes "image/jpeg");
       PromptText "Add clouds"] "1K";
    Stderr (ErrorCallingGeminiApi "429 RESOURCE_EXHAUSTED")],
   inl (SysExit 1 (ServiceError "429 RESOURCE_EXHAUSTED"))).
Proof.
  apply (image_service_error_is_final
           (set_generate_content Scenario.world
              (fun _ _ _ _ => inl (Py.Exception_ "429 RESOURCE_EXHAUSTED")))
           "Add clouds" "out/a.png" "1K" (Some "photo.jpg") (Some "k") "k"
           [ReadFile "photo.jpg"]
           [PartFromBytes (mkBlob Scenario.jpg_bytes "image/jpeg");
            PromptText "Add clouds"]
           (Py.Exception_ "429 RESOURCE_EXHAUSTED"));
    solve [reflexivity | discriminate | simpl; auto].
Defined.

(** ** What the image script does with the service's answer *)

Lemma extract_parts_none w out response others :
  candidates response = Some (mkCandidate (mkContent None) :: others) ->
  ImageScript.extract_and_save w out response =
  ([], inl (Uncaught Py.not_iterable)).
Proof.
  intro Hc.
  unfold ImageScript.extract_and_save, ImageScript.first_candidate_parts.
  rewrite Hc. reflexivity.
Qed.

Lemma extract_mkdir_fails w out response skipped part rest blob others e :
  candidates response =
    Some (mkCandidate (mkContent (Some (skipped ++ part :: rest))) :: others) ->
  Forall (fun q => inline_data q = None) skipped ->
  inline_data part = Some blob ->
  mkdir_parents w (path_parent w out) = Some e ->
  ImageScript.extract_and_save w out response =
  ([Mkdir (path_parent w out)], inl (Uncaught e)).
Proof.
  intros Hc Ht Hp Hm.
  unfold ImageScript.extract_and_save, ImageScript.first_candidate_parts.
  rewrite Hc. cbn [parts content]. rewrite bind_ret.
  rewrite (scan_parts_skips _ _ _ _ Ht). simpl.
  rewrite Hp, Hm. reflexivity.
Qed.

Lemma extract_write_fails w out response skipped part rest blob others e :
  candidates response =
    Some (mkCandidate (mkContent (Some (skipped ++ part :: rest))) :: others) ->
  Forall (fun q => inline_data q = None) skipped ->
  inline_data part = Some blob ->
  mkdir_parents w (path_parent w out) = None ->
  write_bytes w out (blob_data blob) = Some e ->
  ImageScript.extract_and_save w out response =
  ([Mkdir (path_parent w out); WriteBytes out (blob_data blob)],
   inl (Uncaught e)).
Proof.
  intros Hc Ht Hp Hm Hw.
  unfold ImageScript.extract_and_save, ImageScript.first_candidate_parts.
  rewrite Hc. cbn [parts content]. rewrite bind_ret.
  rewrite (scan_parts_skips _ _ _ _ Ht). simpl.
  rewrite Hp, Hm, Hw. reflexivity.
Qed.

Section ImageAnswer.

(** A run of [generate_image] that got as far as an answer from the
    service: the key is resolved, the resolution valid, the contents built
    (reading the input image when there is one) and the call returned
    [response]. *)
Variables (w : World) (prompt out res : string).
Variables (img api_key : option string) (k : string).
Variables (t : list event) (cs : list content_item) (response : Response).
Hypothesis key_resolved : resolved_api_key w api_key = Some k.
Hypothesis key_not_empty : k <> "".
Hypothesis resolution_valid : In res ImageScript.valid_resolutions.
Hypothesis contents_built :
  ImageScript.build_contents w prompt img = (t, inr cs).
Hypothesis answered :
  generate_content w (mkClient k) ImageScript.model cs res = inr response.

Let request : event := GenerateContent (mkClient k) ImageScript.model cs res.

Lemma generate_image_answered :
  ImageScript.generate_image w prompt out res img api_key =
  (t ++ request :: fst (ImageScript.extract_and_save w out response),
   snd (ImageScript.extract_and_save w out response)).
Proof.
  rewrite (generate_image_eq _ _ _ _ _ _ _ _ _ key_resolved key_not_empty
             resolution_valid contents_built), answered.
  reflexivity.
Qed.

(** X3.  The image script saves the first part of the first candidate that
    has [inline_data]: it makes the parent directory, writes exactly that
    part's bytes to the output path, prints and returns the resolved path.
    The parts before it (their text included), the parts after it and every
    other candidate play no role. *)
Theorem image_saves_first_inline_part
    (skipped rest : list Part) (part : Part) (blob : Blob)
    (others : list Candidate) :
  candidates response =
    Some (mkCandidate (mkContent (Some (skipped ++ part :: rest))) :: others) ->
  Forall (fun q => inline_data q = None) skipped ->
  inline_data part = Some blob ->
  mkdir_parents w (path_parent w out) = None ->
  write_bytes w out (blob_data blob) = None ->
  ImageScript.generate_image w prompt out res img api_key =
  (t ++ [request; Mkdir (path_parent w out);
         WriteBytes out (blob_data blob);
         Stdout (ImageSaved (path_resolve w out))],
   inr (path_resolve w out)).
Proof.
  intros Hc Hs Hp Hm Hw. rewrite generate_image_answered.
  rewrite (extract_first_binary_part _ _ _ _ _ _ _ _ Hc Hs Hp Hm Hw).
  reflexivity.
Qed.

(** X4.  When no part of the first candidate has [inline_data], the image
    script prints the no-image error, then the text of every part whose
    text is not empty, in the order of the parts, and exits with status 1.
    Nothing is written, and the other candidates are not looked at, whatever
    they hold. *)
Theorem image_without_inline_data_reports_texts
    (ps : list Part) (others : list Candidate) :
  candidates response = Some (mkCandidate (mkContent (Some ps)) :: others) ->
  Forall (fun q => inline_data q = None) ps ->
  ImageScript.generate_image w prompt out res img api_key =
  (t ++ request :: Stderr NoImageGenerated ::
     flat_map (fun part =>
                 match text part with
                 | Some s => if s =? "" then [] else [Stderr (ModelResponse s)]
                 | None => []
                 end) ps,
   inl (SysExit 1 NoMediaProduced)).
Proof.
  intros Hc Hn. rewrite generate_image_answered.
  rewrite (extract_no_binary_part _ _ _ _ _ Hc Hn). reflexivity.
Qed.

(** X5.  A first candidate whose content has no parts list ([parts] is
    [None]) makes the [for] loop of line 130 raise [TypeError]: the run ends
    with that uncaught exception right after the call, without the no-image
    message that line 141 guards for this very case. *)
Theorem image_parts_none_is_uncaught (others : list Candidate) :
  candidates response = Some (mkCandidate (mkContent None) :: others) ->
  ImageScript.generate_image w prompt out res img api_key =
  (t ++ [request], inl (Uncaught Py.not_iterable)).
Proof.
  intro Hc. rewrite generate_image_answered.
  rewrite (extract_parts_none _ _ _ _ Hc). reflexivity.
Qed.

(** X6.  The image script does not catch failures of the disk: when making
    the directory fails the run ends with that exception and nothing is
    written; when writing the file fails the run ends with that exception,
    the directory already made.  In both cases no saved line is printed and
    no path returned. *)
Theorem image_disk_failure_is_uncaught
    (skipped rest : list Part) (part : Part) (blob : Blob)
    (others : list Candidate) (e : Py.exn) :
  candidates response =
    Some (mkCandidate (mkContent (Some (skipped ++ part :: rest))) :: others) ->
  Forall (fun q => inline_data q = None) skipped ->
  inline_data part = Some blob ->
  (mkdir_parents w (path_parent w out) = Some e ->
   ImageScript.generate_image w prompt out res img api_key =
   (t ++ [request; Mkdir (path_parent w out)], inl (Uncaught e))) /\
  (mkdir_parents w (path_parent w out) = None ->
   write_bytes w out (blob_data blob) = Some e ->
   ImageScript.generate_image w prompt out res img api_key =
   (t ++ [request; Mkdir (path_parent w out);
          WriteBytes out (blob_data blob)],
    inl (Uncaught e))).
Proof.
  intros Hc Hs Hp. split.
  - intro Hm. rewrite generate_image_answered.
    rewrite (extract_mkdir_fails _ _ _ _ _ _ _ _ _ Hc Hs Hp Hm).
    reflexivity.
  - intros Hm Hw. rewrite generate_image_answered.
    rewrite (extract_write_fails _ _ _ _ _ _ _ _ _ Hc Hs Hp Hm Hw).
    reflexivity.
Qed.

End ImageAnswer.

Lemma image_saves_first_inline_part_witness :
  ImageScript.generate_image (Scenario.world_answering Cases.two_pictures)
    "A red circle" "out/a.png" "4K" None (Some "k") =
  ([GenerateContent (mkClient "k") ImageScript.model
      [PromptText "A red circle"] "4K";
    Mkdir "out"; WriteBytes "out/a.png" Scenario.png_bytes;
    Stdout (ImageSaved "/home/user/out/a.png")],
   inr "/home/user/out/a.png").
Proof.
  apply (image_saves_first_inline_part
           (Scenario.world_answering Cases.two_pictures)
           "A red circle" "out/a.png" "4K" None (Some "k") "k" []
           [PromptText "A red circle"] Cases.two_pictures
           eq_refl ltac:(discriminate) ltac:(simpl; auto) eq_refl eq_refl
           [Scenario.text_part "Here you go."]
           [Scenario.image_part Scenario.jpg_bytes]
           (Scenario.image_part Scenario.png_bytes)
           (mkBlob Scenario.png_bytes "image/png")
           [mkCandidate (mkContent (Some
              [Scenario.image_part Scenario.jpg_bytes]))]
           eq_refl ltac:(repeat constructor) eq_refl eq_refl eq_refl).
Defined.

Lemma image_without_inline_data_reports_texts_witness :
  ImageScript.generate_image (Scenario.world_answering Cases.refusal)
    "A red circle" "out/a.png" "1K" None (Some "k") =
  ([GenerateContent (mkClient "k") ImageScript.model
      [PromptText "A red circle"] "1K";
    Stderr NoImageGenerated;
    Stderr (ModelResponse "I cannot draw that.");
    Stderr (ModelResponse "Try another prompt.")],
   inl (SysExit 1 NoMediaProduced)).
Proof.
  apply (image_without_inline_data_reports_texts
           (Scenario.world_answering Cases.refusal) "A red circle"
           "out/a.png" "1K" None (Some "k") "k" [] [PromptText "A red circle"]
           Cases.refusal
           eq_refl ltac:(discriminate) ltac:(simpl; auto) eq_refl eq_refl
           [Scenario.text_part "I cannot draw that.";
            Scenario.text_part ""; mkPart None None;
            Scenario.text_part "Try another prompt."]
           [mkCandidate (mkContent (Some
              [Scenario.image_part Scenario.jpg_bytes]))]
           eq_refl ltac:(repeat constructor)).
Defined.

Lemma image_parts_none_is_uncaught_witness :
  ImageScript.generate_image (Scenario.world_answering Cases.no_parts)
    "A red circle" "out/a.png" "1K" None (Some "k") =
  ([GenerateContent (mkClient "k") ImageScript.model
      [PromptText "A red circle"] "1K"],
   inl (Uncaught Py.not_iterable)).
Proof.
  apply (image_parts_none_is_uncaught
           (Scenario.world_answering Cases.no_parts) "A red circle"
           "out/a.png" "1K" None (Some "k") "k" [] [PromptText "A red circle"]
           Cases.no_parts
           eq_refl ltac:(discriminate) ltac:(simpl; auto) eq_refl eq_refl
           [] eq_refl).
Defined.

Lemma image_disk_failure_is_uncaught_witness :
  ImageScript.generate_image Cases.full_disk
    "A red circle" "out/a.png" "1K" None (Some "k") =
  ([GenerateContent (mkClient "k") ImageScript.model
      [PromptText "A red circle"] "1K";
    Mkdir "out"; WriteBytes "out/a.png" Scenario.png_bytes],
   inl (Uncaught (Py.OSError "No space left on device"))) /\
  ImageScript.generate_image Cases.read_only_disk
    "A red circle" "out/a.png" "1K" None (Some "k") =
  ([GenerateContent (mkClient "k") ImageScript.model
      [PromptText "A red circle"] "1K";
    Mkdir "out"],
   inl (Uncaught (Py.OSError "Read-only file system"))).
Proof.
  split.
  - apply (image_disk_failure_is_uncaught Cases.full_disk
             "A red circle" "out/a.png" "1K" None (Some "k") "k" []
             [PromptText "A red circle"]
             (mkResponse (Some [mkCandidate (mkContent (Some
                [Scenario.text_part "Here is your picture.";
                 Scenario.image_part Scenario.png_bytes]))]))
             eq_refl ltac:(discriminate) ltac:(simpl; auto) eq_refl eq_refl
             [Scenario.text_part "Here is your picture."] []
             (Scenario.image_part Scenario.png_bytes)
             (mkBlob Scenario.png_bytes "image/png") []
             (Py.OSError "No space left on device")
             eq_refl ltac:(repeat constructor) eq_refl);
      reflexivity.
  - apply (image_disk_failure_is_uncaught Cases.read_only_disk
             "A red circle" "out/a.png" "1K" None (Some "k") "k" []
             [PromptText "A red circle"]
             (mkResponse (Some [mkCandidate (mkContent (Some
                [Scenario.text_part "Here is your picture.";
                 Scenario.image_part Scenario.png_bytes]))]))
             eq_refl ltac:(discriminate) ltac:(simpl; auto) eq_refl eq_refl
             [Scenario.text_part "Here is your picture."] []
             (Scenario.image_part Scenario.png_bytes)
             (mkBlob Scenario.png_bytes "image/png") []
             (Py.OSError "Read-only file system")
             eq_refl ltac:(repeat constructor) eq_refl);
      reflexivity.
Defined.

(** ** Finer event classes *)

Lemma filter_none (f : event -> bool) (tr : list event) :
  Forall (fun e => f e = false) tr -> filter f tr = [].
Proof.
  induction 1 as [| e tr He _ IH]; [reflexivity | ].
  simpl. rewrite He. exact IH.
Qed.

Lemma count_none (f : event -> bool) (tr : list event) :
  Forall (fun e => f e = false) tr -> count f tr = 0.
Proof. intro H. unfold count. rewrite (filter_none _ _ H). reflexivity. Qed.

Section FineSteps.

Variable P : event -> Prop.
Hypothesis stderr_ok : forall m, P (Stderr m).
Hypothesis read_ok : forall p, P (ReadFile p).

Lemma fine_resolve_api_key w api_key :
  Forall P (fst (resolve_api_key w api_key)).
Proof.
  unfold resolve_api_key.
  destruct (resolved_api_key w api_key) as [k |]; [destruct (k =? "") | ];
    step_runs; auto.
Qed.

Lemma fine_validate_resolution resolution :
  Forall P (fst (ImageScript.validate_resolution resolution)).
Proof.
  unfold ImageScript.validate_resolution.
  destruct (existsb _ _); step_runs; auto.
Qed.

Lemma fine_build_contents w prompt input_image_path :
  Forall P (fst (ImageScript.build_contents w prompt input_image_path)).
Proof.
  unfold ImageScript.build_contents.
  apply all_bind; [ | intros; step_runs ].
  destruct input_image_path as [p |]; [destruct (p =? "") | ]; step_runs.
  - unfold ImageScript.load_image_as_base64.
    destruct (fs w p); step_runs; auto.
  - destruct a. step_runs.
Qed.

Lemma fine_print_model_responses ps :
  Forall P (fst (ImageScript.print_model_responses ps)).
Proof.
  induction ps as [| part rest IH]; simpl.
  - constructor.
  - apply all_bind; [ | intros; exact IH ].
    destruct (Py.truthy (text part)); [destruct (text part) | ];
      step_runs; auto.
Qed.

Lemma fine_check_for_errors operation :
  Forall P (fst (VideoScript.check_for_errors operation)).
Proof.
  unfold VideoScript.check_for_errors.
  destruct (error operation) as [d |]; [destruct (d =? "") | ];
    step_runs; auto.
Qed.

(** The lines of the video script before the polling starts. *)
Hypothesis loading_ok : forall p, P (Stdout (LoadingInputImage p)).
Hypothesis starting_ok : forall m, P (Stdout (StartingVideoGeneration m)).
Hypothesis prompt_ok : forall p, P (Stdout (Prompt p)).
Hypothesis negative_ok : forall n, P (Stdout (NegativePrompt n)).
Hypothesis submit_ok :
  forall c model prompt image config,
    P (GenerateVideos c model prompt image config).

Lemma fine_load_input_image w input_image_path :
  Forall P (fst (VideoScript.load_input_image w input_image_path)).
Proof.
  unfold VideoScript.load_input_image.
  destruct input_image_path as [p |]; [destruct (p =? "") | ]; step_runs.
  destruct (fs w p); step_runs; auto.
Qed.

Lemma fine_start_generation w c model prompt negative image config :
  Forall P
    (fst (VideoScript.start_generation w c model prompt negative image config)).
Proof.
  unfold VideoScript.start_generation. step_runs; auto.
  destruct negative as [n |]; [destruct (n =? "") | ]; step_runs; auto.
Qed.

End FineSteps.

(** ** What a run of the image script sends *)

(** X7.  A run of the image script makes at most one network call, and
    never a second one after a failure.  When it makes one, it is the
    [generate_content] call, through a client built with the resolved,
    non-empty key, to the model [gemini-3-pro-image-preview], with an
    [image_size] that is one of "1K", "2K", "4K". *)
Theorem image_at_most_one_call
    (w : World) (prompt out res : string) (img api_key : option string) :
  let tr := fst (ImageScript.generate_image w prompt out res img api_key) in
  network_calls tr = [] \/
  exists k cs,
    network_calls tr =
      [GenerateContent (mkClient k) "gemini-3-pro-image-preview" cs res] /\
    resolved_api_key w api_key = Some k /\ k <> "" /\
    In res ["1K"; "2K"; "4K"].
Proof.
  intro tr. subst tr.
  assert (Local : forall ev, is_network_call ev = false ->
                    is_extraction ev = false -> is_network_call ev = false)
    by (intros ev H _; exact H).
  assert (Disk : forall ev, is_network_call ev = false ->
                   is_extraction ev = true -> is_network_call ev = false)
    by (intros ev H _; exact H).
  destruct (Py.truthy (resolved_api_key w api_key)) eqn:T.
  2: { left. rewrite (generate_image_unkeyed _ _ _ _ _ _ T). reflexivity. }
  destruct (resolved_api_key w api_key) as [k |] eqn:Hr; [ | discriminate T].
  assert (Hk : k <> "") by (intro; subst k; discriminate T).
  destruct (in_dec string_dec res ImageScript.valid_resolutions)
    as [Hres | Hres].
  2: { left. rewrite (generate_image_keyed _ _ _ _ _ _ _ Hr Hk).
       rewrite (invalid_resolution_exits _ Hres). reflexivity. }
  destruct (ImageScript.build_contents w prompt img) as [t [h | cs]] eqn:Hb.
  - left. rewrite (generate_image_keyed _ _ _ _ _ _ _ Hr Hk).
    rewrite (valid_resolution_passes _ Hres), bind_ret.
    unfold ImageScript.request_and_save. rewrite Hb. simpl.
    apply filter_none. change t with (fst (t, @inl halt (list content_item) h)).
    rewrite <- Hb. apply all_build_contents. exact Local.
  - right. exists k, cs. repeat split; try assumption.
    rewrite (generate_image_eq _ _ _ _ _ _ _ _ _ Hr Hk Hres Hb).
    assert (Ht : filter is_network_call t = []).
    { apply filter_none. change t with (fst (t, @inr halt _ cs)).
      rewrite <- Hb. apply all_build_contents. exact Local. }
    unfold network_calls.
    destruct (generate_content w (mkClient k) ImageScript.model cs res)
      as [e | response]; simpl fst; rewrite filter_app, Ht.
    + reflexivity.
    + simpl. rewrite (filter_none is_network_call
                        (fst (ImageScript.extract_and_save w out response)));
        [reflexivity | ].
      apply all_extract_and_save; assumption.
Qed.

(** A run that ends early has only the events of the steps that ran. *)
Lemma halted_bind (P : event -> Prop) {A B} (m : run A) (k : A -> run B) :
  Forall P (fst m) ->
  (forall a h, snd (k a) = inl h -> Forall P (fst (k a))) ->
  forall h, snd (bind m k) = inl h -> Forall P (fst (bind m k)).
Proof.
  intros Hm Hk h. rewrite bind_eq. destruct (snd m) as [h' | a]; simpl.
  - intros _. exact Hm.
  - intro E. apply Forall_app. split; [exact Hm | exact (Hk a h E)].
Qed.

Lemma scan_parts_halted w out ps ts h :
  ImageScript.scan_parts w out ps = (ts, inl h) ->
  Forall (fun ev => is_saved_line ev = false) ts.
Proof.
  revert ts. induction ps as [| part rest IH]; simpl; intros ts Sc.
  - discriminate Sc.
  - destruct (inline_data part) as [blob |]; [ | apply IH; exact Sc].
    destruct (mkdir_parents w (path_parent w out));
      [inversion Sc; repeat constructor | ].
    destruct (write_bytes w out (blob_data blob));
      [inversion Sc; repeat constructor | ].
    discriminate Sc.
Qed.

Lemma scan_parts_fell_through w out ps ts :
  ImageScript.scan_parts w out ps = (ts, inr None) -> ts = [].
Proof.
  revert ts. induction ps as [| part rest IH]; simpl; intros ts Sc.
  - inversion Sc. reflexivity.
  - destruct (inline_data part) as [blob |]; [ | apply IH; exact Sc].
    destruct (mkdir_parents w (path_parent w out)); [discriminate Sc | ].
    destruct (write_bytes w out (blob_data blob)); discriminate Sc.
Qed.

Lemma extract_halted_without_saved_line w out response h :
  snd (ImageScript.extract_and_save w out response) = inl h ->
  Forall (fun ev => is_saved_line ev = false)
    (fst (ImageScript.extract_and_save w out response)).
Proof.
  unfold ImageScript.extract_and_save.
  destruct (ImageScript.first_candidate_parts response) as [x | [ps |]];
    try (intros _; constructor).
  rewrite bind_ret.
  destruct (ImageScript.scan_parts w out ps) as [ts [hs | saved]] eqn:Sc.
  - intros _. simpl. exact (scan_parts_halted _ _ _ _ _ Sc).
  - destruct saved as [p |]; [rewrite bind_value; intro E; discriminate E | ].
    rewrite (scan_parts_fell_through _ _ _ _ Sc). intros _.
    change (@pair (list event) (halt + option string) [] (inr None))
      with (ret (@None string)).
    rewrite bind_ret. step_runs; try reflexivity.
    destruct (ImageScript.guarded_parts response);
      [apply fine_print_model_responses; intros; reflexivity | step_runs].
Qed.

(** The saved line of the image script and the way the run ends. *)
Lemma generate_image_saved_line
    (w : World) (prompt out res : string) (img api_key : option string) :
  let image_run := ImageScript.generate_image w prompt out res img api_key in
  (forall full_path, snd image_run = inr full_path ->
     exists before,
       fst image_run = before ++ [Stdout (ImageSaved full_path)] /\
       count is_saved_line before = 0) /\
  (forall h, snd image_run = inl h -> count is_saved_line (fst image_run) = 0).
Proof.
  intro image_run. subst image_run.
  set (P := fun ev => is_saved_line ev = false).
  assert (P1 : Forall P (fst (resolve_api_key w api_key)))
    by (apply fine_resolve_api_key; intros; reflexivity).
  assert (P2 : Forall P (fst (ImageScript.validate_resolution res)))
    by (apply fine_validate_resolution; intros; reflexivity).
  assert (P3 : Forall P (fst (ImageScript.build_contents w prompt img)))
    by (apply fine_build_contents; intros; reflexivity).
  split.
  - intros full_path E.
    destruct (ImageScript.generate_image w prompt out res img api_key)
      as [tr r] eqn:Run. simpl in E. subst r.
    unfold ImageScript.generate_image in Run.
    apply bind_returns in Run. destruct Run as (t1 & k & t2 & E1 & E2 & ->).
    apply bind_returns in E2. destruct E2 as (t3 & u & t4 & E3 & E4 & ->).
    unfold ImageScript.request_and_save in E4.
    apply bind_returns in E4. destruct E4 as (t5 & cs & t6 & E5 & E6 & ->).
    apply bind_returns in E6. destruct E6 as (t7 & r & t8 & E7 & E8 & ->).
    destruct (extract_and_save_returns _ _ _ _ _ E8) as (-> & data & ->).
    rewrite E1 in P1. rewrite E3 in P2. rewrite E5 in P3. simpl in P1, P2, P3.
    apply try_except_returns in E7;
      [ | intro e; eexists; eexists; reflexivity ].
    assert (P7 : Forall P t7).
    { destruct (generate_content w (mkClient k) ImageScript.model cs res);
        inversion E7. repeat constructor. }
    exists (t1 ++ t3 ++ t5 ++ t7 ++
            [Mkdir (path_parent w out); WriteBytes out data]).
    split.
    + simpl fst. rewrite <- !app_assoc. reflexivity.
    + apply count_none. repeat (apply Forall_app; split); try assumption.
      repeat constructor.
  - intros h E. apply count_none. revert h E.
    unfold ImageScript.generate_image.
    apply halted_bind; [exact P1 | intros k].
    apply halted_bind; [exact P2 | intros _].
    unfold ImageScript.request_and_save.
    apply halted_bind; [exact P3 | intros cs].
    apply halted_bind; [step_runs; reflexivity | intros response].
    apply extract_halted_without_saved_line.
Qed.

(** X8.  The image script prints its saved line exactly when it returns: a
    returning run ends with that line, which shows the returned path, and
    a run that ends any other way (an exit, an uncaught exception) has
    printed no saved line. *)
Theorem image_saved_line_iff_returned
    (w : World) (prompt out res : string) (img api_key : option string) :
  let image_run := ImageScript.generate_image w prompt out res img api_key in
  (forall full_path, snd image_run = inr full_path ->
     exists before,
       fst image_run = before ++ [Stdout (ImageSaved full_path)] /\
       count is_saved_line before = 0) /\
  (forall h, snd image_run = inl h -> count is_saved_line (fst image_run) = 0).
Proof. exact (generate_image_saved_line w prompt out res img api_key). Qed.

(** X9.  An empty string given for an optional argument is the same run as
    not giving it: an empty input image path in either script, and an empty
    negative prompt in the video script, change nothing, whatever the
    world and the other arguments. *)
Theorem empty_optional_arguments_are_ignored
    (w : World) (prompt out res model : string)
    (neg img api_key : option string) :
  ImageScript.generate_image w prompt out res (Some "") api_key =
    ImageScript.generate_image w prompt out res None api_key /\
  VideoScript.generate_video w prompt out model neg (Some "") api_key =
    VideoScript.generate_video w prompt out model neg None api_key /\
  VideoScript.generate_video w prompt out model (Some "") img api_key =
    VideoScript.generate_video w prompt out model None img api_key.
Proof. repeat split. Qed.

Lemma image_saved_line_iff_returned_witness :
  snd (ImageScript.generate_image Scenario.world "A red circle" "out/a.png"
         "1K" None (Some "k")) = inr "/home/user/out/a.png" /\
  (exists before,
     fst (ImageScript.generate_image Scenario.world "A red circle"
            "out/a.png" "1K" None (Some "k")) =
       before ++ [Stdout (ImageSaved "/home/user/out/a.png")] /\
     count is_saved_line before = 0) /\
  snd (ImageScript.generate_image (Scenario.world_answering Cases.refusal)
         "A red circle" "out/a.png" "1K" None (Some "k")) =
    inl (SysExit 1 NoMediaProduced) /\
  count is_saved_line
    (fst (ImageScript.generate_image (Scenario.world_answering Cases.refusal)
            "A red circle" "out/a.png" "1K" None (Some "k"))) = 0.
Proof.
  destruct (image_saved_line_iff_returned Scenario.world "A red circle"
              "out/a.png" "1K" None (Some "k")) as (Returned & _).
  destruct (image_saved_line_iff_returned
              (Scenario.world_answering Cases.refusal) "A red circle"
              "out/a.png" "1K" None (Some "k")) as (_ & Halted).
  split; [reflexivity | split; [ | split; [reflexivity | ]]].
  - apply (Returned "/home/user/out/a.png" eq_refl).
  - apply (Halted (SysExit 1 NoMediaProduced) eq_refl).
Defined.

(** ** The video script, step by step *)

Lemma start_generation_eq w c model prompt negative image config :
  VideoScript.start_generation w c model prompt negative image config =
  match generate_videos w c model prompt image config with
  | inl e =>
      (announcement model prompt negative ++
       [GenerateVideos c model prompt image config;
        Stderr (ErrorStartingVideoGeneration (Py.str_of_exn e))],
       inl (SysExit 1 (ServiceError (Py.str_of_exn e))))
  | inr operation =>
      (announcement model prompt negative ++
       [GenerateVideos c model prompt image config],
       inr operation)
  end.
Proof.
  unfold VideoScript.start_generation, announcement.
  destruct (generate_videos w c model prompt image config) as [e | op];
    destruct negative as [n |]; [destruct (n =? "") | | destruct (n =? "") | ];
    reflexivity.
Qed.

Lemma generate_with_client_eq w c prompt out model neg img t image :
  VideoScript.load_input_image w img = (t, inr image) ->
  VideoScript.generate_with_client w c prompt out model neg img =
  match generate_videos w c model prompt image (VideoScript.build_config neg)
  with
  | inl e =>
      (t ++ announcement model prompt neg ++
       [GenerateVideos c model prompt image (VideoScript.build_config neg);
        Stderr (ErrorStartingVideoGeneration (Py.str_of_exn e))],
       inl (SysExit 1 (ServiceError (Py.str_of_exn e))))
  | inr operation =>
      (t ++ announcement model prompt neg ++
       GenerateVideos c model prompt image (VideoScript.build_config neg) ::
       fst (VideoScript.poll_and_save w c out operation),
       snd (VideoScript.poll_and_save w c out operation))
  end.
Proof.
  intro Hl. unfold VideoScript.generate_with_client.
  rewrite Hl, bind_value. cbv beta. rewrite start_generation_eq.
  destruct (generate_videos w c model prompt image
              (VideoScript.build_config neg)) as [e | op].
  - reflexivity.
  - rewrite bind_value. cbv beta. simpl fst. simpl snd.
    rewrite <- !app_assoc. reflexivity.
Qed.

Lemma load_input_image_absent w img :
  Py.truthy img = false ->
  VideoScript.load_input_image w img = ([], inr None).
Proof.
  unfold VideoScript.load_input_image. destruct img as [p |]; simpl.
  - destruct (p =? ""); [reflexivity | discriminate].
  - reflexivity.
Qed.

Lemma load_input_image_file w p d :
  p <> "" -> fs w p = Some (Py.File d) ->
  VideoScript.load_input_image w (Some p) =
  ([Stdout (LoadingInputImage p); ReadFile p],
   inr (Some (mkImage d (VideoScript.input_image_mime_type w p)))).
Proof.
  intros Hp Hfs. unfold VideoScript.load_input_image.
  apply String.eqb_neq in Hp. rewrite Hp, Hfs. reflexivity.
Qed.

(** X10.  In the video script a non-empty input path that names nothing on
    disk is reported: the run prints the not-found line on the error stream
    and exits with status 1, before announcing anything and before any
    network call.  (The image script raises instead.) *)
Theorem video_missing_input_exits
    (w : World) (prompt out model p : string) (neg api_key : option string)
    (k : string) :
  resolved_api_key w api_key = Some k -> k <> "" ->
  p <> "" -> fs w p = None ->
  VideoScript.generate_video w prompt out model neg (Some p) api_key =
  ([Stderr (InputImageNotFound p)], inl (SysExit 1 InputNotFound)).
Proof.
  intros Hr Hk Hp Hfs. rewrite (generate_video_keyed _ _ _ _ _ _ _ _ Hr Hk).
  unfold VideoScript.generate_with_client, VideoScript.load_input_image.
  apply String.eqb_neq in Hp. rewrite Hp, Hfs. reflexivity.
Qed.

Lemma video_missing_input_exits_witness :
  VideoScript.generate_video Scenario.world "A cat" "out/a.mp4" "veo"
    (Some "dogs") (Some "gone.png") (Some "k") =
  ([Stderr (InputImageNotFound "gone.png")], inl (SysExit 1 InputNotFound)).
Proof.
  apply (video_missing_input_exits Scenario.world "A cat" "out/a.mp4" "veo"
           "gone.png" (Some "dogs") (Some "k") "k");
    solve [reflexivity | discriminate].
Defined.

(** X11.  When [generate_videos] raises, the video script prints the
    exception's text and exits with status 1 at once: the failed submission
    is the only network call, it is not tried again, and the run neither
    polls nor sleeps nor touches the output location.  The request carries
    the model and the prompt as given, the loaded image, and a config that
    holds the negative prompt when there is a non-empty one and is [None]
    otherwise. *)
Theorem video_submission_failure_is_final
    (w : World) (prompt out model : string)
    (neg img api_key : option string) (k : string)
    (t : list event) (image : option Image) (e : Py.exn) :
  resolved_api_key w api_key = Some k -> k <> "" ->
  VideoScript.load_input_image w img = (t, inr image) ->
  generate_videos w (mkClient k) model prompt image
    (VideoScript.build_config neg) = inl e ->
  let video_run :=
    VideoScript.generate_video w prompt out model neg img api_key in
  let request :=
    GenerateVideos (mkClient k) model prompt image
      (VideoScript.build_config neg) in
  video_run =
    (t ++ announcement model prompt neg ++
     [request; Stderr (ErrorStartingVideoGeneration (Py.str_of_exn e))],
     inl (SysExit 1 (ServiceError (Py.str_of_exn e)))) /\
  network_calls (fst video_run) = [request] /\
  count is_poll (fst video_run) = 0 /\
  count is_delay (fst video_run) = 0 /\
  count is_extraction (fst video_run) = 0 /\
  (VideoScript.build_config neg = None <-> Py.truthy neg = false).
Proof.
  intros Hr Hk Hl He video_run request.
  assert (E : video_run =
    (t ++ announcement model prompt neg ++
     [request; Stderr (ErrorStartingVideoGeneration (Py.str_of_exn e))],
     inl (SysExit 1 (ServiceError (Py.str_of_exn e))))).
  { subst video_run request.
    rewrite (generate_video_keyed _ _ _ _ _ _ _ _ Hr Hk).
    rewrite (generate_with_client_eq _ _ _ _ _ _ _ _ _ Hl), He.
    reflexivity. }
  assert (T : Forall (fun ev => is_network_call ev = false /\
                                is_poll ev = false /\ is_delay ev = false /\
                                is_extraction ev = false) t).
  { change t with (fst (t, @inr halt _ image)). rewrite <- Hl.
    apply fine_load_input_image; intros; repeat split. }
  assert (A : Forall (fun ev => is_network_call ev = false /\
                                is_poll ev = false /\ is_delay ev = false /\
                                is_extraction ev = false)
                (announcement model prompt neg)).
  { unfold announcement. destruct neg as [n |]; [destruct (n =? "") | ];
      repeat constructor. }
  split; [exact E | ]. rewrite E. simpl fst.
  assert (F : forall f,
            (forall ev, is_network_call ev = false /\ is_poll ev = false /\
                        is_delay ev = false /\ is_extraction ev = false ->
                        f ev = false) ->
            filter f (t ++ announcement model prompt neg ++
                      [request;
                       Stderr (ErrorStartingVideoGeneration
                                 (Py.str_of_exn e))]) =
            filter f [request]).
  { intros f Hf. rewrite !filter_app.
    rewrite (filter_none f t)
      by (eapply Forall_impl; [ | exact T]; exact Hf).
    rewrite (filter_none f (announcement model prompt neg))
      by (eapply Forall_impl; [ | exact A]; exact Hf).
    simpl.
    rewrite (Hf (Stderr (ErrorStartingVideoGeneration (Py.str_of_exn e))))
      by (repeat split).
    reflexivity. }
  split; [ | split; [ | split; [ | split]]].
  - unfold network_calls. rewrite F; [reflexivity | ].
    intros ev (H & _). exact H.
  - unfold count. rewrite F; [reflexivity | ]. intros ev (_ & H & _). exact H.
  - unfold count. rewrite F; [reflexivity | ].
    intros ev (_ & _ & H & _). exact H.
  - unfold count. rewrite F; [reflexivity | ].
    intros ev (_ & _ & _ & H). exact H.
  - unfold VideoScript.build_config. destruct neg as [n |]; simpl.
    + destruct (n =? ""); simpl; split; intro H;
        solve [reflexivity | discriminate H].
    + split; reflexivity.
Qed.

Lemma video_submission_failure_is_final_witness :
  VideoScript.generate_video Cases.video_service_down "A cat" "out/a.mp4"
    "veo-3.0-generate-001" (Some "dogs") (Some "photo.jpg") (Some "k") =
  ([Stdout (LoadingInputImage "photo.jpg"); ReadFile "photo.jpg";
    Stdout (StartingVideoGeneration "veo-3.0-generate-001");
    Stdout (Prompt "A cat"); Stdout (NegativePrompt "dogs");
    GenerateVideos (mkClient "k") "veo-3.0-generate-001" "A cat"
      (Some (mkImage Scenario.jpg_bytes "image/jpeg"))
      (Some (mkVideosConfig "dogs"));
    Stderr (ErrorStartingVideoGeneration "503 UNAVAILABLE")],
   inl (SysExit 1 (ServiceError "503 UNAVAILABLE"))).
Proof.
  apply (video_submission_failure_is_final Cases.video_service_down "A cat"
           "out/a.mp4" "veo-3.0-generate-001" (Some "dogs")
           (Some "photo.jpg") (Some "k") "k"
           [Stdout (LoadingInputImage "photo.jpg"); ReadFile "photo.jpg"]
           (Some (mkImage Scenario.jpg_bytes "image/jpeg"))
           (Py.Exception_ "503 UNAVAILABLE"));
    solve [reflexivity | discriminate].
Defined.

(** ** The shape of the polling *)

(** Whatever the answers, the loop's events are whole turns (progress line,
    sleep, query), followed at most by the error line of a failed query. *)
Lemma wait_for_completion_shape c answers n operation :
  exists j,
    j <= S (length answers) /\
    (fst (VideoScript.wait_for_completion c answers n operation) =
       polling_trace c n j \/
     exists e,
       fst (VideoScript.wait_for_completion c answers n operation) =
         polling_trace c n j ++
         [Stderr (ErrorCheckingOperationStatus e)] /\
       snd (VideoScript.wait_for_completion c answers n operation) =
         inl (SysExit 1 (ServiceError e))).
Proof.
  revert n operation.
  induction answers as [| answer answers IH]; intros n operation;
    destruct (done operation) eqn:D.
  - exists 0. split; [lia | left]. rewrite (wait_done _ _ _ _ D). reflexivity.
  - exists 1. split; [simpl; lia | left].
    rewrite wait_for_completion_eq, D. reflexivity.
  - exists 0. split; [lia | left]. rewrite (wait_done _ _ _ _ D). reflexivity.
  - destruct answer as [e | operation'].
    + exists 1. split; [simpl; lia | right]. exists (Py.str_of_exn e).
      rewrite (wait_failure _ _ _ _ _ D). split; reflexivity.
    + rewrite (wait_step _ _ _ _ _ D).
      destruct (IH (n + 1)%Z operation') as (j & Hj & [E | (e & E & F)]).
      * exists (S j). split; [simpl; lia | left].
        rewrite bind_value. cbv beta. simpl fst. rewrite E.
        symmetry. apply polling_trace_succ.
      * exists (S j). split; [simpl; lia | right]. exists e.
        rewrite bind_value. cbv beta. simpl fst. simpl snd. rewrite E, F.
        split; [ | reflexivity].
        rewrite polling_trace_succ, <- app_assoc. reflexivity.
Qed.

Lemma polling_trace_elapsed c n j :
  elapsed_reports (polling_trace c n j) =
  map (fun i => ((n + Z.of_nat i + 1) * 20)%Z) (seq 0 j).
Proof.
  revert n. induction j as [| j IH]; intro n; [reflexivity | ].
  rewrite polling_trace_succ. simpl. rewrite IH, <- seq_shift, map_map.
  f_equal; [f_equal; lia | ].
  apply map_ext. intro i. f_equal. lia.
Qed.

Lemma polling_trace_calls c n j :
  network_calls (polling_trace c n j) = repeat (OperationsGet c) j.
Proof.
  revert n. induction j as [| j IH]; intro n; [reflexivity | ].
  rewrite polling_trace_succ. unfold network_calls in *.
  rewrite filter_app, IH. reflexivity.
Qed.

Lemma elapsed_reports_app (t1 t2 : list event) :
  elapsed_reports (t1 ++ t2) = elapsed_reports t1 ++ elapsed_reports t2.
Proof.
  induction t1 as [| e t1 IH]; [reflexivity | ].
  destruct e as [[] | | | | | | | | | | ]; simpl; rewrite ?IH; reflexivity.
Qed.

Lemma elapsed_reports_none (tr : list event) :
  Forall (fun e => is_polling_event e = false) tr -> elapsed_reports tr = [].
Proof.
  induction 1 as [| e tr He _ IH]; [reflexivity | ].
  destruct e as [[] | | | | | | | | | | ]; simpl in *;
    try discriminate He; exact IH.
Qed.

Lemma outside_polling_no_poll (tr : list event) :
  Forall (fun e => is_polling_event e = false) tr ->
  count is_poll tr = 0 /\ count is_delay tr = 0.
Proof.
  intro H. split; apply count_none; eapply Forall_impl; try exact H;
    intros [[] | | | | | | | | | | ] E; simpl in *;
    solve [reflexivity | discriminate E].
Qed.

Lemma download_and_save_outside_polling w c out operation :
  Forall (fun e => is_polling_event e = false)
    (fst (VideoScript.download_and_save w c out operation)).
Proof.
  unfold VideoScript.download_and_save. step_runs; try reflexivity.
  destruct (result operation) as [[| v vs] |]; step_runs.
Qed.

(** Lines 108-139: the line that announces the wait, whole turns of the
    loop, then events that are no part of the polling. *)
Lemma poll_and_save_shape w c out operation :
  exists j tail,
    fst (VideoScript.poll_and_save w c out operation) =
      Stdout GeneratingVideo :: polling_trace c 0 j ++ tail /\
    Forall (fun e => is_polling_event e = false) tail.
Proof.
  rewrite poll_and_save_eq.
  destruct (wait_for_completion_shape c (operations_get w) 0 operation)
    as (j & _ & Shape).
  destruct (VideoScript.wait_for_completion c (operations_get w) 0 operation)
    as [tw [h | operation']].
  - simpl in Shape. destruct Shape as [-> | (e & -> & _)].
    + exists j, []. rewrite app_nil_r. split; [reflexivity | constructor].
    + exists j, [Stderr (ErrorCheckingOperationStatus e)].
      split; [reflexivity | repeat constructor].
  - simpl in Shape. destruct Shape as [-> | (e & _ & F)];
      [ | discriminate F].
    pose proof (fine_check_for_errors
                  (fun e => is_polling_event e = false)
                  (fun _ => eq_refl) operation') as C.
    destruct (VideoScript.check_for_errors operation') as [tc [h | u]];
      simpl in C.
    + exists j, tc. split; [reflexivity | exact C].
    + exists j, (tc ++ fst (VideoScript.download_and_save w c out operation')).
      split; [reflexivity | ].
      apply Forall_app. split;
        [exact C | apply download_and_save_outside_polling].
Qed.

Lemma announcement_outside_polling model prompt neg :
  Forall (fun e => is_polling_event e = false)
    (announcement model prompt neg).
Proof.
  unfold announcement. destruct neg as [n |]; [destruct (n =? "") | ];
    repeat constructor.
Qed.

(** A whole run of the video script: events that are no part of the
    polling, whole turns of the loop, events that are no part of the
    polling. *)
Lemma generate_video_shape w prompt out model neg img api_key :
  exists pre c j tail,
    fst (VideoScript.generate_video w prompt out model neg img api_key) =
      pre ++ polling_trace c 0 j ++ tail /\
    Forall (fun e => is_polling_event e = false) pre /\
    Forall (fun e => is_polling_event e = false) tail.
Proof.
  set (Q := fun e => is_polling_event e = false).
  assert (P1 : Forall Q (fst (resolve_api_key w api_key)))
    by (apply fine_resolve_api_key; intros; reflexivity).
  assert (P2 : Forall Q (fst (VideoScript.load_input_image w img)))
    by (apply fine_load_input_image; intros; reflexivity).
  unfold VideoScript.generate_video.
  destruct (resolve_api_key w api_key) as [t1 [h | k]]; simpl in P1.
  { exists t1, (mkClient ""), 0, []. simpl. rewrite app_nil_r.
    repeat split; [exact P1 | constructor]. }
  rewrite bind_value. cbv beta.
  destruct (VideoScript.load_input_image w img) as [t2 [h | image]] eqn:L;
    simpl in P2.
  { exists (t1 ++ t2), (mkClient ""), 0, [].
    unfold VideoScript.generate_with_client. rewrite L. simpl.
    rewrite app_nil_r. repeat split; [ | constructor].
    apply Forall_app. split; assumption. }
  rewrite (generate_with_client_eq _ _ _ _ _ _ _ _ _ L).
  destruct (generate_videos w (mkClient k) model prompt image
              (VideoScript.build_config neg)) as [e | operation].
  { exists (t1 ++ t2 ++ announcement model prompt neg ++
            [GenerateVideos (mkClient k) model prompt image
               (VideoScript.build_config neg);
             Stderr (ErrorStartingVideoGeneration (Py.str_of_exn e))]),
           (mkClient ""), 0, [].
    simpl fst. simpl polling_trace. rewrite !app_nil_r.
    repeat split; [ | constructor].
    pose proof (announcement_outside_polling model prompt neg) as PA.
    repeat first [assumption | apply Forall_app; split].
    repeat constructor. }
  destruct (poll_and_save_shape w (mkClient k) out operation)
    as (j & tail & E & T).
  exists (t1 ++ t2 ++ announcement model prompt neg ++
          [GenerateVideos (mkClient k) model prompt image
             (VideoScript.build_config neg);
           Stdout GeneratingVideo]),
         (mkClient k), j, tail.
  simpl fst. rewrite E. split; [ | split; [ | exact T]].
  - rewrite <- !app_assoc. reflexivity.
  - pose proof (announcement_outside_polling model prompt neg) as PA.
    repeat first [assumption | apply Forall_app; split].
    repeat constructor.
Qed.

(** X12.  In every run of the video script, whatever the service answers
    and however the run ends, there are exactly as many sleeps as status
    queries, every sleep lasts twenty seconds, and one progress line is
    printed per query: the i-th line announces i times twenty seconds. *)
Theorem video_polls_delays_progress
    (w : World) (prompt out model : string)
    (neg img api_key : option string) :
  let tr :=
    fst (VideoScript.generate_video w prompt out model neg img api_key) in
  count is_delay tr = count is_poll tr /\
  Forall (fun e => is_delay e = true -> e = Sleep 20) tr /\
  elapsed_reports tr =
    map (fun i => ((Z.of_nat i + 1) * 20)%Z) (seq 0 (count is_poll tr)).
Proof.
  intro tr. subst tr.
  destruct (generate_video_shape w prompt out model neg img api_key)
    as (pre & c & j & tail & -> & Hpre & Htail).
  destruct (outside_polling_no_poll _ Hpre) as (A1 & A2).
  destruct (outside_polling_no_poll _ Htail) as (B1 & B2).
  assert (Quiet : forall l, Forall (fun e => is_polling_event e = false) l ->
                    Forall (fun e => is_delay e = true -> e = Sleep 20) l).
  { intros l H. eapply Forall_impl; [ | exact H].
    intros [[] | | | | | | | | | | ] E D; simpl in *; discriminate. }
  rewrite !count_app, A1, A2, B1, B2.
  rewrite polling_trace_polls, polling_trace_delays.
  split; [reflexivity | split].
  - repeat (apply Forall_app; split); auto.
    apply polling_trace_fixed_interval.
  - rewrite !elapsed_reports_app.
    rewrite (elapsed_reports_none _ Hpre), (elapsed_reports_none _ Htail).
    rewrite polling_trace_elapsed, app_nil_r. simpl.
    replace (j + 0) with j by lia. reflexivity.
Qed.

(** ** The order of the video script's network calls *)

Lemma filter_bind (f : event -> bool) {A B} (m : run A) (k : A -> run B) :
  filter f (fst (bind m k)) =
  filter f (fst m) ++
  match snd m with
  | inl _ => []
  | inr a => filter f (fst (k a))
  end.
Proof.
  rewrite bind_eq. destruct (snd m); simpl.
  - rewrite app_nil_r. reflexivity.
  - apply filter_app.
Qed.

Lemma download_and_save_calls w c out operation :
  network_calls (fst (VideoScript.download_and_save w c out operation)) = [] \/
  exists file,
    network_calls (fst (VideoScript.download_and_save w c out operation)) =
    [FilesDownload c file].
Proof.
  unfold VideoScript.download_and_save.
  destruct (mkdir_parents w (path_parent w out)); [left; reflexivity | ].
  destruct (result operation) as [[| v vs] |]; try (left; reflexivity).
  right. exists (video v). rewrite bind_ret.
  destruct (files_download w (video v)); [reflexivity | ].
  destruct (video_save w (video v) out); reflexivity.
Qed.

Lemma local_is_not_network (e : event) :
  is_network_call e = false -> is_extraction e = false ->
  is_network_call e = false.
Proof. intros H _. exact H. Qed.

Lemma poll_and_save_calls w c out operation :
  exists j dl,
    network_calls (fst (VideoScript.poll_and_save w c out operation)) =
      repeat (OperationsGet c) j ++ dl /\
    (dl = [] \/ exists file, dl = [FilesDownload c file]).
Proof.
  rewrite poll_and_save_eq.
  destruct (wait_for_completion_shape c (operations_get w) 0 operation)
    as (j & _ & Shape).
  assert (Err : forall e l,
            network_calls (polling_trace c 0 j ++
                           Stderr (ErrorCheckingOperationStatus e) :: l) =
            repeat (OperationsGet c) j ++ network_calls l).
  { intros e l. unfold network_calls. rewrite filter_app.
    fold (network_calls (polling_trace c 0 j)).
    rewrite polling_trace_calls. reflexivity. }
  destruct (VideoScript.wait_for_completion c (operations_get w) 0 operation)
    as [tw [h | operation']]; simpl in Shape.
  - exists j, []. split; [ | left; reflexivity]. simpl fst.
    destruct Shape as [-> | (e & -> & _)].
    + change (network_calls (polling_trace c 0 j) =
              repeat (OperationsGet c) j ++ []).
      rewrite polling_trace_calls, app_nil_r. reflexivity.
    + change (network_calls
                (polling_trace c 0 j ++
                 [Stderr (ErrorCheckingOperationStatus e)]) =
              repeat (OperationsGet c) j ++ []).
      rewrite Err. reflexivity.
  - destruct Shape as [-> | (e & _ & F)]; [ | discriminate F].
    assert (C : network_calls
                  (fst (VideoScript.check_for_errors operation')) = []).
    { apply filter_none, all_check_for_errors, local_is_not_network. }
    destruct (VideoScript.check_for_errors operation') as [tc [h | u]];
      simpl in C; simpl fst.
    + exists j, []. split; [ | left; reflexivity].
      change (network_calls (polling_trace c 0 j ++ tc) =
              repeat (OperationsGet c) j ++ []).
      unfold network_calls in *. rewrite filter_app, C.
      fold (network_calls (polling_trace c 0 j)).
      rewrite polling_trace_calls. reflexivity.
    + exists j,
        (network_calls
           (fst (VideoScript.download_and_save w c out operation'))).
      split; [ | apply download_and_save_calls].
      change (network_calls
                (polling_trace c 0 j ++ tc ++
                 fst (VideoScript.download_and_save w c out operation')) =
              repeat (OperationsGet c) j ++
              network_calls
                (fst (VideoScript.download_and_save w c out operation'))).
      unfold network_calls in *. rewrite !filter_app, C.
      fold (network_calls (polling_trace c 0 j)).
      rewrite polling_trace_calls. reflexivity.
Qed.

Lemma wait_for_completion_calls c answers n operation :
  let tw := fst (VideoScript.wait_for_completion c answers n operation) in
  network_calls tw = repeat (OperationsGet c) (count is_poll tw) /\
  count is_poll tw <= S (length answers).
Proof.
  intro tw. subst tw.
  destruct (wait_for_completion_shape c answers n operation)
    as (j & Hj & [-> | (e & -> & _)]).
  - rewrite polling_trace_polls, polling_trace_calls. split; [reflexivity | lia].
  - rewrite count_app, polling_trace_polls.
    change (count is_poll [Stderr (ErrorCheckingOperationStatus e)]) with 0.
    replace (j + 0) with j by lia. unfold network_calls.
    rewrite filter_app. fold (network_calls (polling_trace c n j)).
    rewrite polling_trace_calls. simpl. rewrite app_nil_r.
    split; [reflexivity | lia].
Qed.

Lemma download_and_save_calls_exact w c out operation :
  network_calls (fst (VideoScript.download_and_save w c out operation)) =
  match mkdir_parents w (path_parent w out), result operation with
  | None, Some (v :: _) => [FilesDownload c (video v)]
  | _, _ => []
  end.
Proof.
  unfold VideoScript.download_and_save.
  destruct (mkdir_parents w (path_parent w out)); [reflexivity | ].
  destruct (result operation) as [[| v vs] |]; try reflexivity.
  rewrite bind_ret.
  destruct (files_download w (video v)); [reflexivity | ].
  destruct (video_save w (video v) out); reflexivity.
Qed.

Lemma check_for_errors_truthy operation :
  Py.truthy (error operation) = true ->
  exists detail,
    VideoScript.check_for_errors operation =
    ([Stderr (ErrorGeneratingVideo detail)],
     inl (SysExit 1 (GenerationFailed detail))).
Proof.
  unfold VideoScript.check_for_errors.
  destruct (error operation) as [d |]; simpl; [ | discriminate].
  destruct (d =? ""); [discriminate | ]. intros _. exists d. reflexivity.
Qed.

(** The network calls of lines 108-139, exactly. *)
Lemma poll_and_save_calls_exact w c out operation :
  network_calls (fst (VideoScript.poll_and_save w c out operation)) =
  repeat (OperationsGet c)
    (count is_poll
       (fst (VideoScript.wait_for_completion c (operations_get w) 0
               operation))) ++
  match snd (VideoScript.wait_for_completion c (operations_get w) 0
               operation) with
  | inl _ => []
  | inr finished =>
      if Py.truthy (error finished) then []
      else
        match mkdir_parents w (path_parent w out), result finished with
        | None, Some (v :: _) => [FilesDownload c (video v)]
        | _, _ => []
        end
  end.
Proof.
  rewrite poll_and_save_eq.
  destruct (wait_for_completion_calls c (operations_get w) 0 operation)
    as (Calls & _).
  destruct (VideoScript.wait_for_completion c (operations_get w) 0 operation)
    as [tw [h | finished]]; cbn [fst snd] in *.
  - unfold network_calls in *. simpl. rewrite Calls, app_nil_r. reflexivity.
  - destruct (Py.truthy (error finished)) eqn:T.
    + destruct (check_for_errors_truthy _ T) as (d & ->). cbn [fst].
      unfold network_calls in *. simpl. rewrite filter_app, Calls.
      reflexivity.
    + rewrite (check_for_errors_passes _ T). unfold ret. cbn [fst].
      rewrite <- (download_and_save_calls_exact w c out finished).
      unfold network_calls in *. simpl. rewrite filter_app, Calls.
      reflexivity.
Qed.

(** X13.  The network calls of a run of the video script, exactly.  None
    at all when no credential resolves, and none when the input image
    cannot be loaded.  Otherwise the submission is made, first, through the
    client built with the resolved key, carrying the model, the prompt, the
    loaded image and the config; when it fails it is the only call.  When
    it is accepted it is followed by the status queries of the loop and by
    nothing else, except one download, last, of the first generated video,
    made exactly when the loop ended with an operation that reports no
    error and has a video and the output directory could be made.  A handle
    that is already done is never queried, and there is at most one query
    more than the service has answers. *)
Theorem video_calls_in_order
    (w : World) (prompt out model : string)
    (neg img api_key : option string) :
  let tr :=
    fst (VideoScript.generate_video w prompt out model neg img api_key) in
  (Py.truthy (resolved_api_key w api_key) = false -> network_calls tr = []) /\
  (forall k, resolved_api_key w api_key = Some k -> k <> "" ->
     (forall t h,
        VideoScript.load_input_image w img = (t, inl h) ->
        network_calls tr = []) /\
     (forall t image,
        VideoScript.load_input_image w img = (t, inr image) ->
        let c := mkClient k in
        let request :=
          GenerateVideos c model prompt image (VideoScript.build_config neg) in
        (forall e,
           generate_videos w c model prompt image
             (VideoScript.build_config neg) = inl e ->
           network_calls tr = [request]) /\
        (forall submitted,
           generate_videos w c model prompt image
             (VideoScript.build_config neg) = inr submitted ->
           let waited :=
             VideoScript.wait_for_completion c (operations_get w) 0
               submitted in
           let j := count is_poll (fst waited) in
           j <= S (length (operations_get w)) /\
           (done submitted = true -> j = 0) /\
           network_calls tr =
             request :: repeat (OperationsGet c) j ++
             match snd waited with
             | inl _ => []
             | inr finished =>
                 if Py.truthy (error finished) then []
                 else
                   match mkdir_parents w (path_parent w out),
                         result finished with
                   | None, Some (v :: _) => [FilesDownload c (video v)]
                   | _, _ => []
                   end
             end))).
Proof.
  intro tr. subst tr. split.
  { intro T. rewrite (generate_video_unkeyed _ _ _ _ _ _ _ T). reflexivity. }
  intros k Hr Hk. rewrite (generate_video_keyed _ _ _ _ _ _ _ _ Hr Hk).
  assert (L0 : network_calls (fst (VideoScript.load_input_image w img)) = []).
  { apply filter_none, all_load_input_image, local_is_not_network. }
  assert (A0 : network_calls (announcement model prompt neg) = []).
  { unfold announcement. destruct neg as [n |]; [destruct (n =? "") | ];
      reflexivity. }
  split.
  - intros t h L. unfold VideoScript.generate_with_client.
    rewrite L in *. exact L0.
  - intros t image L c request. rewrite L in L0. cbn [fst] in L0.
    rewrite (generate_with_client_eq _ _ _ _ _ _ _ _ _ L). split.
    + intros e He. fold c. rewrite He. cbn [fst].
      unfold network_calls in *. rewrite !filter_app, L0, A0. reflexivity.
    + intros submitted Hs waited j. fold c. rewrite Hs. cbn [fst].
      destruct (wait_for_completion_calls c (operations_get w) 0 submitted)
        as (_ & Bound).
      split; [exact Bound | split].
      * intro Hd. subst j waited. rewrite (wait_done _ _ _ _ Hd).
        reflexivity.
      * pose proof (poll_and_save_calls_exact w c out submitted) as E.
        unfold network_calls in *. rewrite !filter_app, L0, A0. simpl.
        rewrite E. reflexivity.
Qed.

Lemma video_calls_in_order_witness :
  network_calls
    (fst (VideoScript.generate_video Scenario.world "A cat" "out/a.mp4"
            "veo" (Some "dogs") (Some "photo.jpg") (Some "k"))) =
  [GenerateVideos (mkClient "k") "veo" "A cat"
     (Some (mkImage Scenario.jpg_bytes "image/jpeg"))
     (Some (mkVideosConfig "dogs"));
   OperationsGet (mkClient "k"); OperationsGet (mkClient "k");
   OperationsGet (mkClient "k");
   FilesDownload (mkClient "k") "files/clip-1"] /\
  network_calls
    (fst (VideoScript.generate_video Scenario.world "A cat" "out/a.mp4"
            "veo" None (Some "gone.png") (Some "k"))) = [] /\
  network_calls
    (fst (VideoScript.generate_video Cases.video_service_down "A cat"
            "out/a.mp4" "veo" None None (Some "k"))) =
  [GenerateVideos (mkClient "k") "veo" "A cat" None None].
Proof.
  assert (N : "k" <> "") by discriminate.
  destruct (video_calls_in_order Scenario.world "A cat" "out/a.mp4" "veo"
              (Some "dogs") (Some "photo.jpg") (Some "k")) as (_ & Keyed).
  destruct (Keyed "k" eq_refl N) as (_ & Loaded).
  destruct (Loaded [Stdout (LoadingInputImage "photo.jpg");
                    ReadFile "photo.jpg"]
                   (Some (mkImage Scenario.jpg_bytes "image/jpeg")) eq_refl)
    as (_ & Accepted).
  destruct (Accepted Scenario.pending eq_refl) as (_ & _ & Calls).
  destruct (video_calls_in_order Scenario.world "A cat" "out/a.mp4" "veo"
              None (Some "gone.png") (Some "k")) as (_ & Keyed').
  destruct (Keyed' "k" eq_refl N) as (Missing & _).
  destruct (video_calls_in_order Cases.video_service_down "A cat"
              "out/a.mp4" "veo" None None (Some "k")) as (_ & Keyed'').
  destruct (Keyed'' "k" eq_refl N) as (_ & Loaded'').
  destruct (Loaded'' [] None eq_refl) as (Refused & _).
  split; [ | split].
  - rewrite Calls. reflexivity.
  - apply (Missing [Stderr (InputImageNotFound "gone.png")]
             (SysExit 1 InputNotFound)). reflexivity.
  - apply (Refused (Py.Exception_ "503 UNAVAILABLE")). reflexivity.
Defined.

(** X14.  When the submission returns a handle that is already done, the
    video script never asks for its status and never sleeps, whatever
    answers the service would give: after the waiting line it goes straight
    to the error check and the download. *)
Theorem video_finished_handle_is_not_polled
    (w : World) (prompt out model : string)
    (neg img api_key : option string) (k : string)
    (t : list event) (image : option Image) (operation : Operation) :
  resolved_api_key w api_key = Some k -> k <> "" ->
  VideoScript.load_input_image w img = (t, inr image) ->
  generate_videos w (mkClient k) model prompt image
    (VideoScript.build_config neg) = inr operation ->
  done operation = true ->
  let video_run :=
    VideoScript.generate_video w prompt out model neg img api_key in
  let rest :=
    VideoScript.check_for_errors operation ;;;
    VideoScript.download_and_save w (mkClient k) out operation in
  video_run =
    (t ++ announcement model prompt neg ++
     [GenerateVideos (mkClient k) model prompt image
        (VideoScript.build_config neg);
      Stdout GeneratingVideo] ++ fst rest,
     snd rest) /\
  count is_poll (fst video_run) = 0 /\
  count is_delay (fst video_run) = 0.
Proof.
  intros Hr Hk Hl Hs Hd video_run rest.
  assert (E : video_run =
    (t ++ announcement model prompt neg ++
     [GenerateVideos (mkClient k) model prompt image
        (VideoScript.build_config neg);
      Stdout GeneratingVideo] ++ fst rest,
     snd rest)).
  { subst video_run rest.
    rewrite (generate_video_keyed _ _ _ _ _ _ _ _ Hr Hk).
    rewrite (generate_with_client_eq _ _ _ _ _ _ _ _ _ Hl), Hs.
    rewrite poll_and_save_eq, (wait_done _ _ _ _ Hd). unfold ret.
    rewrite bind_eq.
    destruct (VideoScript.check_for_errors operation) as [tc [h | u]];
      reflexivity. }
  split; [exact E | ]. rewrite E. simpl fst.
  set (Q := fun e => is_polling_event e = false).
  assert (F : Forall Q
            (t ++ announcement model prompt neg ++
             [GenerateVideos (mkClient k) model prompt image
                (VideoScript.build_config neg);
              Stdout GeneratingVideo] ++ fst rest)).
  { pose proof (announcement_outside_polling model prompt neg) as PA.
    assert (PT : Forall Q t).
    { change t with (fst (t, @inr halt _ image)). rewrite <- Hl.
      apply fine_load_input_image; intros; reflexivity. }
    assert (PR : Forall Q (fst rest)).
    { subst rest. apply all_bind;
        [apply fine_check_for_errors; intros; reflexivity | intros _].
      apply download_and_save_outside_polling. }
    repeat first [assumption | apply Forall_app; split].
    repeat constructor. }
  exact (outside_polling_no_poll _ F).
Qed.

Lemma video_finished_handle_is_not_polled_witness :
  VideoScript.generate_video Cases.instant_video "A cat" "out/a.mp4" "veo"
    None None (Some "k") =
  ([Stdout (StartingVideoGeneration "veo"); Stdout (Prompt "A cat");
    GenerateVideos (mkClient "k") "veo" "A cat" None None;
    Stdout GeneratingVideo;
    Mkdir "out"; FilesDownload (mkClient "k") "files/clip-1";
    VideoSave "out/a.mp4"; Stdout (VideoSaved "/home/user/out/a.mp4")],
   inr "/home/user/out/a.mp4") /\
  operations_get Cases.instant_video =
    [inr Scenario.pending; inr Scenario.pending; inr Scenario.done_success].
Proof.
  split; [ | reflexivity].
  apply (video_finished_handle_is_not_polled Cases.instant_video "A cat"
           "out/a.mp4" "veo" None None (Some "k") "k" [] None
           Scenario.done_success);
    solve [reflexivity | discriminate].
Defined.

(** ** What the video script does with a finished job *)

Section VideoFinished.

(** A run of [generate_video] whose polling loop has ended with an operation
    that reports no error: the key is resolved, the input image loaded, the
    submission accepted, and the loop returned [operation]. *)
Variables (w : World) (prompt out model : string).
Variables (neg img api_key : option string) (k : string).
Variables (t tw : list event) (image : option Image).
Variables (submitted operation : Operation).
Hypothesis key_resolved : resolved_api_key w api_key = Some k.
Hypothesis key_not_empty : k <> "".
Hypothesis image_loaded : VideoScript.load_input_image w img = (t, inr image).
Hypothesis accepted :
  generate_videos w (mkClient k) model prompt image
    (VideoScript.build_config neg) = inr submitted.
Hypothesis waited :
  VideoScript.wait_for_completion (mkClient k) (operations_get w) 0 submitted
  = (tw, inr operation).
Hypothesis no_error : Py.truthy (error operation) = false.

Let before : list event :=
  t ++ announcement model prompt neg ++
  [GenerateVideos (mkClient k) model prompt image
     (VideoScript.build_config neg);
   Stdout GeneratingVideo] ++ tw.

Lemma generate_video_finished :
  VideoScript.generate_video w prompt out model neg img api_key =
  (before ++
     fst (VideoScript.download_and_save w (mkClient k) out operation),
   snd (VideoScript.download_and_save w (mkClient k) out operation)).
Proof.
  rewrite (generate_video_keyed _ _ _ _ _ _ _ _ key_resolved key_not_empty).
  rewrite (generate_with_client_eq _ _ _ _ _ _ _ _ _ image_loaded), accepted.
  rewrite poll_and_save_eq, waited, (check_for_errors_passes _ no_error).
  unfold ret, before. cbn [fst snd]. rewrite <- !app_assoc. reflexivity.
Qed.

(** X15.  A finished job without error is saved from its first generated
    video only: the script makes the parent directory of the output path,
    downloads that video, saves it to the output path, prints and returns
    the resolved path.  Further generated videos are never downloaded. *)
Theorem video_saves_first_generated_video
    (v : GeneratedVideo) (vs : list GeneratedVideo) :
  result operation = Some (v :: vs) ->
  mkdir_parents w (path_parent w out) = None ->
  files_download w (video v) = None ->
  video_save w (video v) out = None ->
  VideoScript.generate_video w prompt out model neg img api_key =
  (before ++
   [Mkdir (path_parent w out); FilesDownload (mkClient k) (video v);
    VideoSave out; Stdout (VideoSaved (path_resolve w out))],
   inr (path_resolve w out)).
Proof.
  intros Hres Hm Hd Hs. rewrite generate_video_finished.
  unfold VideoScript.download_and_save.
  rewrite Hres, Hm, bind_ret, Hd, Hs. reflexivity.
Qed.

(** X16.  A failure of the download or of the save is caught: the script
    prints the exception's text and exits with status 1.  The parent
    directory has been made by then, nothing is printed on the standard
    output about a saved file, and after a failed download the save is not
    attempted. *)
Theorem video_download_or_save_failure_exits
    (v : GeneratedVideo) (vs : list GeneratedVideo) (e : Py.exn) :
  result operation = Some (v :: vs) ->
  mkdir_parents w (path_parent w out) = None ->
  (files_download w (video v) = Some e ->
   VideoScript.generate_video w prompt out model neg img api_key =
   (before ++
    [Mkdir (path_parent w out); FilesDownload (mkClient k) (video v);
     Stderr (ErrorSavingVideo (Py.str_of_exn e))],
    inl (SysExit 1 (PersistenceError (Py.str_of_exn e))))) /\
  (files_download w (video v) = None ->
   video_save w (video v) out = Some e ->
   VideoScript.generate_video w prompt out model neg img api_key =
   (before ++
    [Mkdir (path_parent w out); FilesDownload (mkClient k) (video v);
     VideoSave out; Stderr (ErrorSavingVideo (Py.str_of_exn e))],
    inl (SysExit 1 (PersistenceError (Py.str_of_exn e))))).
Proof.
  intros Hres Hm. split.
  - intro Hd. rewrite generate_video_finished.
    unfold VideoScript.download_and_save.
    rewrite Hres, Hm, bind_ret, Hd. reflexivity.
  - intros Hd Hs. rewrite generate_video_finished.
    unfold VideoScript.download_and_save.
    rewrite Hres, Hm, bind_ret, Hd, Hs. reflexivity.
Qed.

(** X17.  A finished job without error and without a video (no result, or
    an empty list of generated videos) does not crash the video script: the
    failed access is inside the [try], so the script prints the exception's
    text and exits with status 1.  The directory has been made, nothing is
    downloaded. *)
Theorem video_without_generated_video_exits :
  mkdir_parents w (path_parent w out) = None ->
  (result operation = Some [] ->
   VideoScript.generate_video w prompt out model neg img api_key =
   (before ++
    [Mkdir (path_parent w out);
     Stderr (ErrorSavingVideo "list index out of range")],
    inl (SysExit 1 (PersistenceError "list index out of range")))) /\
  (result operation = None ->
   VideoScript.generate_video w prompt out model neg img api_key =
   (before ++
    [Mkdir (path_parent w out);
     Stderr (ErrorSavingVideo (Py.str_of_exn Py.no_generated_videos))],
    inl (SysExit 1
           (PersistenceError (Py.str_of_exn Py.no_generated_videos))))).
Proof.
  intro Hm. split; intro Hres; rewrite generate_video_finished;
    unfold VideoScript.download_and_save; rewrite Hres, Hm; reflexivity.
Qed.

(** X18.  Making the output directory is outside the [try]: when it fails,
    the video script ends with that exception uncaught, not with its
    saving-error exit, and nothing is downloaded. *)
Theorem video_mkdir_failure_is_uncaught (e : Py.exn) :
  mkdir_parents w (path_parent w out) = Some e ->
  VideoScript.generate_video w prompt out model neg img api_key =
  (before ++ [Mkdir (path_parent w out)], inl (Uncaught e)).
Proof.
  intro Hm. rewrite generate_video_finished.
  unfold VideoScript.download_and_save. rewrite Hm. reflexivity.
Qed.

End VideoFinished.

Lemma video_saves_first_generated_video_witness :
  VideoScript.generate_video
    (set_generate_videos Scenario.world
       (fun _ _ _ _ _ => inr Cases.done_two_videos))
    "A cat" "clips/a.mp4" "veo" None None (Some "k") =
  ([Stdout (StartingVideoGeneration "veo"); Stdout (Prompt "A cat");
    GenerateVideos (mkClient "k") "veo" "A cat" None None;
    Stdout GeneratingVideo;
    Mkdir "clips"; FilesDownload (mkClient "k") "files/clip-1";
    VideoSave "clips/a.mp4"; Stdout (VideoSaved "/home/user/clips/a.mp4")],
   inr "/home/user/clips/a.mp4").
Proof.
  apply (video_saves_first_generated_video
           (set_generate_videos Scenario.world
              (fun _ _ _ _ _ => inr Cases.done_two_videos))
           "A cat" "clips/a.mp4" "veo" None None (Some "k") "k" [] [] None
           Cases.done_two_videos Cases.done_two_videos
           eq_refl ltac:(discriminate) eq_refl eq_refl eq_refl eq_refl
           (mkGeneratedVideo "files/clip-1")
           [mkGeneratedVideo "files/clip-2"]
           eq_refl eq_refl eq_refl eq_refl).
Defined.

Lemma video_download_or_save_failure_exits_witness :
  VideoScript.generate_video Cases.download_fails "A cat" "clips/a.mp4"
    "veo" None None (Some "k") =
  ([Stdout (StartingVideoGeneration "veo"); Stdout (Prompt "A cat");
    GenerateVideos (mkClient "k") "veo" "A cat" None None;
    Stdout GeneratingVideo;
    Mkdir "clips"; FilesDownload (mkClient "k") "files/clip-1";
    Stderr (ErrorSavingVideo "download interrupted")],
   inl (SysExit 1 (PersistenceError "download interrupted"))) /\
  VideoScript.generate_video Cases.save_fails "A cat" "clips/a.mp4"
    "veo" None None (Some "k") =
  ([Stdout (StartingVideoGeneration "veo"); Stdout (Prompt "A cat");
    GenerateVideos (mkClient "k") "veo" "A cat" None None;
    Stdout GeneratingVideo;
    Mkdir "clips"; FilesDownload (mkClient "k") "files/clip-1";
    VideoSave "clips/a.mp4";
    Stderr (ErrorSavingVideo "No space left on device")],
   inl (SysExit 1 (PersistenceError "No space left on device"))).
Proof.
  split.
  - apply (video_download_or_save_failure_exits Cases.download_fails
             "A cat" "clips/a.mp4" "veo" None None (Some "k") "k" [] [] None
             Scenario.done_success Scenario.done_success
             eq_refl ltac:(discriminate) eq_refl eq_refl eq_refl eq_refl
             (mkGeneratedVideo "files/clip-1") []
             (Py.Exception_ "download interrupted") eq_refl eq_refl).
    reflexivity.
  - apply (video_download_or_save_failure_exits Cases.save_fails
             "A cat" "clips/a.mp4" "veo" None None (Some "k") "k" [] [] None
             Scenario.done_success Scenario.done_success
             eq_refl ltac:(discriminate) eq_refl eq_refl eq_refl eq_refl
             (mkGeneratedVideo "files/clip-1") []
             (Py.OSError "No space left on device") eq_refl eq_refl);
      reflexivity.
Defined.

Lemma video_without_generated_video_exits_witness :
  VideoScript.generate_video
    (set_generate_videos Scenario.world
       (fun _ _ _ _ _ => inr Cases.done_empty))
    "A cat" "clips/a.mp4" "veo" None None (Some "k") =
  ([Stdout (StartingVideoGeneration "veo"); Stdout (Prompt "A cat");
    GenerateVideos (mkClient "k") "veo" "A cat" None None;
    Stdout GeneratingVideo;
    Mkdir "clips"; Stderr (ErrorSavingVideo "list index out of range")],
   inl (SysExit 1 (PersistenceError "list index out of range"))) /\
  snd (VideoScript.generate_video
         (set_generate_videos Scenario.world
            (fun _ _ _ _ _ => inr Cases.done_without_result))
         "A cat" "clips/a.mp4" "veo" None None (Some "k")) =
  inl (SysExit 1
         (PersistenceError
            "'NoneType' object has no attribute 'generated_videos'")).
Proof.
  split.
  - apply (video_without_generated_video_exits
             (set_generate_videos Scenario.world
                (fun _ _ _ _ _ => inr Cases.done_empty))
             "A cat" "clips/a.mp4" "veo" None None (Some "k") "k" [] [] None
             Cases.done_empty Cases.done_empty
             eq_refl ltac:(discriminate) eq_refl eq_refl eq_refl eq_refl
             eq_refl).
    reflexivity.
  - rewrite (proj2 (video_without_generated_video_exits
             (set_generate_videos Scenario.world
                (fun _ _ _ _ _ => inr Cases.done_without_result))
             "A cat" "clips/a.mp4" "veo" None None (Some "k") "k" [] [] None
             Cases.done_without_result Cases.done_without_result
             eq_refl ltac:(discriminate) eq_refl eq_refl eq_refl eq_refl
             eq_refl) eq_refl).
    reflexivity.
Defined.

Lemma video_mkdir_failure_is_uncaught_witness :
  VideoScript.generate_video
    (set_mkdir_parents Cases.instant_video
       (fun _ => Some (Py.OSError "Permission denied")))
    "A cat" "clips/a.mp4" "veo" None None (Some "k") =
  ([Stdout (StartingVideoGeneration "veo"); Stdout (Prompt "A cat");
    GenerateVideos (mkClient "k") "veo" "A cat" None None;
    Stdout GeneratingVideo; Mkdir "clips"],
   inl (Uncaught (Py.OSError "Permission denied"))).
Proof.
  apply (video_mkdir_failure_is_uncaught
           (set_mkdir_parents Cases.instant_video
              (fun _ => Some (Py.OSError "Permission denied")))
           "A cat" "clips/a.mp4" "veo" None None (Some "k") "k" [] [] None
           Scenario.done_success Scenario.done_success
           eq_refl ltac:(discriminate) eq_refl eq_refl eq_refl eq_refl
           (Py.OSError "Permission denied") eq_refl).
Defined.

(** ** The guessed MIME type *)

(** X19.  When [mimetypes] recognizes the input image's name, both scripts
    tag the file with the guessed type as it is: the image script sends the
    file's bytes through the base64 encoding and decoding, the video script
    sends them as read. *)
Theorem guessed_mime_type_is_kept
    (w : World) (p prompt mime : string) (d : Py.bytes) :
  guess_type w p = Some mime -> mime <> "" ->
  p <> "" -> fs w p = Some (Py.File d) ->
  ImageScript.build_contents w prompt (Some p) =
    ([ReadFile p],
     inr [PartFromBytes
            (mkBlob (standard_b64decode w (standard_b64encode w d)) mime);
          PromptText prompt]) /\
  VideoScript.load_input_image w (Some p) =
    ([Stdout (LoadingInputImage p); ReadFile p],
     inr (Some (mkImage d mime))).
Proof.
  intros Hg Hm Hp Hfs. split.
  - rewrite (build_contents_with_image _ _ _ _ Hp Hfs).
    unfold ImageScript.get_mime_type. rewrite Hg. reflexivity.
  - rewrite (load_input_image_file _ _ _ Hp Hfs).
    unfold VideoScript.input_image_mime_type, Py.or_. rewrite Hg.
    rewrite (truthy_some _ Hm). reflexivity.
Qed.

Lemma guessed_mime_type_is_kept_witness :
  ImageScript.build_contents Scenario.world "Add clouds" (Some "photo.jpg") =
    ([ReadFile "photo.jpg"],
     inr [PartFromBytes (mkBlob Scenario.jpg_bytes "image/jpeg");
          PromptText "Add clouds"]) /\
  VideoScript.load_input_image Scenario.world (Some "photo.jpg") =
    ([Stdout (LoadingInputImage "photo.jpg"); ReadFile "photo.jpg"],
     inr (Some (mkImage Scenario.jpg_bytes "image/jpeg"))).
Proof.
  apply (guessed_mime_type_is_kept Scenario.world "photo.jpg" "Add clouds"
           "image/jpeg" Scenario.jpg_bytes);
    solve [reflexivity | discriminate].
Defined.

(** ** The ways a run can end *)

Lemma halt_bind (Q : halt -> Prop) {A B} (m : run A) (k : A -> run B) :
  (forall h, snd m = inl h -> Q h) ->
  (forall a h, snd (k a) = inl h -> Q h) ->
  forall h, snd (bind m k) = inl h -> Q h.
Proof.
  intros Hm Hk h. rewrite bind_eq. destruct (snd m) as [h' | a] eqn:E; simpl.
  - intro H. inversion H; subst. apply Hm. reflexivity.
  - apply Hk.
Qed.

Lemma resolve_api_key_ends w api_key h :
  snd (resolve_api_key w api_key) = inl h -> h = SysExit 1 MissingCredential.
Proof.
  unfold resolve_api_key.
  destruct (resolved_api_key w api_key) as [k |]; [destruct (k =? "") | ];
    simpl; intro E; inversion E; reflexivity.
Qed.

Lemma validate_resolution_ends res h :
  snd (ImageScript.validate_resolution res) = inl h ->
  h = SysExit 1 InvalidOption.
Proof.
  unfold ImageScript.validate_resolution.
  destruct (existsb _ _); simpl; intro E; inversion E; reflexivity.
Qed.

Lemma build_contents_ends w prompt img h :
  snd (ImageScript.build_contents w prompt img) = inl h ->
  exists e, h = Uncaught e.
Proof.
  unfold ImageScript.build_contents, ImageScript.load_image_as_base64.
  destruct img as [p |]; [destruct (p =? "") | ]; try discriminate.
  destruct (fs w p) as [[d |] |]; simpl; intro E; inversion E;
    eexists; reflexivity.
Qed.

Lemma scan_parts_ends w out ps h :
  snd (ImageScript.scan_parts w out ps) = inl h -> exists e, h = Uncaught e.
Proof.
  induction ps as [| part rest IH]; simpl; [discriminate | ].
  destruct (inline_data part) as [blob |]; [ | exact IH].
  destruct (mkdir_parents w (path_parent w out));
    [intro E; inversion E; eexists; reflexivity | ].
  destruct (write_bytes w out (blob_data blob));
    [intro E; inversion E; eexists; reflexivity | discriminate].
Qed.

Lemma extract_and_save_ends w out response h :
  snd (ImageScript.extract_and_save w out response) = inl h ->
  (exists e, h = Uncaught e) \/ h = SysExit 1 NoMediaProduced.
Proof.
  unfold ImageScript.extract_and_save.
  destruct (ImageScript.first_candidate_parts response) as [x | [ps |]];
    try (simpl; intro E; inversion E; left; eexists; reflexivity).
  rewrite bind_ret. revert h. apply halt_bind.
  - intros h E. left. exact (scan_parts_ends _ _ _ _ E).
  - intros [p |]; [discriminate | ].
    apply halt_bind; [discriminate | intros _].
    apply halt_bind.
    + intros h G. exfalso.
      destruct (ImageScript.guarded_parts response) as [ps' |];
        [rewrite print_model_responses_trace in G | ]; discriminate G.
    + intros _ h E. inversion E. right. reflexivity.
Qed.

Lemma generate_image_ends w prompt out res img api_key h :
  snd (ImageScript.generate_image w prompt out res img api_key) = inl h ->
  (exists e, h = Uncaught e) \/
  h = SysExit 1 MissingCredential \/
  h = SysExit 1 InvalidOption \/
  (exists m, h = SysExit 1 (ServiceError m)) \/
  h = SysExit 1 NoMediaProduced.
Proof.
  revert h. unfold ImageScript.generate_image. apply halt_bind.
  { intros h E. right. left. exact (resolve_api_key_ends _ _ _ E). }
  intros k. apply halt_bind.
  { intros h E. right. right. left. exact (validate_resolution_ends _ _ E). }
  intros _. unfold ImageScript.request_and_save. apply halt_bind.
  { intros h E. left. exact (build_contents_ends _ _ _ _ E). }
  intros cs. apply halt_bind.
  { intros h.
    destruct (generate_content w (mkClient k) ImageScript.model cs res);
      simpl; intro E; inversion E.
    right. right. right. left. eexists. reflexivity. }
  intros response h E.
  destruct (extract_and_save_ends _ _ _ _ E) as [U | N];
    [left; exact U | do 4 right; exact N].
Qed.

Lemma load_input_image_ends w img h :
  snd (VideoScript.load_input_image w img) = inl h ->
  (exists e, h = Uncaught e) \/ h = SysExit 1 InputNotFound.
Proof.
  unfold VideoScript.load_input_image.
  destruct img as [p |]; [destruct (p =? "") | ]; try discriminate.
  destruct (fs w p) as [[d |] |]; simpl; intro E; inversion E;
    [left; eexists; reflexivity | right; reflexivity].
Qed.

Lemma wait_for_completion_ends c answers n operation h :
  snd (VideoScript.wait_for_completion c answers n operation) = inl h ->
  h = Hang \/ exists m, h = SysExit 1 (ServiceError m).
Proof.
  revert n operation.
  induction answers as [| answer answers IH]; intros n operation;
    rewrite wait_for_completion_eq; destruct (done operation);
    try discriminate.
  - simpl. intro E. inversion E. left. reflexivity.
  - destruct answer as [e | operation'].
    + simpl. intro E. inversion E. right. eexists. reflexivity.
    + intro E. apply (IH (n + 1)%Z operation').
      rewrite !bind_eq in E. simpl in E. exact E.
Qed.

Lemma check_for_errors_ends operation h :
  snd (VideoScript.check_for_errors operation) = inl h ->
  exists detail, h = SysExit 1 (GenerationFailed detail).
Proof.
  unfold VideoScript.check_for_errors.
  destruct (error operation) as [d |]; [destruct (d =? "") | ];
    try discriminate.
  simpl. intro E. inversion E. eexists. reflexivity.
Qed.

Lemma download_and_save_ends w c out operation h :
  snd (VideoScript.download_and_save w c out operation) = inl h ->
  (exists e, h = Uncaught e) \/ exists m, h = SysExit 1 (PersistenceError m).
Proof.
  unfold VideoScript.download_and_save.
  destruct (mkdir_parents w (path_parent w out));
    [simpl; intro E; inversion E; left; eexists; reflexivity | ].
  destruct (result operation) as [[| v vs] |];
    try (simpl; intro E; inversion E; right; eexists; reflexivity).
  rewrite bind_ret.
  destruct (files_download w (video v));
    [simpl; intro E; inversion E; right; eexists; reflexivity | ].
  destruct (video_save w (video v) out);
    [simpl; intro E; inversion E; right; eexists; reflexivity | ].
  discriminate.
Qed.

Lemma generate_video_ends w prompt out model neg img api_key h :
  snd (VideoScript.generate_video w prompt out model neg img api_key) =
    inl h ->
  h = Hang \/
  (exists e, h = Uncaught e) \/
  h = SysExit 1 MissingCredential \/
  h = SysExit 1 InputNotFound \/
  (exists m, h = SysExit 1 (ServiceError m)) \/
  (exists detail, h = SysExit 1 (GenerationFailed detail)) \/
  (exists m, h = SysExit 1 (PersistenceError m)).
Proof.
  revert h. unfold VideoScript.generate_video. apply halt_bind.
  { intros h E. right. right. left. exact (resolve_api_key_ends _ _ _ E). }
  intros k. unfold VideoScript.generate_with_client. apply halt_bind.
  { intros h E. destruct (load_input_image_ends _ _ _ E) as [U | N];
      [right; left; exact U | do 3 right; left; exact N]. }
  intros image. apply halt_bind.
  { intros h. rewrite start_generation_eq.
    destruct (generate_videos w (mkClient k) model prompt image
                (VideoScript.build_config neg)); simpl; intro E; inversion E.
    right. right. right. right. left. eexists. reflexivity. }
  intros operation. unfold VideoScript.poll_and_save. apply halt_bind.
  { discriminate. }
  intros _. apply halt_bind.
  { intros h E. destruct (wait_for_completion_ends _ _ _ _ _ E) as [H | S];
      [left; exact H | do 4 right; left; exact S]. }
  intros operation'. apply halt_bind.
  { intros h E. right. right. right. right. right. left.
    exact (check_for_errors_ends _ _ E). }
  intros _ h E. destruct (download_and_save_ends _ _ _ _ _ E) as [U | S];
    [right; left; exact U | do 6 right; exact S].
Qed.

(** X20.  The image script has five ways to end early and no other: an
    uncaught exception, or [sys.exit(1)] for a missing credential, an
    invalid resolution, a failed service call, or an answer without image.
    It never hangs and never exits with another status. *)
Theorem image_ways_to_end
    (w : World) (prompt out res : string) (img api_key : option string) :
  let ending :=
    snd (ImageScript.generate_image w prompt out res img api_key) in
  (exists full_path, ending = inr full_path) \/
  (exists e, ending = inl (Uncaught e)) \/
  ending = inl (SysExit 1 MissingCredential) \/
  ending = inl (SysExit 1 InvalidOption) \/
  (exists m, ending = inl (SysExit 1 (ServiceError m))) \/
  ending = inl (SysExit 1 NoMediaProduced).
Proof.
  intro ending. subst ending.
  destruct (snd (ImageScript.generate_image w prompt out res img api_key))
    as [h | p] eqn:E.
  - right.
    destruct (generate_image_ends _ _ _ _ _ _ _ E)
      as [(e & ->) | [-> | [-> | [(m & ->) | ->]]]]; eauto 10.
  - left. exists p. reflexivity.
Qed.

(** X21.  The video script ends in one of these ways and no other: it
    returns the path; an uncaught exception; [sys.exit(1)] for a missing
    credential, a missing input image, a failed submission or status query,
    a job that finished with an error, or a failed download or save; or it
    is still waiting for an answer.  It never exits with another status. *)
Theorem video_ways_to_end
    (w : World) (prompt out model : string)
    (neg img api_key : option string) :
  let ending :=
    snd (VideoScript.generate_video w prompt out model neg img api_key) in
  (exists full_path, ending = inr full_path) \/
  ending = inl Hang \/
  (exists e, ending = inl (Uncaught e)) \/
  ending = inl (SysExit 1 MissingCredential) \/
  ending = inl (SysExit 1 InputNotFound) \/
  (exists m, ending = inl (SysExit 1 (ServiceError m))) \/
  (exists detail, ending = inl (SysExit 1 (GenerationFailed detail))) \/
  (exists m, ending = inl (SysExit 1 (PersistenceError m))).
Proof.
  intro ending. subst ending.
  destruct (snd (VideoScript.generate_video w prompt out model neg img
                   api_key)) as [h | p] eqn:E.
  - right.
    destruct (generate_video_ends _ _ _ _ _ _ _ _ E)
      as [-> | [(e & ->) | [-> | [-> | [(m & ->) | [(d & ->) | (m & ->)]]]]]];
      eauto 12.
  - left. exists p. reflexivity.
Qed.

(** ** The saved line of the video script *)

Lemma polling_trace_no_saved_line c n j :
  Forall (fun e => is_saved_line e = false) (polling_trace c n j).
Proof.
  revert n. induction j as [| j IH]; intro n; [constructor | ].
  rewrite polling_trace_succ. apply Forall_app. split; [ | apply IH].
  repeat constructor.
Qed.

Lemma wait_for_completion_no_saved_line c answers n operation :
  Forall (fun e => is_saved_line e = false)
    (fst (VideoScript.wait_for_completion c answers n operation)).
Proof.
  destruct (wait_for_completion_shape c answers n operation)
    as (j & _ & [-> | (e & -> & _)]).
  - apply polling_trace_no_saved_line.
  - apply Forall_app. split; [apply polling_trace_no_saved_line | ].
    repeat constructor.
Qed.

Lemma download_halted_without_saved_line w c out operation h :
  snd (VideoScript.download_and_save w c out operation) = inl h ->
  Forall (fun e => is_saved_line e = false)
    (fst (VideoScript.download_and_save w c out operation)).
Proof.
  unfold VideoScript.download_and_save.
  destruct (mkdir_parents w (path_parent w out));
    [intros _; repeat constructor | ].
  destruct (result operation) as [[| v vs] |];
    try solve [intros _; repeat constructor].
  rewrite bind_ret.
  destruct (files_download w (video v)); [intros _; repeat constructor | ].
  destruct (video_save w (video v) out); [intros _; repeat constructor | ].
  discriminate.
Qed.

Lemma generate_video_saved_line
    (w : World) (prompt out model : string)
    (neg img api_key : option string) :
  let video_run :=
    VideoScript.generate_video w prompt out model neg img api_key in
  (forall full_path, snd video_run = inr full_path ->
     full_path = path_resolve w out /\
     exists before,
       fst video_run = before ++ [Stdout (VideoSaved full_path)] /\
       count is_saved_line before = 0) /\
  (forall h, snd video_run = inl h -> count is_saved_line (fst video_run) = 0).
Proof.
  intro video_run. subst video_run.
  set (P := fun ev => is_saved_line ev = false).
  assert (P1 : Forall P (fst (resolve_api_key w api_key)))
    by (apply fine_resolve_api_key; intros; reflexivity).
  assert (P2 : Forall P (fst (VideoScript.load_input_image w img)))
    by (apply fine_load_input_image; intros; reflexivity).
  assert (P3 : forall c image,
            Forall P (fst (VideoScript.start_generation w c model prompt neg
                             image (VideoScript.build_config neg))))
    by (intros; apply fine_start_generation; intros; reflexivity).
  assert (P4 : forall operation,
            Forall P (fst (VideoScript.check_for_errors operation)))
    by (intros; apply fine_check_for_errors; intros; reflexivity).
  split.
  - intros full_path E.
    destruct (VideoScript.generate_video w prompt out model neg img api_key)
      as [tr r] eqn:Run. simpl in E. subst r.
    unfold VideoScript.generate_video, VideoScript.generate_with_client,
      VideoScript.poll_and_save in Run.
    apply bind_returns in Run. destruct Run as (t1 & k & t2 & E1 & E2 & ->).
    apply bind_returns in E2. destruct E2 as (t3 & im & t4 & E3 & E4 & ->).
    apply bind_returns in E4. destruct E4 as (t5 & op & t6 & E5 & E6 & ->).
    apply bind_returns in E6. destruct E6 as (t7 & u & t8 & E7 & E8 & ->).
    apply bind_returns in E8. destruct E8 as (t9 & op' & t10 & E9 & E10 & ->).
    apply bind_returns in E10.
    destruct E10 as (t11 & u' & t12 & E11 & E12 & ->).
    destruct (download_and_save_returns _ _ _ _ _ _ E12)
      as (-> & file & ->).
    split; [reflexivity | ].
    rewrite E1 in P1. rewrite E3 in P2. simpl in P1, P2.
    assert (Q5 : Forall P t5)
      by (specialize (P3 (mkClient k) im); rewrite E5 in P3; exact P3).
    assert (Q7 : Forall P t7) by (inversion E7; repeat constructor).
    assert (Q9 : Forall P t9).
    { pose proof (wait_for_completion_no_saved_line (mkClient k)
                    (operations_get w) 0 op) as W.
      rewrite E9 in W. exact W. }
    assert (Q11 : Forall P t11)
      by (specialize (P4 op'); rewrite E11 in P4; exact P4).
    exists (t1 ++ t3 ++ t5 ++ t7 ++ t9 ++ t11 ++
            [Mkdir (path_parent w out); FilesDownload (mkClient k) file;
             VideoSave out]).
    split.
    + simpl fst. rewrite <- !app_assoc. reflexivity.
    + apply count_none.
      repeat first [assumption | apply Forall_app; split].
      repeat constructor.
  - intros h E. apply count_none. revert h E.
    unfold VideoScript.generate_video.
    apply halted_bind; [exact P1 | intros k].
    unfold VideoScript.generate_with_client.
    apply halted_bind; [exact P2 | intros image].
    apply halted_bind; [apply P3 | intros operation].
    unfold VideoScript.poll_and_save.
    apply halted_bind; [repeat constructor | intros _].
    apply halted_bind;
      [apply wait_for_completion_no_saved_line | intros operation'].
    apply halted_bind; [apply P4 | intros _].
    apply download_halted_without_saved_line.
Qed.

(** X22.  The video script prints its saved line exactly when it returns:
    a returning run ends with that line, which shows the returned path,
    the resolved output path; a run that ends any other way has printed no
    saved line. *)
Theorem video_saved_line_iff_returned
    (w : World) (prompt out model : string)
    (neg img api_key : option string) :
  let video_run :=
    VideoScript.generate_video w prompt out model neg img api_key in
  (forall full_path, snd video_run = inr full_path ->
     full_path = path_resolve w out /\
     exists before,
       fst video_run = before ++ [Stdout (VideoSaved full_path)] /\
       count is_saved_line before = 0) /\
  (forall h, snd video_run = inl h -> count is_saved_line (fst video_run) = 0).
Proof. exact (generate_video_saved_line w prompt out model neg img api_key). Qed.

Lemma video_saved_line_iff_returned_witness :
  (exists before,
     fst (VideoScript.generate_video Scenario.world "A cat" "clips/a.mp4"
            "veo" None None (Some "k")) =
       before ++ [Stdout (VideoSaved "/home/user/clips/a.mp4")] /\
     count is_saved_line before = 0) /\
  count is_saved_line
    (fst (VideoScript.generate_video Cases.save_fails "A cat" "clips/a.mp4"
            "veo" None None (Some "k"))) = 0.
Proof.
  destruct (video_saved_line_iff_returned Scenario.world "A cat"
              "clips/a.mp4" "veo" None None (Some "k")) as (Returned & _).
  destruct (video_saved_line_iff_returned Cases.save_fails "A cat"
              "clips/a.mp4" "veo" None None (Some "k")) as (_ & Halted).
  split.
  - apply (Returned "/home/user/clips/a.mp4" eq_refl).
  - apply (Halted (SysExit 1 (PersistenceError "No space left on device"))
             eq_refl).
Defined.

(** ** The command line *)

Lemma request_and_save_ends w c prompt out res img h :
  snd (ImageScript.request_and_save w c prompt out res img) = inl h ->
  h <> SysExit 1 InvalidOption.
Proof.
  revert h. unfold ImageScript.request_and_save. apply halt_bind.
  { intros h E. destruct (build_contents_ends _ _ _ _ E) as (e & ->).
    discriminate. }
  intros cs. apply halt_bind.
  { intros h.
    destruct (generate_content w c ImageScript.model cs res);
      simpl; intro E; inversion E. discriminate. }
  intros response h E.
  destruct (extract_and_save_ends _ _ _ _ E) as [(e & ->) | ->];
    discriminate.
Qed.

(** X23.  From the command line the resolution check of [generate_image]
    cannot fail: the parser accepts for [--resolution] exactly the values the
    function accepts, and its default is one of them.  So whenever the
    parser enforces its choices, [main] runs the credential check and then
    the request, and never ends with the invalid-resolution exit. *)
Theorem image_main_resolution_is_valid
    (w : World) (parse_args : Cli.parser Cli.ImageArgs)
    (argv : list string) (args : Cli.ImageArgs) :
  Cli.enforces_choices parse_args ->
  parse_args argv = inr args ->
  In Cli.resolution_default ImageScript.valid_resolutions /\
  In (Cli.args_resolution args) ImageScript.valid_resolutions /\
  ImageScript.generate_image w (Cli.args_prompt args)
    (Cli.args_filename args) (Cli.args_resolution args)
    (Cli.args_input_image args) (Cli.args_api_key args) =
  (key <- resolve_api_key w (Cli.args_api_key args) ;;
   ImageScript.request_and_save w (mkClient key) (Cli.args_prompt args)
     (Cli.args_filename args) (Cli.args_resolution args)
     (Cli.args_input_image args)) /\
  snd (ImageScript.generate_image w (Cli.args_prompt args)
         (Cli.args_filename args) (Cli.args_resolution args)
         (Cli.args_input_image args) (Cli.args_api_key args)) <>
    inl (SysExit 1 InvalidOption).
Proof.
  intros Hc Hp. pose proof (Hc argv args Hp) as Hres.
  assert (Eq : ImageScript.generate_image w (Cli.args_prompt args)
                 (Cli.args_filename args) (Cli.args_resolution args)
                 (Cli.args_input_image args) (Cli.args_api_key args) =
               (key <- resolve_api_key w (Cli.args_api_key args) ;;
                ImageScript.request_and_save w (mkClient key)
                  (Cli.args_prompt args) (Cli.args_filename args)
                  (Cli.args_resolution args) (Cli.args_input_image args))).
  { unfold ImageScript.generate_image.
    rewrite (valid_resolution_passes _ Hres).
    destruct (resolve_api_key w (Cli.args_api_key args)) as [t [h | k]];
      [reflexivity | ].
    rewrite !bind_value. cbv beta. rewrite bind_ret. reflexivity. }
  split; [simpl; auto | split; [exact Hres | split; [exact Eq | ]]].
  rewrite Eq. intro E.
  refine (halt_bind (fun h => h <> SysExit 1 InvalidOption) _ _ _ _ _ E
            eq_refl).
  - intros h E'. rewrite (resolve_api_key_ends _ _ _ E'). discriminate.
  - intros k h E'. exact (request_and_save_ends _ _ _ _ _ _ _ E').
Qed.

Lemma image_main_resolution_is_valid_witness :
  Cli.enforces_choices Cases.small_parser /\
  Cases.small_parser ["A red circle"; "out/a.png"; "2K"] =
    inr (Cli.mkImageArgs "A red circle" "out/a.png" "2K" None None) /\
  snd (ImageScript.generate_image Scenario.world "A red circle" "out/a.png"
         "2K" None None) <> inl (SysExit 1 InvalidOption).
Proof.
  assert (Enforced : Cli.enforces_choices Cases.small_parser).
  { intros argv args. unfold Cases.small_parser.
    destruct argv as [| p [| f [| r [| x l]]]]; try discriminate.
    - intro E. inversion E. simpl. auto.
    - destruct (existsb (String.eqb r) Cli.resolution_choices) eqn:X;
        [ | discriminate].
      intro E. inversion E. simpl Cli.args_resolution.
      apply existsb_exists in X. destruct X as (r' & Hin & Heq).
      apply String.eqb_eq in Heq. subst r'. exact Hin. }
  split; [exact Enforced | split; [reflexivity | ]].
  apply (image_main_resolution_is_valid Scenario.world Cases.small_parser
           ["A red circle"; "out/a.png"; "2K"]
           (Cli.mkImageArgs "A red circle" "out/a.png" "2K" None None)
           Enforced eq_refl).
Defined.






(** ** The credential, end to end *)

(** Once the key resolves to a non-empty [k], both scripts go on with it. *)
Lemma resolved_key_is_used w api_key k prompt out res model neg img :
  resolved_api_key w api_key = Some k -> k <> "" ->
  runs_with_key w api_key k prompt out res model neg img.
Proof.
  intros Hr Hk. unfold runs_with_key.
  assert (Ei := generate_image_keyed w prompt out res img api_key k Hr Hk).
  assert (Ev := generate_video_keyed w prompt out model neg img api_key k
                  Hr Hk).
  split; [exact (resolve_api_key_truthy _ _ _ Hr Hk) | ].
  split; [exact Ei | split; [exact Ev | ]].
  split; [ | split; [ | split]].
  - rewrite Ei.
    apply all_bind; [ | intros; apply request_and_save_uses_client ].
    apply all_validate_resolution.
    intros [] H _; simpl in *; try discriminate; exact I.
  - rewrite Ev. apply generate_with_client_uses_client.
  - intros t cs Hres Hb.
    rewrite (generate_image_eq _ _ _ _ _ _ _ _ _ Hr Hk Hres Hb).
    destruct (generate_content w (mkClient k) ImageScript.model cs res);
      cbn [fst]; apply in_or_app; right; left; reflexivity.
  - intros t image Hl. rewrite Ev.
    rewrite (generate_with_client_eq _ _ _ _ _ _ _ _ _ Hl).
    destruct (generate_videos w (mkClient k) model prompt image
                (VideoScript.build_config neg));
      cbn [fst]; apply in_or_app; right; apply in_or_app; right; left;
      reflexivity.
Qed.

(** C5, amended.  In both scripts: when the explicit key and the environment
    variable are both absent or empty the run prints the two credential lines
    and exits with [MissingCredential], having made no network call.  An
    explicit key that is present and non-empty is used: the credential check
    returns it, the script runs the rest of its text with a client built
    from it, every network call goes through that client, and the request
    reaches the service under it once the steps before the call succeed.
    Otherwise a non-empty environment value is used in the same way. *)
Theorem C5_credential_resolution
    (w : World) (api_key : option string)
    (prompt out res model : string) (neg img : option string) :
  let image_run := ImageScript.generate_image w prompt out res img api_key in
  let video_run :=
    VideoScript.generate_video w prompt out model neg img api_key in
  (Py.truthy api_key = false ->
   Py.truthy (environ_GEMINI_API_KEY w) = false ->
   image_run = (missing_credential_trace, inl (SysExit 1 MissingCredential)) /\
   video_run = (missing_credential_trace, inl (SysExit 1 MissingCredential)) /\
   no_network_call missing_credential_trace) /\
  (forall k, api_key = Some k -> k <> "" ->
   resolved_api_key w api_key = Some k /\
   runs_with_key w api_key k prompt out res model neg img) /\
  (forall k, Py.truthy api_key = false ->
   environ_GEMINI_API_KEY w = Some k -> k <> "" ->
   resolved_api_key w api_key = Some k /\
   runs_with_key w api_key k prompt out res model neg img).
Proof.
  intros image_run video_run. split; [ | split ].
  - intros Ha He.
    assert (Py.truthy (resolved_api_key w api_key) = false)
      by (rewrite resolved_fallback; assumption).
    subst image_run video_run.
    rewrite generate_image_unkeyed, generate_video_unkeyed by assumption.
    repeat split. apply missing_credential_trace_is_local.
  - intros k -> Hk. pose proof (resolved_explicit w k Hk) as Hr.
    split; [exact Hr | apply resolved_key_is_used; assumption].
  - intros k Ha He Hk.
    assert (Hr : resolved_api_key w api_key = Some k)
      by (rewrite resolved_fallback; assumption).
    split; [exact Hr | apply resolved_key_is_used; assumption].
Qed.

Lemma C5_credential_resolution_witness :
  let w := set_environ Scenario.world (Some "env-key") in
  (Py.truthy (@None string) = false /\
   Py.truthy (environ_GEMINI_API_KEY Scenario.world) = false /\
   ImageScript.generate_image Scenario.world "A red circle" "out/a.png" "1K"
     None None =
   (missing_credential_trace, inl (SysExit 1 MissingCredential))) /\
  ("arg-key" <> "" /\
   In (GenerateVideos (mkClient "arg-key") "veo" "A cat"
         (Some (mkImage Scenario.jpg_bytes "image/jpeg")) None)
      (fst (VideoScript.generate_video w "A cat" "out/a.mp4" "veo" None
              (Some "photo.jpg") (Some "arg-key")))) /\
  (environ_GEMINI_API_KEY w = Some "env-key" /\
   In (GenerateContent (mkClient "env-key") ImageScript.model
         [PromptText "A red circle"] "1K")
      (fst (ImageScript.generate_image w "A red circle" "out/a.png" "1K"
              None None))).
Proof.
  intro w.
  assert (N1 : "arg-key" <> "") by discriminate.
  assert (N2 : "env-key" <> "") by discriminate.
  destruct (C5_credential_resolution Scenario.world None "A red circle"
              "out/a.png" "1K" "veo" None None) as (Absent & _ & _).
  destruct (C5_credential_resolution w (Some "arg-key") "A cat" "out/a.mp4"
              "1K" "veo" None (Some "photo.jpg")) as (_ & Explicit & _).
  destruct (C5_credential_resolution w None "A red circle" "out/a.png" "1K"
              "veo" None None) as (_ & _ & Fallback).
  split; [ | split ].
  - split; [reflexivity | split; [reflexivity | ]].
    apply Absent; reflexivity.
  - split; [exact N1 | ].
    destruct (Explicit "arg-key" eq_refl N1)
      as (_ & _ & _ & _ & _ & _ & _ & Video).
    apply (Video [Stdout (LoadingInputImage "photo.jpg");
                  ReadFile "photo.jpg"]). reflexivity.
  - split; [reflexivity | ].
    destruct (Fallback "env-key" eq_refl eq_refl N2)
      as (_ & _ & _ & _ & _ & _ & Image & _).
    apply (Image []); [simpl; auto | reflexivity].
Defined.

(** C10.  In both scripts an empty string counts as an absent credential.
    A run given [--api-key ""] is the run given no explicit key at all, and
    it falls back to the environment variable: when that holds a non-empty
    key the credential check returns it and the script goes on under it,
    up to the network call.  An empty environment value is ignored in the
    same way: it does not disturb a non-empty explicit key, and without a
    usable explicit key the run ends in the missing-credential exit. *)
Theorem C10_empty_credential_is_absent
    (w : World) (prompt out res model : string) (neg img : option string) :
  ImageScript.generate_image w prompt out res img (Some "") =
    ImageScript.generate_image w prompt out res img None /\
  VideoScript.generate_video w prompt out model neg img (Some "") =
    VideoScript.generate_video w prompt out model neg img None /\
  resolved_api_key w (Some "") = environ_GEMINI_API_KEY w /\
  ImageScript.generate_image (set_environ w (Some "")) prompt out res img None
    = (missing_credential_trace, inl (SysExit 1 MissingCredential)) /\
  VideoScript.generate_video (set_environ w (Some "")) prompt out model neg
    img None
    = (missing_credential_trace, inl (SysExit 1 MissingCredential)) /\
  ImageScript.generate_image (set_environ w (Some "")) prompt out res img
    (Some "")
    = (missing_credential_trace, inl (SysExit 1 MissingCredential)) /\
  VideoScript.generate_video (set_environ w (Some "")) prompt out model neg
    img (Some "")
    = (missing_credential_trace, inl (SysExit 1 MissingCredential)) /\
  (forall k, environ_GEMINI_API_KEY w = Some k -> k <> "" ->
     runs_with_key w (Some "") k prompt out res model neg img) /\
  (forall k, k <> "" ->
     runs_with_key (set_environ w (Some "")) (Some k) k prompt out res model
       neg img).
Proof.
  repeat match goal with |- _ /\ _ => split end;
    try (apply generate_image_unkeyed; reflexivity);
    try (apply generate_video_unkeyed; reflexivity);
    try reflexivity.
  - intros k He Hk. apply resolved_key_is_used; [ | exact Hk].
    rewrite resolved_fallback by reflexivity. exact He.
  - intros k Hk. apply resolved_key_is_used; [ | exact Hk].
    apply resolved_explicit. exact Hk.
Qed.

Lemma C10_empty_credential_is_absent_witness :
  let w := set_environ Scenario.world (Some "env-key") in
  environ_GEMINI_API_KEY w = Some "env-key" /\
  "env-key" <> "" /\
  ImageScript.generate_image w "A red circle" "out/a.png" "1K" None
    (Some "") =
  ([GenerateContent (mkClient "env-key") ImageScript.model
      [PromptText "A red circle"] "1K";
    Mkdir "out"; WriteBytes "out/a.png" Scenario.png_bytes;
    Stdout (ImageSaved "/home/user/out/a.png")],
   inr "/home/user/out/a.png") /\
  In (GenerateVideos (mkClient "env-key") "veo" "A cat" None None)
     (fst (VideoScript.generate_video w "A cat" "out/a.mp4" "veo" None None
             (Some ""))).
Proof.
  intro w.
  assert (N : "env-key" <> "") by discriminate.
  destruct (C10_empty_credential_is_absent w "A red circle" "out/a.png" "1K"
              "veo" None None)
    as (_ & _ & _ & _ & _ & _ & _ & Fallback & _).
  destruct (C10_empty_credential_is_absent w "A cat" "out/a.mp4" "1K"
              "veo" None None)
    as (_ & _ & _ & _ & _ & _ & _ & Fallback' & _).
  split; [reflexivity | split; [exact N | split]].
  - destruct (Fallback "env-key" eq_refl N) as (_ & Image & _).
    rewrite Image. reflexivity.
  - destruct (Fallback' "env-key" eq_refl N)
      as (_ & _ & _ & _ & _ & _ & Video).
    apply (Video []). reflexivity.
Defined.
